(** * Order-file download service: CORS setup, admin authorization and the
    batch download handler

    A shallow embedding of three JavaScript modules of the repository:

    - the CORS header setup ([setCorsHeaders]): the simplified version and
      the one of the shared configuration module,
    - the authorization service ([AuthService]: [parseAdminWhitelist],
      [normalizeEmail], [isAdmin], [hasAdminPermission]),
    - the batch download endpoint ([shopGql], [downloadFileFromShopify],
      [getFileFromMetaobject], [handler]).

    JavaScript strings are represented by their UTF-8 bytes ([string]);
    the operations the code uses on them (equality, [startsWith] with an
    ASCII prefix, [split] on a comma, concatenation, [encodeURIComponent])
    agree with the operations on the bytes.  The network, the clock and the
    library functions are a parameter of the handler ([Platform]); what the
    handler does to the outside is recorded as a list of events.

    The first part holds the definitions, the second part the properties. *)

From Stdlib Require Import String Ascii ZArith List Bool Lia.
From stdpp Require Import gmap strings list fin_maps pretty.

Local Open Scope string_scope.

(** ** JavaScript values and operators used by the code *)

Module Js.

(** Truthiness of a possibly absent string: [undefined], [null] and the
    empty string are falsy. *)
Definition truthy (v : option string) : bool :=
  match v with
  | Some (String _ _) => true
  | _ => false
  end.

(** [a || b] on possibly absent strings. *)
Definition or (a b : option string) : option string :=
  if truthy a then a else b.

(** [a || 'literal']: the result is a string. *)
Definition or_default (a : option string) (d : string) : string :=
  match a with
  | Some (String c s) => String c s
  | _ => d
  end.

(** [s.startsWith(p)] *)
Definition startsWith (s p : string) : bool := String.prefix p s.

(** [xs.includes(x)] on an array of strings. *)
Definition includes (xs : list string) (x : string) : bool :=
  existsb (String.eqb x) xs.

(** [s.split(sep)] for a one-character separator: never empty. *)
Fixpoint split (sep : ascii) (s : string) : list string :=
  match s with
  | EmptyString => [EmptyString]
  | String c rest =>
      if Ascii.eqb c sep then EmptyString :: split sep rest
      else match split sep rest with
           | x :: xs => String c x :: xs
           | [] => [String c EmptyString]
           end
  end.

(** [s.includes(c)] for a one-character string. *)
Definition includes_char (s : string) (c : ascii) : bool :=
  existsb (Ascii.eqb c) (list_ascii_of_string s).

(** The double-quote character of template literals. *)
Definition dquote : string := String (ascii_of_nat 34) EmptyString.

End Js.

(** ** The request and the response object *)

Record Request := {
  method : string;                     (* req.method *)
  header_origin : option string;       (* req.headers.origin *)
  header_referer : option string;      (* req.headers.referer *)
  query_draftOrderId : option string   (* req.query.draftOrderId *)
}.

(** What the handler hands to the response object as its body. *)
Inductive Body :=
| NoBody                                      (* nothing sent yet, or [end()] *)
| JsonBody (fields : list (string * string))  (* [json({...})] *)
| BinaryBody (bytes : list Byte.byte).        (* [send(buffer)] *)

(** The response object [res]: [setHeader] stores one value per header
  name, [status] sets the status code, [end], [json] and [send] fix the
  body.  Headers added by the platform's own serializers are not part of
  the record. *)
Record Response := {
  res_status : nat;
  res_headers : gmap string string;
  res_body : Body
}.

Definition fresh_response : Response :=
  {| res_status := 200; res_headers := ∅; res_body := NoBody |}.

Definition setHeader (name value : string) (res : Response) : Response :=
  {| res_status := res_status res;
     res_headers := <[name := value]> (res_headers res);
     res_body := res_body res |}.

Definition status (code : nat) (res : Response) : Response :=
  {| res_status := code; res_headers := res_headers res; res_body := res_body res |}.

Definition end_ (res : Response) : Response :=
  {| res_status := res_status res; res_headers := res_headers res; res_body := NoBody |}.

Definition json (fields : list (string * string)) (res : Response) : Response :=
  {| res_status := res_status res; res_headers := res_headers res;
     res_body := JsonBody fields |}.

Definition send (bytes : list Byte.byte) (res : Response) : Response :=
  {| res_status := res_status res; res_headers := res_headers res;
     res_body := BinaryBody bytes |}.

Definition default_store_domain : string := "https://sain-pdc-test.myshopify.com".

(** ** CORS setup, simplified version *)

Module CorsSimple.

Definition allowedOrigins : list string :=
  [ "https://sain-pdc-test.myshopify.com";
    "http://localhost:3000";
    "http://127.0.0.1:3000";
    "https://shopify-test-brown.vercel.app" ].

(** [setCorsHeaders(req, res)]: the headers it sets, and its return
    value ([true] for a pre-flight request). *)
Definition setCorsHeaders (req : Request) (res : Response) : bool * Response :=
  let origin := header_origin req in
  let res :=
    if Js.truthy origin && Js.includes allowedOrigins (Js.or_default origin EmptyString)
    then setHeader "Access-Control-Allow-Origin" (Js.or_default origin EmptyString) res
    else setHeader "Access-Control-Allow-Origin" "https://sain-pdc-test.myshopify.com" res in
  let res := setHeader "Access-Control-Allow-Methods" "GET,POST,OPTIONS" res in
  let res := setHeader "Access-Control-Allow-Headers" "Content-Type, Authorization" res in
  let res := setHeader "Access-Control-Allow-Credentials" "true" res in
  let res := setHeader "Access-Control-Max-Age" "86400" res in
  let res := setHeader "Vary" "Origin" res in
  if String.eqb (method req) "OPTIONS" then (true, res) else (false, res).

End CorsSimple.

(** ** CORS setup, shared configuration module

    The copy of this module kept beside the handler lists one more origin;
    the rest is the same. *)

Module CorsConfig.

Definition allowedOrigins : list string :=
  [ "https://sain-pdc-test.myshopify.com";
    "https://happy-july.myshopify.com";
    "http://localhost:3000";
    "http://127.0.0.1:3000" ].

(** The origin the allow-list is consulted with: the [Origin] header, or,
    when it is absent or empty, the origin of the [Referer] URL.
    [url_origin] stands for [new URL(referer).origin]; it is [None] where
    the URL constructor throws. *)
Definition effective_origin (url_origin : string -> option string)
    (req : Request) : string :=
  let headerOrigin := Js.or_default (header_origin req) EmptyString in
  let referer := Js.or_default (header_referer req) EmptyString in
  let origin := headerOrigin in
  if negb (Js.truthy (Some origin)) && Js.truthy (Some referer)
  then match url_origin referer with
       | Some o => o
       | None => origin
       end
  else origin.

(** [setCorsHeaders(req, res, allowedMethods)] *)
Definition setCorsHeaders (url_origin : string -> option string)
    (req : Request) (allowedMethods : string) (res : Response) : Response :=
  let origin := effective_origin url_origin req in
  let allow :=
    if Js.includes allowedOrigins origin then origin
    else "https://sain-pdc-test.myshopify.com" in
  let res := setHeader "Access-Control-Allow-Origin" allow res in
  let res := setHeader "Vary" "Origin" res in
  let res := setHeader "Access-Control-Allow-Methods" allowedMethods res in
  let res := setHeader "Access-Control-Allow-Headers"
               "Content-Type, Authorization, X-Requested-With" res in
  let res := setHeader "Access-Control-Allow-Credentials" "true" res in
  let res := setHeader "Access-Control-Max-Age" "86400" res in
  res.

Definition default_methods : string := "GET,POST,OPTIONS".

End CorsConfig.

(** The value of the [Access-Control-Allow-Origin] header of a response. *)
Definition allow_origin (res : Response) : option string :=
  res_headers res !! "Access-Control-Allow-Origin".

(** ** The authorization service *)

Module Auth.

(** The values a request parameter can hold.  Numbers are the integral
    ones. *)
Inductive JsValue :=
| JsUndefined
| JsNull
| JsBool (b : bool)
| JsNumber (n : Z)
| JsString (s : string).

(** Truthiness of a value, as used by [!v] and [v || w]. *)
Definition truthy (v : JsValue) : bool :=
  match v with
  | JsUndefined | JsNull => false
  | JsBool b => b
  | JsNumber n => negb (n =? 0)%Z
  | JsString s => Js.truthy (Some s)
  end.

(** [String(v)] *)
Definition String_ (v : JsValue) : string :=
  match v with
  | JsUndefined => "undefined"
  | JsNull => "null"
  | JsBool true => "true"
  | JsBool false => "false"
  | JsNumber n => pretty n
  | JsString s => s
  end.

Section StringMethods.

(** [String.prototype.trim] and [String.prototype.toLowerCase]. *)
Variable trim : string -> string.
Variable toLowerCase : string -> string.

(** The service object: its only field is the whitelist computed by the
    constructor. *)
Record AuthService := { adminWhitelist : list string }.

Definition parseAdminWhitelist (ADMIN_EMAIL_WHITELIST : option string) : list string :=
  let raw := Js.or_default ADMIN_EMAIL_WHITELIST
               "jonathan.wang@sainstore.com,issac.yu@sainstore.com" in
  List.filter (fun e => Js.truthy (Some e))
    (List.map (fun email => toLowerCase (trim email)) (Js.split "," raw)).

Definition constructor (ADMIN_EMAIL_WHITELIST : option string) : AuthService :=
  {| adminWhitelist := parseAdminWhitelist ADMIN_EMAIL_WHITELIST |}.

Definition normalizeEmail (email : JsValue) : string :=
  match email with
  | JsString s =>
      if negb (Js.truthy (Some s)) then EmptyString
      else toLowerCase (trim s)
  | _ => EmptyString
  end.

Definition isAdmin (this : AuthService) (email : JsValue) : bool :=
  let normalizedEmail := normalizeEmail email in
  Js.includes (adminWhitelist this) normalizedEmail.

Definition hasAdminPermission (this : AuthService) (email admin : JsValue) : bool :=
  let normalizedEmail := normalizeEmail email in
  let adminFlag :=
    Js.includes ["1"; "true"; "yes"]
      (toLowerCase (String_ (if truthy admin then admin else JsString EmptyString))) in
  adminFlag && isAdmin this (JsString normalizedEmail).

End StringMethods.

(** An ASCII instance of the two string methods: [ascii_trim] strips the
    ASCII white space at both ends and [ascii_toLowerCase] maps [A-Z] to
    [a-z].  They agree with the built-in methods on ASCII texts only (the
    built-in ones also strip the other Unicode blanks and lower the other
    capitals), and serve the samples; the properties are stated for any
    [trim] and [toLowerCase]. *)
Definition is_space (c : ascii) : bool :=
  let n := nat_of_ascii c in
  ((9 <=? n)%nat && (n <=? 13)%nat) || (n =? 32)%nat.

Definition lower_char (c : ascii) : ascii :=
  let n := nat_of_ascii c in
  if (65 <=? n)%nat && (n <=? 90)%nat then ascii_of_nat (n + 32) else c.

Fixpoint drop_spaces (l : list ascii) : list ascii :=
  match l with
  | c :: l' => if is_space c then drop_spaces l' else l
  | [] => []
  end.

(** Drop the white space at both ends of a list of characters. *)
Definition trimmed (l : list ascii) : list ascii :=
  rev (drop_spaces (rev (drop_spaces l))).

Definition ascii_trim (s : string) : string :=
  string_of_list_ascii (trimmed (list_ascii_of_string s)).

Definition ascii_toLowerCase (s : string) : string :=
  string_of_list_ascii (List.map lower_char (list_ascii_of_string s)).

End Auth.

(** ** The batch download endpoint *)

Module Download.

(** *** Data received from the store *)

(** A key/value pair: a custom attribute of a line item, or a field of a
    metaobject.  The value can be [null]. *)
Record KeyValue := { key : string; value : option string }.

Record LineItem := {
  title : option string;
  customAttributes : option (list KeyValue)
}.

Record DraftOrder := {
  name : option string;
  lineItems : list LineItem       (* lineItems.edges[_].node *)
}.

Record Metaobject := { fields : list KeyValue }.

(** The [data] member of a GraphQL answer; a member the query did not ask
    for is absent. *)
Record GqlData := {
  draftOrder : option DraftOrder;
  metaobjectByHandle : option Metaobject;
  metaobjects : option (list Metaobject)    (* metaobjects.nodes *)
}.

(** A GraphQL answer: the messages of its [errors] member and its [data]
    member. *)
Record GqlJson := {
  errors : option (list string);
  data : option GqlData
}.

(** The three queries the endpoint sends, with their variables. *)
Inductive GqlQuery :=
| DraftOrderQuery (id : string)
| MetaobjectByHandleQuery (handle type : string)
| MetaobjectsQuery (type : string) (first : nat).

(** *** Effects *)

(** How an asynchronous call ends: with a value, or with a thrown error
    and its message. *)
Inductive Completion (A : Type) :=
| Returned (a : A)
| Thrown (message : string).
Arguments Returned {A} a.
Arguments Thrown {A} message.

(** The answer to [fetch(url)]: the promise is rejected, or a response
    arrives with its [ok] flag, status line and body. *)
Inductive FetchReply :=
| FetchRejected (message : string)
| FetchResponse (ok : bool) (code : nat) (statusText : string)
    (arrayBuffer : Completion (list Byte.byte)).

(** The content stored under a name of the archive. *)
Inductive ZipData :=
| ZipBinary (bytes : list Byte.byte)
| ZipText (text : string).

(** What the endpoint does to the outside, in order. *)
Inductive Event :=
| EvPost (endpoint : string) (query : GqlQuery)   (* GraphQL request *)
| EvGet (url : string)                            (* file download *)
| EvZipNew                                        (* new JSZip() *)
| EvZipGenerate.                                  (* zip.generateAsync *)

(** The surroundings of one invocation: the environment variables, the
    answers of the network (which may depend on everything done before)
    and the library functions the code calls. *)
Record Platform := {
  SHOPIFY_STORE_DOMAIN : option string;
  SHOP : option string;
  SHOPIFY_ACCESS_TOKEN : option string;
  ADMIN_TOKEN : option string;
  (* fetch(endpoint, POST ...) followed by resp.json(): the events so far,
     the endpoint, the access token and the query *)
  post_json : list Event -> string -> string -> GqlQuery -> Completion GqlJson;
  (* fetch(url) *)
  get : list Event -> string -> FetchReply;
  (* Date.now() *)
  Date_now : list Event -> Z;
  (* whether the imported JSZip constructor is defined *)
  JSZip : bool;
  (* Buffer.from(s, 'base64') *)
  Buffer_from_base64 : string -> list Byte.byte;
  (* zip.generateAsync({type: 'nodebuffer', compression: 'DEFLATE', ...}) *)
  generateAsync : gmap string ZipData -> list Byte.byte;
  (* new URL(s).origin *)
  URL_origin : string -> option string
}.

(** Computations that act on the outside: they read the events so far and
    extend them. *)
Definition Eff (A : Type) : Type := list Event -> A * list Event.

Definition ret {A : Type} (a : A) : Eff A := fun h => (a, h).

Definition bind {A B : Type} (m : Eff A) (k : A -> Eff B) : Eff B :=
  fun h => let (a, h') := m h in k a h'.

Definition emit (e : Event) : Eff unit := fun h => (tt, (h ++ [e])%list).

Notation "'let*' x ':=' m 'in' k" := (bind m (fun x => k))
  (at level 10, x name, m at level 100, k at level 200).

(** *** Calls to the outside *)

Definition shopGql (P : Platform) (query : GqlQuery) : Eff (Completion GqlJson) :=
  let storeDomain := Js.or (SHOPIFY_STORE_DOMAIN P) (SHOP P) in
  let accessToken := Js.or (SHOPIFY_ACCESS_TOKEN P) (ADMIN_TOKEN P) in
  if negb (Js.truthy storeDomain) || negb (Js.truthy accessToken) then
    ret (Returned {| errors := Some ["Missing SHOPIFY_STORE_DOMAIN or SHOPIFY_ACCESS_TOKEN"];
                     data := None |})
  else
    let endpoint :=
      "https://" +:+ Js.or_default storeDomain EmptyString +:+ "/admin/api/2024-01/graphql.json" in
    fun h =>
      (post_json P h endpoint (Js.or_default accessToken EmptyString) query,
       (h ++ [EvPost endpoint query])%list).

Definition downloadFileFromShopify (P : Platform) (fileUrl : string)
    : Eff (Completion (list Byte.byte)) :=
  fun h =>
    (match get P h fileUrl with
     | FetchRejected message => Thrown message
     | FetchResponse ok code statusText arrayBuffer =>
         if negb ok then
           Thrown ("下载失败: " +:+ pretty code +:+ " " +:+ statusText)
         else arrayBuffer
     end,
     (h ++ [EvGet fileUrl])%list).

(** *** Resolution of a file identifier through the metaobjects *)

Definition FILE_METAOBJECT_TYPE : string := "uploaded_file".

(** What [getFileFromMetaobject] returns when it finds the file. *)
Inductive FileInfo :=
| UrlInfo (url fileName : string)          (* type: 'url' *)
| Base64Info (data fileName : string).     (* type: 'base64' *)

(** [getField(key)] of the resolved record: the value of the first field
    with this key, the empty string when there is none. *)
Definition getField (fileRecord : Metaobject) (k : string) : option string :=
  match List.find (fun x => String.eqb (key x) k) (fields fileRecord) with
  | Some f => value f
  | None => Some EmptyString
  end.

(** The predicate of the list search: the first [file_id] field of the
    node has the value [fileId]. *)
Definition has_file_id (fileId : string) (node : Metaobject) : bool :=
  match List.find (fun x => String.eqb (key x) "file_id") (fields node) with
  | Some f =>
      match value f with
      | Some v => String.eqb v fileId
      | None => false
      end
  | None => false
  end.

(** The last part of [getFileFromMetaobject]: what a record yields. *)
Definition fileInfo_of_record (fileRecord : option Metaobject) : option FileInfo :=
  match fileRecord with
  | None => None
  | Some r =>
      let fileUrl := getField r "file_url" in
      let fileData := getField r "file_data" in
      let fileName := Js.or_default (getField r "file_name") "download.bin" in
      if Js.truthy fileUrl
         && (Js.startsWith (Js.or_default fileUrl EmptyString) "http://"
             || Js.startsWith (Js.or_default fileUrl EmptyString) "https://")
      then Some (UrlInfo (Js.or_default fileUrl EmptyString) fileName)
      else if Js.truthy fileData
      then Some (Base64Info (Js.or_default fileData EmptyString) fileName)
      else None
  end.

Definition getFileFromMetaobject (P : Platform) (fileId : string) : Eff (option FileInfo) :=
  let* handleResult := shopGql P (MetaobjectByHandleQuery fileId FILE_METAOBJECT_TYPE) in
  let fileRecord :=
    match handleResult with
    | Returned j =>
        match data j with
        | Some d => metaobjectByHandle d
        | None => None
        end
    | Thrown _ => None
    end in
  let* fileRecord :=
    match fileRecord with
    | Some r => ret (Some r)
    | None =>
        let* result := shopGql P (MetaobjectsQuery FILE_METAOBJECT_TYPE 100) in
        match result with
        | Returned j =>
            let nodes :=
              match data j with
              | Some d => match metaobjects d with Some ns => ns | None => [] end
              | None => []
              end in
            ret (List.find (has_file_id fileId) nodes)
        | Thrown _ => ret None
        end
    end in
  ret (fileInfo_of_record fileRecord).

(** *** Extraction of the file references of an order *)

(** An element of the [files] array. *)
Inductive FileEntry :=
| ShopifyUrlFile (fileName url : string)       (* type: 'shopify_url' *)
| MetaobjectFile (fileName fileId : string).   (* type: 'metaobject' *)

Definition fileName (file : FileEntry) : string :=
  match file with
  | ShopifyUrlFile n _ => n
  | MetaobjectFile n _ => n
  end.

(** [getAttr(key)]: the value of the first attribute with this key. *)
Definition getAttr (attributes : list KeyValue) (k : string) : option string :=
  match List.find (fun a => String.eqb (key a) k) attributes with
  | Some attr => value attr
  | None => None
  end.

(** The body of the loop over the line items: what it leaves in [files]. *)
Definition extractFile (files : list FileEntry) (lineItem : LineItem) : list FileEntry :=
  let attributes :=
    match customAttributes lineItem with Some l => l | None => [] end in
  let fileName :=
    Js.or_default (Js.or (getAttr attributes "文件") (title lineItem)) "未知文件" in
  let shopifyFileUrl := getAttr attributes "Shopify文件URL" in
  let fileId := getAttr attributes "文件ID" in
  if Js.truthy shopifyFileUrl
     && negb (String.eqb (Js.or_default shopifyFileUrl EmptyString) "未上传")
     && Js.startsWith (Js.or_default shopifyFileUrl EmptyString) "http"
  then (files ++ [ShopifyUrlFile fileName (Js.or_default shopifyFileUrl EmptyString)])%list
  else if Js.truthy fileId
  then (files ++ [MetaobjectFile fileName (Js.or_default fileId EmptyString)])%list
  else files.

Definition extractFiles (edges : list LineItem) : list FileEntry :=
  fold_left extractFile edges [].

(** *** Download and packaging *)

(** The part of the loop body that obtains [fileBuffer]: it returns the
    buffer, or throws into the [catch] of the loop. *)
Definition materialize (P : Platform) (file : FileEntry)
    : Eff (Completion (list Byte.byte)) :=
  match file with
  | ShopifyUrlFile _ url => downloadFileFromShopify P url
  | MetaobjectFile _ fileId =>
      let* fileInfo := getFileFromMetaobject P fileId in
      match fileInfo with
      | None => ret (Thrown "从Metaobject获取文件失败")
      | Some (UrlInfo url _) => downloadFileFromShopify P url
      | Some (Base64Info data _) =>
          let base64Data :=
            if Js.includes_char data ","
            then nth 1 (Js.split "," data) EmptyString
            else data in
          ret (Returned (Buffer_from_base64 P base64Data))
      end
  end.

(** The archive under construction and the two counters.  The archive
    stores its file entries by name: [zip.file(name, data)] adds the entry
    or replaces the one already stored under [name].  (The library also
    keeps a folder entry for every directory prefix of a name with a slash
    in it; a folder entry never replaces a file entry, and the record
    leaves the folder entries out.) *)
Record Pack := {
  zip : gmap string ZipData;
  successCount : nat;
  failCount : nat
}.

Definition errorName (file : FileEntry) : string :=
  "错误_" +:+ fileName file +:+ ".txt".

Definition errorText (message : string) : string :=
  "文件下载失败: " +:+ message.

(** One round of the download loop.  A buffer is an object, hence truthy:
    a round that does not throw always stores the file. *)
Definition packFile (P : Platform) (st : Pack) (file : FileEntry) : Eff Pack :=
  let* fileBuffer := materialize P file in
  match fileBuffer with
  | Returned buf =>
      ret {| zip := <[fileName file := ZipBinary buf]> (zip st);
             successCount := S (successCount st);
             failCount := failCount st |}
  | Thrown message =>
      ret {| zip := <[errorName file := ZipText (errorText message)]> (zip st);
             successCount := successCount st;
             failCount := S (failCount st) |}
  end.

Fixpoint packFiles (P : Platform) (files : list FileEntry) (st : Pack) : Eff Pack :=
  match files with
  | [] => ret st
  | file :: rest => let* st' := packFile P st file in packFiles P rest st'
  end.

Definition empty_pack : Pack :=
  {| zip := ∅; successCount := 0; failCount := 0 |}.

(** *** The name of the download *)

Definition hex_digit (n : nat) : ascii :=
  match n with
  | 0 => "0" | 1 => "1" | 2 => "2" | 3 => "3" | 4 => "4" | 5 => "5"
  | 6 => "6" | 7 => "7" | 8 => "8" | 9 => "9" | 10 => "A" | 11 => "B"
  | 12 => "C" | 13 => "D" | 14 => "E" | _ => "F"
  end%char.

(** The characters [encodeURIComponent] leaves as they are. *)
Definition uri_unreserved (c : ascii) : bool :=
  let n := nat_of_ascii c in
  ((65 <=? n)%nat && (n <=? 90)%nat)
  || ((97 <=? n)%nat && (n <=? 122)%nat)
  || ((48 <=? n)%nat && (n <=? 57)%nat)
  || Js.includes_char "-_.!~*'()" c.

Definition percent_escape (c : ascii) : string :=
  let n := nat_of_ascii c in
  String "%" (String (hex_digit (n / 16)) (String (hex_digit (n mod 16)) EmptyString)).

(** [encodeURIComponent(s)] on the UTF-8 bytes of [s]. *)
Fixpoint encodeURIComponent (s : string) : string :=
  match s with
  | EmptyString => EmptyString
  | String c rest =>
      if uri_unreserved c then String c (encodeURIComponent rest)
      else percent_escape c +:+ encodeURIComponent rest
  end.

Definition zipFileName (order : DraftOrder) (now : Z) : string :=
  Js.or_default (name order) "order" +:+ "_files_" +:+ pretty now +:+ ".zip".

Definition contentDisposition (zipFileName : string) : string :=
  "attachment; filename=" +:+ Js.dquote +:+ encodeURIComponent zipFileName +:+ Js.dquote.

(** *** The handler *)

(** Steps 3 to 5: download every file into a new archive and send it. *)
Definition packAndSend (P : Platform) (res : Response) (order : DraftOrder)
    (files : list FileEntry) : Eff Response :=
  if negb (JSZip P) then
    ret (json [("error", "ZIP打包功能不可用");
               ("message", "请安装jszip依赖: npm install jszip")]
           (status 500 res))
  else
    let* _ := emit EvZipNew in
    let* st := packFiles P files empty_pack in
    if (successCount st =? 0)%nat then
      ret (json [("error", "所有文件下载失败");
                 ("details", "成功: " +:+ pretty (successCount st)
                             +:+ ", 失败: " +:+ pretty (failCount st))]
             (status 500 res))
    else
      let* _ := emit EvZipGenerate in
      let zipBuffer := generateAsync P (zip st) in
      fun h =>
        let zipFileName := zipFileName order (Date_now P h) in
        let res := setHeader "Content-Type" "application/zip" res in
        let res := setHeader "Content-Disposition" (contentDisposition zipFileName) res in
        let res := setHeader "Content-Length" (pretty (length zipBuffer)) res in
        (send zipBuffer (status 200 res), h).

(** Steps 1 and 2, inside the [try] of the handler: look the order up and
    extract its files. *)
Definition downloadOrderFiles (P : Platform) (res : Response) (draftOrderId : string)
    : Eff Response :=
  let* draftOrderResult := shopGql P (DraftOrderQuery draftOrderId) in
  match draftOrderResult with
  | Thrown message =>
      (* the catch of the handler *)
      ret (json [("error", "批量下载失败"); ("details", message)] (status 500 res))
  | Returned j =>
      match errors j with
      | Some (e :: _) =>
          ret (json [("error", "查询订单失败"); ("details", e)] (status 500 res))
      | _ =>
          match match data j with Some d => draftOrder d | None => None end with
          | None => ret (json [("error", "订单未找到")] (status 404 res))
          | Some order =>
              let files := extractFiles (lineItems order) in
              if (length files =? 0)%nat then
                ret (json [("error", "未找到可下载的文件");
                           ("message", "订单中没有找到有效的文件链接")]
                       (status 404 res))
              else packAndSend P res order files
          end
      end
  end.

(** The exported handler.  [setCorsHeaders] is the one of the configuration
    module, which the endpoint imports, called with its default methods. *)
Definition handler (P : Platform) (req : Request) : Eff Response :=
  let res :=
    CorsConfig.setCorsHeaders (URL_origin P) req CorsConfig.default_methods
      fresh_response in
  if String.eqb (method req) "OPTIONS" then ret (end_ (status 204 res))
  else if negb (String.eqb (method req) "GET") then
    ret (json [("error", "Method not allowed")] (status 405 res))
  else if negb (Js.truthy (query_draftOrderId req)) then
    ret (json [("error", "Missing draftOrderId parameter");
               ("usage", "GET /api/download-order-files?draftOrderId=gid://shopify/DraftOrder/123456789")]
           (status 400 res))
  else
    downloadOrderFiles P res (Js.or_default (query_draftOrderId req) EmptyString).

End Download.

(** ** Regular expressions on code units

    The patterns of the code have no flags, groups or look-around, and are
    anchored at both ends: [test] holds of a text exactly when the whole
    text is in the language of the pattern.  [test] decides it with
    derivatives. *)

Module Regex.

Inductive regex :=
| Never                          (* no text at all *)
| Eps                            (* the empty text *)
| Class (p : N -> bool)          (* one code unit of a class *)
| Cat (r s : regex)              (* r followed by s *)
| Alt (r s : regex)              (* r or s *)
| Star (r : regex).              (* r* *)

(** [r+] *)
Definition Plus (r : regex) : regex := Cat r (Star r).

Fixpoint nullable (r : regex) : bool :=
  match r with
  | Never => false
  | Eps => true
  | Class _ => false
  | Cat r s => nullable r && nullable s
  | Alt r s => nullable r || nullable s
  | Star _ => true
  end.

(** What is left of the pattern after the code unit [a]. *)
Fixpoint deriv (a : N) (r : regex) : regex :=
  match r with
  | Never => Never
  | Eps => Never
  | Class p => if p a then Eps else Never
  | Cat r s =>
      if nullable r then Alt (Cat (deriv a r) s) (deriv a s)
      else Cat (deriv a r) s
  | Alt r s => Alt (deriv a r) (deriv a s)
  | Star r => Cat (deriv a r) (Star r)
  end.

(** [/^r$/.test(w)] *)
Fixpoint test (r : regex) (w : list N) : bool :=
  match w with
  | [] => nullable r
  | a :: w' => test (deriv a r) w'
  end.

(** The language of a pattern. *)
Inductive matches : regex -> list N -> Prop :=
| matches_eps : matches Eps []
| matches_class (p : N -> bool) (a : N) : p a = true -> matches (Class p) [a]
| matches_cat (r s : regex) (u v : list N) :
    matches r u -> matches s v -> matches (Cat r s) (u ++ v)
| matches_alt_l (r s : regex) (u : list N) : matches r u -> matches (Alt r s) u
| matches_alt_r (r s : regex) (u : list N) : matches s u -> matches (Alt r s) u
| matches_star_nil (r : regex) : matches (Star r) []
| matches_star_app (r : regex) (u v : list N) :
    matches r u -> matches (Star r) v -> matches (Star r) (u ++ v).

End Regex.

(** ** The authorization service: validation, ownership, request *)

Module AuthChecks.

Import Auth.

(** [a || b] on values. *)
Definition or (a b : JsValue) : JsValue := if truthy a then a else b.

(** The class [\s]: white space and line terminators. *)
Definition whitespace (u : N) : bool :=
  existsb (N.eqb u)
    [9; 10; 11; 12; 13; 32; 160; 5760; 8232; 8233; 8239; 8287; 12288; 65279]%N
  || ((8192 <=? u)%N && (u <=? 8202)%N).

Definition at_sign : N := 64.
Definition dot : N := 46.

(** The class [[^\s@]]. *)
Definition plain (u : N) : bool := negb (whitespace u || (u =? at_sign)%N).

(** [/^[^\s@]+@[^\s@]+\.[^\s@]+$/] *)
Definition emailRegex : Regex.regex :=
  Regex.Cat (Regex.Plus (Regex.Class plain))
    (Regex.Cat (Regex.Class (N.eqb at_sign))
       (Regex.Cat (Regex.Plus (Regex.Class plain))
          (Regex.Cat (Regex.Class (N.eqb dot))
             (Regex.Plus (Regex.Class plain))))).

(** The result of [validateEmail]: [{ valid: true }], or
    [{ valid: false, error, message }]. *)
Inductive Validation :=
| Valid
| Invalid (error message : string).

(** The result of [verifyDraftOrderOwnership]: [{ authorized: true }], or
    [{ authorized: false, error, message }]. *)
Inductive Authorization :=
| Authorized
| Refused (error message : string).

(** The parameters of a request, in its body or in its query; a parameter
    that is not given is [undefined]. *)
Record Params := { email : JsValue; admin : JsValue }.

(** The request as [extractAuthFromRequest] reads it; [body] and [query]
    can be [undefined]. *)
Record AuthRequest := { body : option Params; query : option Params }.

(** [p?.email] and [p?.admin] *)
Definition email_of (p : option Params) : JsValue :=
  match p with Some p => email p | None => JsUndefined end.

Definition admin_of (p : option Params) : JsValue :=
  match p with Some p => admin p | None => JsUndefined end.

Section StringMethods.

Variable trim : string -> string.
Variable toLowerCase : string -> string.
(** The code units of a string, which the pattern is tested on. *)
Variable codeUnits : string -> list N.

Definition isValidEmail (email : string) : bool :=
  if negb (Js.truthy (Some email)) then false
  else Regex.test emailRegex (codeUnits email).

Definition validateEmail (email : JsValue) : Validation :=
  let normalizedEmail := normalizeEmail trim toLowerCase email in
  if negb (Js.truthy (Some normalizedEmail)) then
    Invalid "missing_email" "缺少客户邮箱，无法验证身份"
  else if negb (isValidEmail normalizedEmail) then
    Invalid "invalid_email" ("邮箱格式无效: " +:+ normalizedEmail)
  else Valid.

Definition verifyDraftOrderOwnership (requesterEmail orderEmail : JsValue)
    (isAdmin : bool) : Authorization :=
  if isAdmin then Authorized
  else
    let normalizedRequester := normalizeEmail trim toLowerCase requesterEmail in
    let normalizedOrder := normalizeEmail trim toLowerCase orderEmail in
    if negb (Js.truthy (Some normalizedOrder))
       || negb (String.eqb normalizedOrder normalizedRequester)
    then Refused "forbidden" "仅允许访问本人未支付的询价单"
    else Authorized.

Definition extractAuthFromRequest (this : AuthService) (req : AuthRequest)
    : string * bool :=
  let email := or (or (email_of (body req)) (email_of (query req)))
                  (JsString EmptyString) in
  let admin := or (or (admin_of (body req)) (admin_of (query req)))
                  (JsString EmptyString) in
  let normalizedEmail := normalizeEmail trim toLowerCase email in
  let isAdmin :=
    hasAdminPermission trim toLowerCase this (JsString normalizedEmail) admin in
  (normalizedEmail, isAdmin).

End StringMethods.

(** The code units of an ASCII string, for the samples.  (On another text
    the bytes are not its code units.) *)
Definition ascii_codeUnits (s : string) : list N :=
  List.map N_of_ascii (list_ascii_of_string s).

End AuthChecks.

(** ** CORS handling, the copy of the configuration module kept beside the
    handler

    This copy lists one more origin than the shared module and adds
    [handleCors], which also answers pre-flight requests and refuses the
    methods that are not allowed. *)

Module CorsHandle.

Definition allowedOrigins : list string :=
  [ "https://sain-pdc-test.myshopify.com";
    "https://happy-july.myshopify.com";
    "http://sainsmart.myshopify.com";
    "http://localhost:3000";
    "http://127.0.0.1:3000" ].

(** The [allowedMethods] argument, and with it the value of a header: a
    string or an array of strings. *)
Inductive Value :=
| Text (s : string)
| Array (items : list string).

(** What has been sent on the response object. *)
Inductive Sent :=
| NotSent                                    (* nothing yet *)
| Ended                                      (* [end()] *)
| SentJson (fields : list (string * string)). (* [json({...})] *)

Record Res := {
  code : nat;
  headers : gmap string Value;
  sent : Sent
}.

Definition setHeader (name : string) (value : Value) (res : Res) : Res :=
  {| code := code res; headers := <[name := value]> (headers res); sent := sent res |}.

Definition status (c : nat) (res : Res) : Res :=
  {| code := c; headers := headers res; sent := sent res |}.

Definition end_ (res : Res) : Res :=
  {| code := code res; headers := headers res; sent := Ended |}.

Definition json (fields : list (string * string)) (res : Res) : Res :=
  {| code := code res; headers := headers res; sent := SentJson fields |}.

(** [xs.join(sep)] *)
Fixpoint join (sep : string) (xs : list string) : string :=
  match xs with
  | [] => EmptyString
  | [x] => x
  | x :: rest => x +:+ sep +:+ join sep rest
  end.

Definition default_methods : Value := Text "GET,POST,OPTIONS".

Section StringMethods.

(** [String.prototype.trim], [String.prototype.toUpperCase] and
    [new URL(s).origin]. *)
Variable trim : string -> string.
Variable toUpperCase : string -> string.
Variable url_origin : string -> option string.

(** [setCorsHeaders(req, res, allowedMethods)] *)
Definition setCorsHeaders (req : Request) (allowedMethods : Value) (res : Res) : Res :=
  let origin := CorsConfig.effective_origin url_origin req in
  let allow :=
    if Js.includes allowedOrigins origin then origin
    else "https://sain-pdc-test.myshopify.com" in
  let res := setHeader "Access-Control-Allow-Origin" (Text allow) res in
  let res := setHeader "Vary" (Text "Origin") res in
  let res := setHeader "Access-Control-Allow-Methods" allowedMethods res in
  let res := setHeader "Access-Control-Allow-Headers"
               (Text "Content-Type, Authorization, X-Requested-With") res in
  let res := setHeader "Access-Control-Allow-Credentials" (Text "true") res in
  let res := setHeader "Access-Control-Max-Age" (Text "86400") res in
  res.

(** [handleCors(req, res, allowedMethods)]: the boolean it returns and the
    response object afterwards. *)
Definition handleCors (req : Request) (allowedMethods : Value) (res : Res)
    : bool * Res :=
  let res := setCorsHeaders req allowedMethods res in
  if String.eqb (method req) "OPTIONS" then (true, end_ (status 204 res))
  else
    let methods :=
      match allowedMethods with
      | Text s => List.map (fun m => toUpperCase (trim m)) (Js.split "," s)
      | Array items => List.map (fun m => toUpperCase m) items
      end in
    let methodsToCheck :=
      List.filter (fun m => negb (String.eqb m "OPTIONS")) methods in
    if negb (Js.includes methodsToCheck (toUpperCase (method req))) then
      (true,
       json [("error", "Method not allowed");
             ("message", "Only " +:+ join ", " methodsToCheck +:+ " methods are allowed")]
         (status 405 res))
    else (false, res).

End StringMethods.

(** An ASCII instance of [toUpperCase], for the samples: [a-z] to [A-Z]. *)
Definition upper_char (c : ascii) : ascii :=
  let n := nat_of_ascii c in
  if (97 <=? n)%nat && (n <=? 122)%nat then ascii_of_nat (n - 32) else c.

Definition ascii_toUpperCase (s : string) : string :=
  string_of_list_ascii (List.map upper_char (list_ascii_of_string s)).

End CorsHandle.

(** ** The administrators of the configuration module *)

Module AdminEmails.

Import Auth.

Definition DEFAULT_ADMIN_EMAILS : list string :=
  [ "jonathan.wang@sainstore.com";
    "jonthan.wang@gmail.com";
    "issac.yu@sainstore.com";
    "kitto.chen@sainstore.com";
    "cherry@sain3.com";
    "keihen.luo@sain3.com";
    "nancy.lin@sainstore.com" ].

Section StringMethods.

Variable trim : string -> string.
Variable toLowerCase : string -> string.

Definition getAdminEmails (ADMIN_EMAIL_WHITELIST : option string) : list string :=
  let envList := ADMIN_EMAIL_WHITELIST in
  if Js.truthy envList then
    List.filter (fun e => Js.truthy (Some e))
      (List.map (fun e => toLowerCase (trim e))
         (Js.split "," (Js.or_default envList EmptyString)))
  else List.map (fun e => toLowerCase e) DEFAULT_ADMIN_EMAILS.

(** [isAdminEmail(email)]; [None] where the call throws a [TypeError]: a
    truthy value that is not a string has no [trim]. *)
Definition isAdminEmail (ADMIN_EMAIL_WHITELIST : option string) (email : JsValue)
    : option bool :=
  if negb (truthy email) then Some false
  else
    let adminEmails := getAdminEmails ADMIN_EMAIL_WHITELIST in
    match email with
    | JsString s => Some (Js.includes adminEmails (toLowerCase (trim s)))
    | _ => None
    end.

End StringMethods.

End AdminEmails.

(** ** Substrings *)

Module Text.

(** [s.includes(sub)] on strings.  On well-formed texts a search on the
    UTF-8 bytes finds what a search on the code units finds. *)
Fixpoint includes (s sub : string) : bool :=
  String.prefix sub s
  || match s with
     | EmptyString => false
     | String _ rest => includes rest sub
     end.

End Text.

(** ** The error handler *)

Module ErrorHandler.

Import Auth.

(** The value handed to [handleError]: an instance of [Error] with its
    message, a primitive value, or another object with its [error],
    [message] and [status] members ([undefined] when absent). *)
Inductive ErrorValue :=
| ErrorInstance (message : string)
| Primitive (v : JsValue)
| ErrorObject (error message status : JsValue).

(** The body of an error response; [details] is a member only when it was
    given. *)
Record ErrorBody := {
  success : bool;
  error : JsValue;
  message : JsValue;
  timestamp : string;
  details : option JsValue
}.

Record ErrorResponse := { status : JsValue; body : ErrorBody }.

(** The [options] of [handleError]; a member that is not given is
    [undefined]. *)
Record Options := { defaultStatus : JsValue; context : JsValue }.

Definition no_options : Options :=
  {| defaultStatus := JsUndefined; context := JsUndefined |}.

(** What [handleError] does with the response it built: it sends it with
    [res.status(...).json(...)] when it was given a response object, and
    returns it otherwise. *)
Inductive Outcome :=
| Answered (response : ErrorResponse)
| Built (response : ErrorResponse).

(** A parameter with a default value: the default stands for [undefined]. *)
Definition with_default (v d : JsValue) : JsValue :=
  match v with
  | JsUndefined => d
  | _ => v
  end.

Section Clock.

(** [new Date().toISOString()] *)
Variable now : string.

Definition createErrorResponse (status error message details : JsValue)
    : ErrorResponse :=
  let status := with_default status (JsNumber 500) in
  let response :=
    {| success := false;
       error := AuthChecks.or error (JsString "unknown_error");
       message := AuthChecks.or message (JsString "操作失败");
       timestamp := now;
       details := match details with
                  | JsUndefined => None
                  | _ => Some details
                  end |} in
  {| status := status; body := response |}.

(** [handleError(error, res, options)]; [res] tells whether a response
    object was given.  The log line is left out. *)
Definition handleError (error : ErrorValue) (res : bool) (options : Options)
    : Outcome :=
  let defaultStatus := with_default (defaultStatus options) (JsNumber 500) in
  let '(status, errorCode, errorMessage) :=
    match error with
    | ErrorInstance message =>
        if Text.includes message "配置缺失" || Text.includes message "Missing" then
          (JsNumber 500, JsString "configuration_error", JsString message)
        else if Text.includes message "GraphQL" || Text.includes message "API" then
          (JsNumber 502, JsString "shopify_api_error", JsString message)
        else if Text.includes message "forbidden" || Text.includes message "无权" then
          (JsNumber 403, JsString "forbidden", JsString message)
        else if Text.includes message "未找到" || Text.includes message "不存在" then
          (JsNumber 404, JsString "not_found", JsString message)
        else if Text.includes message "缺少" || Text.includes message "Missing" then
          (JsNumber 400, JsString "missing_parameter", JsString message)
        else (defaultStatus, JsString "unknown_error", JsString message)
    | Primitive (JsString s) =>
        (defaultStatus, JsString "unknown_error", JsString s)
    | Primitive _ =>
        (defaultStatus, JsString "unknown_error", JsString "操作失败")
    | ErrorObject error message status =>
        (AuthChecks.or status defaultStatus,
         AuthChecks.or error (JsString "unknown_error"),
         AuthChecks.or message (JsString "操作失败"))
    end in
  let errorResponse := createErrorResponse status errorCode errorMessage JsUndefined in
  if res then Answered errorResponse else Built errorResponse.

(** [asyncHandler(fn, options)]: the wrapped function returns what [fn]
    returns, and hands what [fn] throws to [handleError]. *)
Definition asyncHandler {Req A : Type} (fn : Req -> bool -> A + ErrorValue)
    (options : Options) : Req -> bool -> A + Outcome :=
  fun req res =>
    match fn req res with
    | inl a => inl a
    | inr error => inr (handleError error res options)
    end.

Section Objects.

(** The values of the members of the data, and the primitive values among
    them. *)
Variable V : Type.
Variable of_value : JsValue -> V.

(** [createSuccessResponse(data, status, message)]: the status and the
    members of the body.  [data] is [None] when it is not given. *)
Definition createSuccessResponse (data : option (gmap string V))
    (status message : JsValue) : JsValue * gmap string V :=
  let data := match data with Some d => d | None => ∅ end in
  let status := with_default status (JsNumber 200) in
  let response :=
    <["timestamp" := of_value (JsString now)]>
      (data ∪ <["success" := of_value (JsBool true)]> ∅) in
  let response :=
    if truthy message then <["message" := of_value message]> response
    else response in
  (status, response).

End Objects.

End Clock.

End ErrorHandler.

(** ** The client of the store's GraphQL interface *)

Module ShopifyClient.

Import Download (Completion, Returned, Thrown).

(** The environment variables the constructor reads. *)
Record Env := {
  SHOPIFY_STORE_DOMAIN : option string;
  SHOP : option string;
  SHOPIFY_ACCESS_TOKEN : option string;
  ADMIN_TOKEN : option string
}.

Record Client := {
  storeDomain : option string;
  accessToken : option string;
  apiVersion : string;
  endpoint : option string         (* [null] without a store domain *)
}.

Definition constructor (env : Env) : Client :=
  let storeDomain := Js.or (SHOPIFY_STORE_DOMAIN env) (SHOP env) in
  let accessToken := Js.or (SHOPIFY_ACCESS_TOKEN env) (ADMIN_TOKEN env) in
  let apiVersion := "2024-01" in
  {| storeDomain := storeDomain;
     accessToken := accessToken;
     apiVersion := apiVersion;
     endpoint :=
       if Js.truthy storeDomain then
         Some ("https://" +:+ Js.or_default storeDomain EmptyString
               +:+ "/admin/api/" +:+ apiVersion +:+ "/graphql.json")
       else None |}.

Definition isConfigured (this : Client) : bool :=
  Js.truthy (storeDomain this) && Js.truthy (accessToken this).

Record ConfigStatus := {
  configured : bool;
  hasStoreDomain : bool;
  hasAccessToken : bool;
  status_endpoint : option string
}.

Definition getConfigStatus (this : Client) : ConfigStatus :=
  {| configured := isConfigured this;
     hasStoreDomain := Js.truthy (storeDomain this);
     hasAccessToken := Js.truthy (accessToken this);
     status_endpoint := endpoint this |}.

Section Query.

(** The variables of a query, and what a member of [data] holds beside its
    user errors. *)
Variable Variables : Type.
Variable Payload : Type.

(** A member of [data]: the messages of its [userErrors], if it has any,
    and the rest. *)
Record Member := {
  userErrors : option (list string);
  payload : Payload
}.

(** A GraphQL answer: the messages of its [errors] and the members of its
    [data], in the order of their keys; a member can be [null]. *)
Record Json := {
  errors : option (list string);
  data : option (list (string * option Member))
}.

(** The request [fetch] is called with. *)
Record Call := {
  url : option string;
  token : option string;           (* X-Shopify-Access-Token *)
  body_query : string;
  body_variables : Variables
}.

(** The answer to [fetch]: the promise is rejected, or a response arrives
    with its [ok] flag, its status line and the outcome of [json()]. *)
Inductive Reply :=
| Rejected (message : string)
| Response (ok : bool) (status : nat) (statusText : string)
    (json : Completion Json).

Variable fetch : Call -> Reply.

(** The loop over the members of [data]: the first message of the first
    member with user errors. *)
Fixpoint first_user_error (members : list (string * option Member)) : option string :=
  match members with
  | [] => None
  | (key, mutationResult) :: rest =>
      match mutationResult with
      | Some result =>
          match userErrors result with
          | Some (firstUserError :: _) => Some firstUserError
          | _ => first_user_error rest
          end
      | None => first_user_error rest
      end
  end.

(** The body of the [try] block of [query]. *)
Definition attempt (call : Call) : Completion Json :=
  match fetch call with
  | Rejected message => Thrown message
  | Response ok status statusText json =>
      if negb ok then
        Thrown ("Shopify API 请求失败: " +:+ pretty status +:+ " " +:+ statusText)
      else
        match json with
        | Thrown message => Thrown message
        | Returned json =>
            match errors json with
            | Some (firstError :: _) => Thrown ("GraphQL 错误: " +:+ firstError)
            | _ =>
                match data json with
                | Some members =>
                    match first_user_error members with
                    | Some message => Thrown ("操作失败: " +:+ message)
                    | None => Returned json
                    end
                | None => Returned json
                end
            end
        end
  end.

(** [query(query, variables)]: how it ends, and the requests it sent. *)
Definition query (this : Client) (query : string) (variables : Variables)
    : Completion Json * list Call :=
  if negb (isConfigured this) then
    (Thrown "Shopify 配置缺失：请设置 SHOPIFY_STORE_DOMAIN/SHOP 和 SHOPIFY_ACCESS_TOKEN/ADMIN_TOKEN",
     [])
  else
    let call :=
      {| url := endpoint this; token := accessToken this;
         body_query := query; body_variables := variables |} in
    (match attempt call with
     | Returned json => Returned json
     | Thrown message =>
         if Text.includes message "Shopify" || Text.includes message "GraphQL"
         then Thrown message
         else Thrown ("Shopify API 调用失败: " +:+ message)
     end,
     [call]).

End Query.

Arguments userErrors {Payload} _.
Arguments payload {Payload} _.
Arguments errors {Payload} _.
Arguments data {Payload} _.
Arguments url {Variables} _.
Arguments token {Variables} _.
Arguments body_query {Variables} _.
Arguments body_variables {Variables} _.
Arguments Rejected {Payload} message.
Arguments Response {Payload} ok status statusText json.
Arguments first_user_error {Payload} members.
Arguments attempt {Variables Payload} fetch call.
Arguments query {Variables Payload} fetch this query variables.

End ShopifyClient.

(** ** The vocabulary of the specification *)

(** An invocation starts with nothing done yet. *)
Definition run {A : Type} (m : Download.Eff A) : A * list Download.Event := m [].

(** The names of the headers the CORS setup of the handler sets. *)
Definition cors_header_names : list string :=
  [ "Access-Control-Allow-Origin"; "Vary"; "Access-Control-Allow-Methods";
    "Access-Control-Allow-Headers"; "Access-Control-Allow-Credentials";
    "Access-Control-Max-Age" ].

(** The kind of file reference a line item carries. *)
Inductive SourceKind :=
| DirectUrl (url : string)
| IndirectReference (indirectId : string)
| Missing.

Definition attributes_of (lineItem : Download.LineItem) : list Download.KeyValue :=
  match Download.customAttributes lineItem with Some l => l | None => [] end.

(** The first pair with the key [k] among key/value pairs. *)
Fixpoint first_with_key (pairs : list Download.KeyValue) (k : string)
    : option Download.KeyValue :=
  match pairs with
  | [] => None
  | kv :: rest =>
      if String.eqb (Download.key kv) k then Some kv
      else first_with_key rest k
  end.

(** The custom attribute [k] of a line item: the value of the first of its
    custom attributes with this key.  A line item with no such attribute,
    or with no attributes at all, has none. *)
Definition attribute_value (lineItem : Download.LineItem) (k : string)
    : option string :=
  match first_with_key (attributes_of lineItem) k with
  | Some kv => Download.value kv
  | None => None
  end.

(** The field [k] of a record: the value of the first of its fields with
    this key, and the empty text when the record has no such field. *)
Definition field_value (r : Download.Metaobject) (k : string) : option string :=
  match first_with_key (Download.fields r) k with
  | Some kv => Download.value kv
  | None => Some EmptyString
  end.

(** The three attributes read out of a line item: the display name (with
    its fallbacks), the direct URL and the indirect identifier. *)
Definition displayName (lineItem : Download.LineItem) : string :=
  Js.or_default
    (Js.or (attribute_value lineItem "文件") (Download.title lineItem))
    "未知文件".

Definition directUrl (lineItem : Download.LineItem) : option string :=
  attribute_value lineItem "Shopify文件URL".

Definition indirectId (lineItem : Download.LineItem) : option string :=
  attribute_value lineItem "文件ID".

(** An attribute is present with value [v]: it has a value, and the value
    is not empty. *)
Definition present (attribute : option string) (v : string) : Prop :=
  attribute = Some v /\ v <> EmptyString.

(** Rule 1: the direct URL is present, is not the placeholder and begins
    with [http]. *)
Definition direct_rule (lineItem : Download.LineItem) (u : string) : Prop :=
  present (directUrl lineItem) u /\ u <> "未上传" /\ String.prefix "http" u = true.

(** Rule 2: the indirect identifier is present. *)
Definition indirect_rule (lineItem : Download.LineItem) (i : string) : Prop :=
  present (indirectId lineItem) i.

(** The priority order: the first rule that applies decides. *)
Inductive Classified (lineItem : Download.LineItem) : SourceKind -> Prop :=
| Classified_direct (u : string) :
    direct_rule lineItem u -> Classified lineItem (DirectUrl u)
| Classified_indirect (i : string) :
    (forall u, ~ direct_rule lineItem u) ->
    indirect_rule lineItem i -> Classified lineItem (IndirectReference i)
| Classified_missing :
    (forall u, ~ direct_rule lineItem u) ->
    (forall i, ~ indirect_rule lineItem i) -> Classified lineItem Missing.

(** The classification as a function of the line item. *)
Definition sourceKind (lineItem : Download.LineItem) : SourceKind :=
  match directUrl lineItem, indirectId lineItem with
  | Some (String c u), i =>
      if negb (String.eqb (String c u) "未上传") && String.prefix "http" (String c u)
      then DirectUrl (String c u)
      else match i with
           | Some (String d i') => IndirectReference (String d i')
           | _ => Missing
           end
  | _, Some (String d i') => IndirectReference (String d i')
  | _, _ => Missing
  end.

(** What a classified line item contributes to the files to download. *)
Definition entries (lineItem : Download.LineItem) (k : SourceKind)
    : list Download.FileEntry :=
  match k with
  | DirectUrl u => [Download.ShopifyUrlFile (displayName lineItem) u]
  | IndirectReference i => [Download.MetaobjectFile (displayName lineItem) i]
  | Missing => []
  end.

(** The record an exact-handle answer holds: none when the call threw or
    the answer holds no record. *)
Definition handle_record (r : Download.Completion Download.GqlJson)
    : option Download.Metaobject :=
  match r with
  | Download.Returned j =>
      match Download.data j with
      | Some d => Download.metaobjectByHandle d
      | None => None
      end
  | Download.Thrown _ => None
  end.

(** The records a list answer holds: none when the call threw. *)
Definition list_nodes (r : Download.Completion Download.GqlJson)
    : list Download.Metaobject :=
  match r with
  | Download.Returned j =>
      match Download.data j with
      | Some d => match Download.metaobjects d with Some ns => ns | None => [] end
      | None => []
      end
  | Download.Thrown _ => []
  end.

(** The request a GraphQL call sends: one POST to the store's endpoint when
    the store domain and the access token are configured, none otherwise. *)
Definition gql_events (P : Download.Platform) (q : Download.GqlQuery)
    : list Download.Event :=
  let storeDomain := Js.or (Download.SHOPIFY_STORE_DOMAIN P) (Download.SHOP P) in
  let accessToken := Js.or (Download.SHOPIFY_ACCESS_TOKEN P) (Download.ADMIN_TOKEN P) in
  if Js.truthy storeDomain && Js.truthy accessToken
  then [Download.EvPost
          ("https://" +:+ Js.or_default storeDomain EmptyString
           +:+ "/admin/api/2024-01/graphql.json") q]
  else [].

(** The base64 text of an inline payload: what follows the first comma of
    a data URL, up to the next comma, or the whole text. *)
Definition payload (data : string) : string :=
  if Js.includes_char data ","
  then nth 1 (Js.split "," data) EmptyString
  else data.

(** The order a GraphQL answer holds, and an answer without errors. *)
Definition order_of (j : Download.GqlJson) : option Download.DraftOrder :=
  match Download.data j with
  | Some d => Download.draftOrder d
  | None => None
  end.

Definition no_errors (j : Download.GqlJson) : Prop :=
  Download.errors j = None \/ Download.errors j = Some [].

(** The response after the CORS setup of the handler. *)
Definition cors (P : Download.Platform) (req : Request) : Response :=
  CorsConfig.setCorsHeaders (Download.URL_origin P) req CorsConfig.default_methods
    fresh_response.

(** The events that are requests to the outside. *)
Definition is_request (e : Download.Event) : Prop :=
  match e with
  | Download.EvPost _ _ | Download.EvGet _ => True
  | Download.EvZipNew | Download.EvZipGenerate => False
  end.

(** The later history continues the earlier one with requests only. *)
Definition continues (h h' : list Download.Event) : Prop :=
  exists evs, h' = (h ++ evs)%list /\ Forall is_request evs.


(** The outcomes of the rounds of the download loop, in order: each round
    continues the history the round before left. *)
Fixpoint rounds (P : Download.Platform) (files : list Download.FileEntry)
    (h : list Download.Event) : list (Download.Completion (list Byte.byte)) :=
  match files with
  | [] => []
  | file :: rest =>
      let (fileBuffer, h') := Download.materialize P file h in
      fileBuffer :: rounds P rest h'
  end.

(** A round that threw. *)
Definition failed (outcome : Download.Completion (list Byte.byte)) : Prop :=
  match outcome with
  | Download.Thrown _ => True
  | Download.Returned _ => False
  end.

Definition is_returned (outcome : Download.Completion (list Byte.byte)) : bool :=
  match outcome with
  | Download.Returned _ => true
  | Download.Thrown _ => false
  end.

(** The names the download loop writes into the archive, round by round:
    the display name of a file that was obtained, the error name of one
    that was not. *)
Fixpoint written (P : Download.Platform) (files : list Download.FileEntry)
    (h : list Download.Event) : list string :=
  match files with
  | [] => []
  | file :: rest =>
      let (fileBuffer, h') := Download.materialize P file h in
      match fileBuffer with
      | Download.Returned _ => Download.fileName file
      | Download.Thrown _ => Download.errorName file
      end :: written P rest h'
  end.

(** ** Sample requests *)

(** A request without an [Origin] header whose [Referer] is a page served
    from the local development host, and the origin of that [Referer]. *)
Definition referer_request : Request :=
  {| method := "GET";
     header_origin := None;
     header_referer := Some "http://localhost:3000/pages/rfq";
     query_draftOrderId := None |}.

Definition referer_URL_origin (s : string) : option string :=
  if String.eqb s "http://localhost:3000/pages/rfq"
  then Some "http://localhost:3000"
  else None.

(** ** A sample store *)

Definition attribute (k v : string) : Download.KeyValue :=
  {| Download.key := k; Download.value := Some v |}.

(** A line item with an uploaded file: its display name and its URL. *)
Definition uploaded (fileName url : string) : Download.LineItem :=
  {| Download.title := Some "3D print";
     Download.customAttributes :=
       Some [attribute "文件" fileName; attribute "Shopify文件URL" url] |}.

(** Two line items carry files of the same name, a third one a file whose
    download fails. *)
Definition order_duplicate_names : Download.DraftOrder :=
  {| Download.name := Some "#D1001";
     Download.lineItems :=
       [ uploaded "part.stl" "https://cdn.example.com/a/part.stl";
         uploaded "part.stl" "https://cdn.example.com/b/part.stl";
         uploaded "cover.stl" "https://cdn.example.com/gone/cover.stl" ] |}.

(** No line item carries a usable file reference. *)
Definition order_without_files : Download.DraftOrder :=
  {| Download.name := Some "#D1002";
     Download.lineItems :=
       [ {| Download.title := Some "Sample";
            Download.customAttributes :=
              Some [attribute "Shopify文件URL" "未上传"] |};
         {| Download.title := Some "Service fee";
            Download.customAttributes := None |} ] |}.

(** Every download fails: a URL that is gone and an identifier without a
    record. *)
Definition order_all_failing : Download.DraftOrder :=
  {| Download.name := Some "#D1003";
     Download.lineItems :=
       [ uploaded "cover.stl" "https://cdn.example.com/gone/cover.stl";
         {| Download.title := Some "bracket.stl";
            Download.customAttributes := Some [attribute "文件ID" "file_42"] |} ] |}.

Definition answer_json (order : option Download.DraftOrder)
    (nodes : list Download.Metaobject) : Download.GqlJson :=
  {| Download.errors := None;
     Download.data :=
       Some {| Download.draftOrder := order;
               Download.metaobjectByHandle := None;
               Download.metaobjects := Some nodes |} |}.

Definition answer (order : option Download.DraftOrder) (nodes : list Download.Metaobject)
    : Download.Completion Download.GqlJson :=
  Download.Returned (answer_json order nodes).

(** A toy serialization of the archive: the contents of its entries, one
    after the other. *)
Definition stored (archive : gmap string Download.ZipData) : list Byte.byte :=
  flat_map
    (fun entry =>
       match snd entry with
       | Download.ZipBinary bytes => bytes
       | Download.ZipText text => list_byte_of_string text
       end)
    (map_to_list archive).

Definition sample_store : Download.Platform :=
  {| Download.SHOPIFY_STORE_DOMAIN := Some "sain-pdc-test.myshopify.com";
     Download.SHOP := None;
     Download.SHOPIFY_ACCESS_TOKEN := Some "shpat_sample";
     Download.ADMIN_TOKEN := None;
     Download.post_json := fun _ _ _ q =>
       match q with
       | Download.DraftOrderQuery id =>
           if String.eqb id "gid://shopify/DraftOrder/1001"
           then answer (Some order_duplicate_names) []
           else if String.eqb id "gid://shopify/DraftOrder/1002"
           then answer (Some order_without_files) []
           else if String.eqb id "gid://shopify/DraftOrder/1003"
           then answer (Some order_all_failing) []
           else answer None []
       | _ => answer None []
       end;
     Download.get := fun _ url =>
       if String.eqb url "https://cdn.example.com/a/part.stl"
       then Download.FetchResponse true 200 "OK" (Download.Returned [Byte.x01; Byte.x02])
       else if String.eqb url "https://cdn.example.com/b/part.stl"
       then Download.FetchResponse true 200 "OK" (Download.Returned [Byte.x03])
       else Download.FetchResponse false 404 "Not Found" (Download.Returned []);
     Download.Date_now := fun _ => 1700000000000%Z;
     Download.JSZip := true;
     Download.Buffer_from_base64 := fun _ => [];
     Download.generateAsync := stored;
     Download.URL_origin := fun _ => None |}.

Definition request_for (draftOrderId : string) : Request :=
  {| method := "GET";
     header_origin := Some "https://sain-pdc-test.myshopify.com";
     header_referer := None;
     query_draftOrderId := Some draftOrderId |}.

(** ** Further vocabulary: requests, entries and well-formed files *)

(** The number of requests (GraphQL calls and downloads) among events. *)
Definition is_request_b (e : Download.Event) : bool :=
  match e with
  | Download.EvPost _ _ | Download.EvGet _ => true
  | Download.EvZipNew | Download.EvZipGenerate => false
  end.

Definition request_count (evs : list Download.Event) : nat :=
  length (List.filter is_request_b evs).

(** Every download among the events goes to a URL that begins with [http]. *)
Definition downloads_http (evs : list Download.Event) : Prop :=
  forall url, In (Download.EvGet url) evs -> String.prefix "http" url = true.

(** The order the handler works on, if it gets that far: the identifier is
    given and the store answers with an order. *)
Definition looked_up (P : Download.Platform) (req : Request)
    : option Download.DraftOrder :=
  match query_draftOrderId req with
  | Some id =>
      match fst (Download.shopGql P (Download.DraftOrderQuery id) []) with
      | Download.Returned j => order_of j
      | Download.Thrown _ => None
      end
  | None => None
  end.

(** What the extraction guarantees of a file entry: a display name that is
    not empty, and a URL that begins with [http] and is not the placeholder,
    or an identifier that is not empty. *)
Definition well_formed (file : Download.FileEntry) : Prop :=
  Download.fileName file <> EmptyString
  /\ match file with
     | Download.ShopifyUrlFile _ url =>
         String.prefix "http" url = true /\ url <> "未上传"
     | Download.MetaobjectFile _ fileId => fileId <> EmptyString
     end.


(** A text without a comma. *)
Definition comma_free (s : string) : Prop :=
  Js.includes_char s "," = false.

(** A name without a slash.  The archive library adds a folder entry for
    every directory prefix of a name; for a name without a slash it adds
    none, and the archive holds the file entries only. *)
Definition slash_free (n : string) : Prop :=
  Js.includes_char n "/" = false.

(** A second sample store: its metaobjects hold one file as a URL, one as
    an inline payload, and one record without either. *)
Definition record (file_id : string) (more : list Download.KeyValue)
    : Download.Metaobject :=
  {| Download.fields := attribute "file_id" file_id :: more |}.

Definition sample_records : list Download.Metaobject :=
  [ record "file_7" [attribute "file_url" "https://cdn.example.com/m/gear.stl";
                     attribute "file_name" "gear.stl"];
    record "file_8" [attribute "file_data" "data:model/stl;base64,QUJD"];
    record "file_9" [attribute "file_url" "ftp://old.example.com/x"] ].

Definition referenced (display fileId : string) : Download.LineItem :=
  {| Download.title := Some display;
     Download.customAttributes := Some [attribute "文件ID" fileId] |}.

(** Files of distinct names: a direct URL, three identifiers and a URL that
    is gone. *)
Definition order_mixed : Download.DraftOrder :=
  {| Download.name := None;
     Download.lineItems :=
       [ uploaded "part.stl" "https://cdn.example.com/a/part.stl";
         referenced "gear.stl" "file_7";
         referenced "knob.stl" "file_8";
         referenced "lost.stl" "file_9";
         uploaded "cover.stl" "https://cdn.example.com/gone/cover.stl" ] |}.

Definition sample_files_store : Download.Platform :=
  {| Download.SHOPIFY_STORE_DOMAIN := None;
     Download.SHOP := Some "sain-pdc-test.myshopify.com";
     Download.SHOPIFY_ACCESS_TOKEN := None;
     Download.ADMIN_TOKEN := Some "shpat_sample";
     Download.post_json := fun _ _ _ q =>
       match q with
       | Download.DraftOrderQuery _ => answer (Some order_mixed) []
       | Download.MetaobjectByHandleQuery _ _ => Download.Thrown "socket hang up"
       | Download.MetaobjectsQuery _ _ => answer None sample_records
       end;
     Download.get := fun _ url =>
       if String.eqb url "https://cdn.example.com/a/part.stl"
       then Download.FetchResponse true 200 "OK" (Download.Returned [Byte.x01; Byte.x02])
       else if String.eqb url "https://cdn.example.com/m/gear.stl"
       then Download.FetchResponse true 200 "OK" (Download.Returned [Byte.x07])
       else Download.FetchResponse false 404 "Not Found" (Download.Returned []);
     Download.Date_now := fun _ => 1700000000000%Z;
     Download.JSZip := true;
     Download.Buffer_from_base64 := fun s => list_byte_of_string s;
     Download.generateAsync := stored;
     Download.URL_origin := fun _ => None |}.

(** A platform without credentials. *)
Definition unconfigured_store : Download.Platform :=
  {| Download.SHOPIFY_STORE_DOMAIN := None;
     Download.SHOP := None;
     Download.SHOPIFY_ACCESS_TOKEN := Some "shpat_sample";
     Download.ADMIN_TOKEN := None;
     Download.post_json := fun _ _ _ _ => answer (Some order_mixed) [];
     Download.get := fun _ _ => Download.FetchRejected "unreachable";
     Download.Date_now := fun _ => 0%Z;
     Download.JSZip := true;
     Download.Buffer_from_base64 := fun _ => [];
     Download.generateAsync := stored;
     Download.URL_origin := fun _ => None |}.

(** How an order lookup fails: the call throws, or the answer lists errors
    (whatever data it holds besides).  The error code of the answer and its
    details. *)
Definition lookup_failure (reply : Download.Completion Download.GqlJson)
    : option (string * string) :=
  match reply with
  | Download.Thrown message => Some ("批量下载失败", message)
  | Download.Returned j =>
      match Download.errors j with
      | Some (e :: _) => Some ("查询订单失败", e)
      | _ => None
      end
  end.

(** The credentials are configured: a store domain and an access token. *)
Definition configured (P : Download.Platform) : bool :=
  Js.truthy (Js.or (Download.SHOPIFY_STORE_DOMAIN P) (Download.SHOP P))
  && Js.truthy (Js.or (Download.SHOPIFY_ACCESS_TOKEN P) (Download.ADMIN_TOKEN P)).

(** A store that answers with the order and a list of errors. *)
Definition throttled_store : Download.Platform :=
  {| Download.SHOPIFY_STORE_DOMAIN := Some "sain-pdc-test.myshopify.com";
     Download.SHOP := None;
     Download.SHOPIFY_ACCESS_TOKEN := Some "shpat_sample";
     Download.ADMIN_TOKEN := None;
     Download.post_json := fun _ _ _ _ =>
       Download.Returned
         {| Download.errors := Some ["Throttled"; "Try again"];
            Download.data :=
              Some {| Download.draftOrder := Some order_mixed;
                      Download.metaobjectByHandle := None;
                      Download.metaobjects := None |} |};
     Download.get := fun _ _ => Download.FetchRejected "unreachable";
     Download.Date_now := fun _ => 0%Z;
     Download.JSZip := true;
     Download.Buffer_from_base64 := fun _ => [];
     Download.generateAsync := stored;
     Download.URL_origin := fun _ => None |}.

(** The entries of an archive that hold bytes, and those that hold an error
    text. *)
Definition is_binary (d : Download.ZipData) : bool :=
  match d with
  | Download.ZipBinary _ => true
  | Download.ZipText _ => false
  end.

Definition binary_entries (archive : gmap string Download.ZipData)
    : gmap string Download.ZipData :=
  filter (fun entry => is_binary (snd entry) = true) archive.

Definition text_entries (archive : gmap string Download.ZipData)
    : gmap string Download.ZipData :=
  filter (fun entry => is_binary (snd entry) = false) archive.

(** What a round stores, by its outcome: the name and the content. *)
Definition stored_name (file : Download.FileEntry)
    (outcome : Download.Completion (list Byte.byte)) : string :=
  match outcome with
  | Download.Returned _ => Download.fileName file
  | Download.Thrown _ => Download.errorName file
  end.

Definition stored_data (outcome : Download.Completion (list Byte.byte))
    : Download.ZipData :=
  match outcome with
  | Download.Returned buf => Download.ZipBinary buf
  | Download.Thrown message => Download.ZipText (Download.errorText message)
  end.

(** The text the parts after the first one stand for: each part behind a
    separator. *)
Fixpoint join_tail (sep : ascii) (parts : list string) : string :=
  match parts with
  | [] => EmptyString
  | part :: rest => String sep (part +:+ join_tail sep rest)
  end.

Definition uploaded_file_entry : Download.FileEntry :=
  Download.ShopifyUrlFile "part.stl" "https://cdn.example.com/a/part.stl".

(** ** Vocabulary of the authorization checks *)

(** The shape of an address the pattern accepts: a local part, an at sign,
    and a domain with a dot that has something before and after it; the
    three parts are not empty and hold neither white space nor an at sign. *)
Definition email_shape (units : list N) : Prop :=
  exists local before after,
    units = (local ++ AuthChecks.at_sign :: before ++ AuthChecks.dot :: after)%list
    /\ local <> [] /\ before <> [] /\ after <> []
    /\ Forall (fun u => AuthChecks.plain u = true) (local ++ before ++ after)%list.

(** A request whose body gives the address and whose query gives the flag. *)
Definition split_request : AuthChecks.AuthRequest :=
  {| AuthChecks.body :=
       Some {| AuthChecks.email := Auth.JsString " Issac.Yu@SainStore.com";
               AuthChecks.admin := Auth.JsUndefined |};
     AuthChecks.query :=
       Some {| AuthChecks.email := Auth.JsString "someone@else.example";
               AuthChecks.admin := Auth.JsString "Yes" |} |}.

(** ** Further vocabulary: allowed methods *)

(** The methods a request is compared with: the parts of the string,
    trimmed, or the items of the array, in upper case. *)
Definition listed_methods (trim toUpperCase : string -> string)
    (allowedMethods : CorsHandle.Value) : list string :=
  match allowedMethods with
  | CorsHandle.Text s => List.map (fun m => toUpperCase (trim m)) (Js.split "," s)
  | CorsHandle.Array items => List.map toUpperCase items
  end.

(** The methods named in the refusal: the listed ones but [OPTIONS]. *)
Definition checked_methods (trim toUpperCase : string -> string)
    (allowedMethods : CorsHandle.Value) : list string :=
  List.filter (fun m => negb (String.eqb m "OPTIONS"))
    (listed_methods trim toUpperCase allowedMethods).

(** The value of a header of the response of [handleCors]. *)
Definition header_of (name : string) (res : CorsHandle.Res) : option CorsHandle.Value :=
  CorsHandle.headers res !! name.

(** The default administrators of the authorization service. *)
Definition service_default_admins : list string :=
  ["jonathan.wang@sainstore.com"; "issac.yu@sainstore.com"].

(** The default administrators of the configuration module that the
    authorization service does not know. *)
Definition config_only_admins : list string :=
  [ "jonthan.wang@gmail.com"; "kitto.chen@sainstore.com"; "cherry@sain3.com";
    "keihen.luo@sain3.com"; "nancy.lin@sainstore.com" ].

(** ** Further vocabulary: error responses *)

(** The response [handleError] built, sent or not. *)
Definition response_of (outcome : ErrorHandler.Outcome) : ErrorHandler.ErrorResponse :=
  match outcome with
  | ErrorHandler.Answered r | ErrorHandler.Built r => r
  end.

(** The text has none of the given substrings. *)
Definition mentions_none (text : string) (subs : list string) : bool :=
  forallb (fun sub => negb (Text.includes text sub)) subs.

(** The status and the code [handleError] gives to an [Error] whose
    message it recognizes. *)
Definition recognized : list (Auth.JsValue * Auth.JsValue) :=
  [ (Auth.JsNumber 500, Auth.JsString "configuration_error");
    (Auth.JsNumber 502, Auth.JsString "shopify_api_error");
    (Auth.JsNumber 403, Auth.JsString "forbidden");
    (Auth.JsNumber 404, Auth.JsString "not_found");
    (Auth.JsNumber 400, Auth.JsString "missing_parameter") ].

(** The status used when the message is not recognized. *)
Definition fallback_status (options : ErrorHandler.Options) : Auth.JsValue :=
  ErrorHandler.with_default (ErrorHandler.defaultStatus options) (Auth.JsNumber 500).

(** ** Further vocabulary: the client of the store *)

(** The message of the error [query] throws without configuration. *)
Definition configuration_missing : string :=
  "Shopify 配置缺失：请设置 SHOPIFY_STORE_DOMAIN/SHOP 和 SHOPIFY_ACCESS_TOKEN/ADMIN_TOKEN".

(** The request [query] sends. *)
Definition request_of {Variables : Type} (this : ShopifyClient.Client)
    (query : string) (variables : Variables) : ShopifyClient.Call Variables :=
  {| ShopifyClient.url := ShopifyClient.endpoint this;
     ShopifyClient.token := ShopifyClient.accessToken this;
     ShopifyClient.body_query := query;
     ShopifyClient.body_variables := variables |}.

(** The answer lists no error. *)
Definition without_errors {Payload : Type} (json : ShopifyClient.Json Payload) : Prop :=
  ShopifyClient.errors json = None \/ ShopifyClient.errors json = Some [].

(** No member of the data of the answer lists a user error. *)
Definition without_user_errors {Payload : Type} (json : ShopifyClient.Json Payload)
    : Prop :=
  forall key member,
    In (key, Some member)
       (match ShopifyClient.data json with Some members => members | None => [] end) ->
    ShopifyClient.userErrors member = None \/ ShopifyClient.userErrors member = Some [].

(** The store refuses the request or reports errors: the status of the
    response is not ok, or its answer lists at least one error. *)
Definition store_failure {Payload : Type} (reply : ShopifyClient.Reply Payload)
    (message : string) : Prop :=
  (exists status statusText json,
      reply = ShopifyClient.Response false status statusText json
      /\ message = "Shopify API 请求失败: " +:+ pretty status +:+ " " +:+ statusText)
  \/ (exists status statusText json first others,
         reply = ShopifyClient.Response true status statusText (Download.Returned json)
         /\ ShopifyClient.errors json = Some (first :: others)
         /\ message = "GraphQL 错误: " +:+ first).

(** An endpoint that only calls the store, as [asyncHandler] wraps it: it
    returns the answer of [query] and throws what [query] throws. *)
Definition query_endpoint {Variables Payload : Type}
    (fetch : ShopifyClient.Call Variables -> ShopifyClient.Reply Payload)
    (this : ShopifyClient.Client) (query : string) (variables : Variables)
    : unit -> bool -> ShopifyClient.Json Payload + ErrorHandler.ErrorValue :=
  fun _ _ =>
    match fst (ShopifyClient.query fetch this query variables) with
    | Download.Returned json => inl json
    | Download.Thrown message => inr (ErrorHandler.ErrorInstance message)
    end.

(** The environment of the client in the surroundings of the handler. *)
Definition env_of (P : Download.Platform) : ShopifyClient.Env :=
  {| ShopifyClient.SHOPIFY_STORE_DOMAIN := Download.SHOPIFY_STORE_DOMAIN P;
     ShopifyClient.SHOP := Download.SHOP P;
     ShopifyClient.SHOPIFY_ACCESS_TOKEN := Download.SHOPIFY_ACCESS_TOKEN P;
     ShopifyClient.ADMIN_TOKEN := Download.ADMIN_TOKEN P |}.

(** A store that cannot be reached. *)
Definition unreachable : ShopifyClient.Call unit -> ShopifyClient.Reply unit :=
  fun _ => ShopifyClient.Rejected "connect ECONNREFUSED".

(** A store that answers every request with the status 404. *)
Definition not_found_store : ShopifyClient.Call unit -> ShopifyClient.Reply unit :=
  fun _ => ShopifyClient.Response false 404 "Not Found"
             (Download.Thrown "Unexpected end of JSON input").

(** A client with a store domain and an access token. *)
Definition sample_client : ShopifyClient.Client :=
  ShopifyClient.constructor
    {| ShopifyClient.SHOPIFY_STORE_DOMAIN := None;
       ShopifyClient.SHOP := Some "sain-pdc-test.myshopify.com";
       ShopifyClient.SHOPIFY_ACCESS_TOKEN := Some "shpat_sample";
       ShopifyClient.ADMIN_TOKEN := None |}.

(** * Properties *)

(** ** Facts on the JavaScript operators *)

Lemma truthy_Some (v : option string) :
  Js.truthy v = true <-> exists s, v = Some s /\ s <> EmptyString.
Proof.
  destruct v as [[|c s]|]; simpl; split; try discriminate.
  - intros (s & [= <-] & Hs). congruence.
  - intros _. exists (String c s). split; [reflexivity | discriminate].
  - intros (s' & [= <-] & _). reflexivity.
  - intros (s & Hs & _). discriminate.
Qed.

Lemma truthy_or_default (v : option string) (d : string) :
  Js.truthy v = true -> v = Some (Js.or_default v d).
Proof. destruct v as [[|c s]|]; simpl; intros H; try discriminate; reflexivity. Qed.

Lemma includes_In (xs : list string) (x : string) :
  Js.includes xs x = true <-> In x xs.
Proof.
  unfold Js.includes. rewrite existsb_exists. split.
  - intros (y & Hy & Heq). apply String.eqb_eq in Heq. now subst.
  - intros Hx. exists x. split; [assumption | apply String.eqb_refl].
Qed.

Lemma includes_not_In (xs : list string) (x : string) :
  Js.includes xs x = false <-> ~ In x xs.
Proof.
  rewrite <- includes_In. destruct (Js.includes xs x); split; intros H;
    try reflexivity; try discriminate; tauto.
Qed.

(** ** The CORS setup *)

Lemma allow_origin_setHeader_eq (v : string) (res : Response) :
  allow_origin (setHeader "Access-Control-Allow-Origin" v res) = Some v.
Proof. unfold allow_origin, setHeader. simpl. apply lookup_insert_eq. Qed.

Lemma allow_origin_setHeader_ne (k v : string) (res : Response) :
  k <> "Access-Control-Allow-Origin" ->
  allow_origin (setHeader k v res) = allow_origin res.
Proof. intros Hk. unfold allow_origin, setHeader. simpl. now apply lookup_insert_ne. Qed.

Ltac allow_origin_skip :=
  repeat (rewrite allow_origin_setHeader_ne by discriminate).

Lemma simple_allow_origin (req : Request) (res : Response) :
  allow_origin (snd (CorsSimple.setCorsHeaders req res)) =
  Some (if Js.truthy (header_origin req)
           && Js.includes CorsSimple.allowedOrigins
                (Js.or_default (header_origin req) EmptyString)
        then Js.or_default (header_origin req) EmptyString
        else default_store_domain).
Proof.
  unfold CorsSimple.setCorsHeaders.
  destruct (String.eqb (method req) "OPTIONS"); cbn [snd]; allow_origin_skip;
    destruct (Js.truthy (header_origin req)
              && Js.includes CorsSimple.allowedOrigins
                   (Js.or_default (header_origin req) EmptyString));
    apply allow_origin_setHeader_eq.
Qed.

Lemma config_allow_origin (url_origin : string -> option string)
    (req : Request) (methods : string) (res : Response) :
  allow_origin (CorsConfig.setCorsHeaders url_origin req methods res) =
  Some (if Js.includes CorsConfig.allowedOrigins
             (CorsConfig.effective_origin url_origin req)
        then CorsConfig.effective_origin url_origin req
        else default_store_domain).
Proof.
  unfold CorsConfig.setCorsHeaders. allow_origin_skip.
  apply allow_origin_setHeader_eq.
Qed.

(** C9, as stated, fails for the configuration module: a request without
    an [Origin] header whose [Referer] comes from an allowed origin gets
    that origin, not the default store domain. *)
Lemma referer_origin_is_echoed :
  header_origin referer_request = None /\
  allow_origin
    (CorsConfig.setCorsHeaders referer_URL_origin referer_request
       CorsConfig.default_methods fresh_response)
  = Some "http://localhost:3000" /\
  "http://localhost:3000" <> default_store_domain.
Proof. split; [reflexivity | split; [reflexivity | discriminate]]. Qed.

(** C9 (amended): the simplified setup answers the [Origin] header when it
    is in its allow-list and the default store domain otherwise, also when
    the header is absent.  The configuration module does the same with the
    effective origin, which is the [Origin] header when it is present and
    not empty and else the origin of the [Referer] URL: a request without
    [Origin] gets the origin of its [Referer] when that origin is in the
    allow-list, and the default store domain when it is not, when there is
    no [Referer] or when the [Referer] is not a URL.  Either way the value
    sent is a member of the allow-list. *)
Theorem setCorsHeaders_allow_origin
    (url_origin : string -> option string) (req : Request)
    (methods : string) (res : Response) :
  let simple := allow_origin (snd (CorsSimple.setCorsHeaders req res)) in
  let config := allow_origin (CorsConfig.setCorsHeaders url_origin req methods res) in
  let origin := CorsConfig.effective_origin url_origin req in
  (forall o, header_origin req = Some o -> In o CorsSimple.allowedOrigins ->
             simple = Some o) /\
  ((forall o, header_origin req = Some o -> ~ In o CorsSimple.allowedOrigins) ->
   simple = Some default_store_domain) /\
  (forall o, header_origin req = Some o -> o <> EmptyString -> origin = o) /\
  (header_origin req = None -> header_referer req = None -> origin = EmptyString) /\
  (In origin CorsConfig.allowedOrigins -> config = Some origin) /\
  (~ In origin CorsConfig.allowedOrigins -> config = Some default_store_domain) /\
  (exists a, simple = Some a /\ In a CorsSimple.allowedOrigins) /\
  (exists a, config = Some a /\ In a CorsConfig.allowedOrigins) /\
  (forall r,
     Js.truthy (header_origin req) = false ->
     header_referer req = Some r -> r <> EmptyString ->
     origin = match url_origin r with
              | Some o => o
              | None => EmptyString
              end) /\
  (forall r o,
     Js.truthy (header_origin req) = false ->
     header_referer req = Some r -> r <> EmptyString ->
     url_origin r = Some o ->
     config = Some (if Js.includes CorsConfig.allowedOrigins o then o
                    else default_store_domain)) /\
  (Js.truthy (header_origin req) = false ->
   (Js.truthy (header_referer req) = false
    \/ exists r, header_referer req = Some r /\ url_origin r = None) ->
   origin = EmptyString /\ config = Some default_store_domain).
Proof.
  cbv zeta. rewrite simple_allow_origin, config_allow_origin.
  assert (Hreferer : forall r,
            Js.truthy (header_origin req) = false ->
            header_referer req = Some r -> r <> EmptyString ->
            CorsConfig.effective_origin url_origin req
            = match url_origin r with
              | Some o => o
              | None => EmptyString
              end).
  { intros r Ho Hr Hne. unfold CorsConfig.effective_origin. rewrite Hr.
    destruct (header_origin req) as [[|c o]|]; try discriminate;
      destruct r as [|d r]; try congruence; reflexivity. }
  assert (Hnone : Js.truthy (header_origin req) = false ->
                  (Js.truthy (header_referer req) = false
                   \/ exists r, header_referer req = Some r /\ url_origin r = None) ->
                  CorsConfig.effective_origin url_origin req = EmptyString).
  { intros Ho [Hr | (r & Hr & Hu)].
    - unfold CorsConfig.effective_origin.
      destruct (header_origin req) as [[|c o]|]; try discriminate;
        destruct (header_referer req) as [[|d r]|]; try discriminate; reflexivity.
    - destruct r as [|d r].
      + unfold CorsConfig.effective_origin. rewrite Hr.
        destruct (header_origin req) as [[|c o]|]; try discriminate; reflexivity.
      + rewrite (Hreferer (String d r) Ho Hr) by discriminate. now rewrite Hu. }
  split; [|split; [|split; [|split; [|split; [|split; [|split; [|split; [|split; [|split]]]]]]]]].
  - intros o Ho Hin. rewrite Ho.
    destruct o as [|c o]; [simpl in Hin; intuition discriminate|].
    cbn [Js.truthy Js.or_default andb].
    apply includes_In in Hin. now rewrite Hin.
  - intros Hout. destruct (header_origin req) as [[|c o]|] eqn:Ho; try reflexivity.
    cbn [Js.truthy Js.or_default andb].
    specialize (Hout _ eq_refl). apply includes_not_In in Hout. now rewrite Hout.
  - intros o Ho Hne. unfold CorsConfig.effective_origin. rewrite Ho.
    destruct o as [|c o]; [congruence | reflexivity].
  - intros Ho Hr. unfold CorsConfig.effective_origin. rewrite Ho, Hr. reflexivity.
  - intros Hin. apply includes_In in Hin. now rewrite Hin.
  - intros Hout. apply includes_not_In in Hout. now rewrite Hout.
  - destruct (Js.truthy (header_origin req) && _) eqn:E.
    + apply andb_prop in E as [_ E]. apply includes_In in E. eauto.
    + eexists. split; [reflexivity | simpl; auto].
  - destruct (Js.includes CorsConfig.allowedOrigins _) eqn:E.
    + apply includes_In in E. eauto.
    + eexists. split; [reflexivity | simpl; auto].
  - exact Hreferer.
  - intros r o Ho Hr Hne Hu. rewrite (Hreferer r Ho Hr Hne), Hu. reflexivity.
  - intros Ho Hr. rewrite (Hnone Ho Hr). split; reflexivity.
Qed.

(** ** The authorization service *)

Section AuthFacts.

Import Auth.

Variable trim : string -> string.
Variable toLowerCase : string -> string.

(** What the proofs use of the two string methods: normalizing twice is
    normalizing once, and the empty string is left as it is. *)
Hypothesis normalize_idempotent :
  forall s, toLowerCase (trim (toLowerCase (trim s))) = toLowerCase (trim s).
Hypothesis trim_empty : trim EmptyString = EmptyString.
Hypothesis toLowerCase_empty : toLowerCase EmptyString = EmptyString.

Lemma normalizeEmail_string (s : string) :
  normalizeEmail trim toLowerCase (JsString s) = toLowerCase (trim s).
Proof.
  destruct s as [|c s]; simpl; [|reflexivity].
  now rewrite trim_empty, toLowerCase_empty.
Qed.

Lemma normalizeEmail_idempotent (email : JsValue) :
  normalizeEmail trim toLowerCase (JsString (normalizeEmail trim toLowerCase email))
  = normalizeEmail trim toLowerCase email.
Proof.
  rewrite normalizeEmail_string.
  destruct email as [| |b|n|s]; simpl;
    try (now rewrite trim_empty, toLowerCase_empty).
  destruct s as [|c s]; simpl.
  - now rewrite trim_empty, toLowerCase_empty.
  - apply normalize_idempotent.
Qed.

Lemma isAdmin_In (this : AuthService) (email : JsValue) :
  isAdmin trim toLowerCase this email = true
  <-> In (normalizeEmail trim toLowerCase email) (adminWhitelist this).
Proof. unfold isAdmin. apply includes_In. Qed.

(** C10: [hasAdminPermission] holds exactly when the admin flag, made a
    string and lowercased, is one of '1', 'true', 'yes' and the email,
    trimmed and lowercased, is in the whitelist.  So a whitelisted email
    without the flag is refused, and so is a flag with an email that is not
    in the whitelist. *)
Theorem hasAdminPermission_iff (this : AuthService) (email : string) (admin : JsValue) :
  (hasAdminPermission trim toLowerCase this (JsString email) admin = true
   <-> In (toLowerCase (String_ (if truthy admin then admin else JsString EmptyString)))
          ["1"; "true"; "yes"]
       /\ In (toLowerCase (trim email)) (adminWhitelist this))
  /\ (truthy admin = false ->
      hasAdminPermission trim toLowerCase this (JsString email) admin = false)
  /\ (~ In (toLowerCase (trim email)) (adminWhitelist this) ->
      hasAdminPermission trim toLowerCase this (JsString email) admin = false).
Proof.
  assert (Hiff : hasAdminPermission trim toLowerCase this (JsString email) admin = true
     <-> In (toLowerCase (String_ (if truthy admin then admin else JsString EmptyString)))
            ["1"; "true"; "yes"]
         /\ In (toLowerCase (trim email)) (adminWhitelist this)).
  { unfold hasAdminPermission.
    rewrite andb_true_iff, includes_In, isAdmin_In, normalizeEmail_idempotent,
      normalizeEmail_string.
    reflexivity. }
  split; [exact Hiff | split].
  - intros Hflag. apply not_true_is_false. intros Htrue.
    apply Hiff in Htrue as [Hin _]. rewrite Hflag in Hin.
    cbn [String_] in Hin. rewrite toLowerCase_empty in Hin.
    simpl in Hin. intuition discriminate.
  - intros Hout. apply not_true_is_false. intros Htrue.
    apply Hiff in Htrue as [_ Hin]. contradiction.
Qed.

(** An email that is not a string is normalized to the empty string, which
    the constructor never puts in the whitelist. *)
Lemma parseAdminWhitelist_nonempty (env : option string) :
  ~ In EmptyString (parseAdminWhitelist trim toLowerCase env).
Proof.
  unfold parseAdminWhitelist. rewrite filter_In. intros [_ H]. discriminate.
Qed.

Lemma hasAdminPermission_not_string (env : option string) (email admin : JsValue) :
  (forall s, email <> JsString s) ->
  hasAdminPermission trim toLowerCase (constructor trim toLowerCase env) email admin = false.
Proof.
  intros Hns. unfold hasAdminPermission. apply andb_false_iff. right.
  apply not_true_is_false. rewrite isAdmin_In, normalizeEmail_idempotent.
  destruct email as [| |b|n|s]; try apply parseAdminWhitelist_nonempty.
  now destruct (Hns s).
Qed.

End AuthFacts.

(** *** The ASCII instance of the string methods *)

Lemma is_space_lower_char (c : ascii) :
  Auth.is_space (Auth.lower_char c) = Auth.is_space c.
Proof. destruct c as [[] [] [] [] [] [] [] []]; reflexivity. Qed.

Lemma lower_char_idempotent (c : ascii) :
  Auth.lower_char (Auth.lower_char c) = Auth.lower_char c.
Proof. destruct c as [[] [] [] [] [] [] [] []]; reflexivity. Qed.

Lemma drop_spaces_map_lower (l : list ascii) :
  Auth.drop_spaces (List.map Auth.lower_char l)
  = List.map Auth.lower_char (Auth.drop_spaces l).
Proof.
  induction l as [|c l IH]; [reflexivity|].
  simpl. rewrite is_space_lower_char.
  destruct (Auth.is_space c); [exact IH | reflexivity].
Qed.

Lemma drop_spaces_idempotent (l : list ascii) :
  Auth.drop_spaces (Auth.drop_spaces l) = Auth.drop_spaces l.
Proof.
  induction l as [|c l IH]; [reflexivity|].
  simpl. destruct (Auth.is_space c) eqn:E; [exact IH|].
  simpl. now rewrite E.
Qed.

Lemma drop_spaces_snoc (l : list ascii) (c : ascii) :
  Auth.is_space c = false ->
  Auth.drop_spaces (l ++ [c]) = (Auth.drop_spaces l ++ [c])%list.
Proof.
  intros Hc. induction l as [|d l IH]; simpl.
  - now rewrite Hc.
  - destruct (Auth.is_space d); [exact IH | reflexivity].
Qed.

Lemma drop_spaces_trimmed (l : list ascii) :
  Auth.drop_spaces (Auth.trimmed l) = Auth.trimmed l.
Proof.
  unfold Auth.trimmed.
  assert (Hhead : match Auth.drop_spaces l with
                  | c :: _ => Auth.is_space c = false
                  | [] => True
                  end).
  { induction l as [|c l IH]; simpl; [exact I|].
    destruct (Auth.is_space c) eqn:E; [exact IH | exact E]. }
  destruct (Auth.drop_spaces l) as [|c a]; [reflexivity|].
  change (rev (c :: a)) with (rev a ++ [c])%list.
  rewrite drop_spaces_snoc by exact Hhead.
  rewrite rev_app_distr. simpl. now rewrite Hhead.
Qed.

Lemma trimmed_idempotent (l : list ascii) :
  Auth.trimmed (Auth.trimmed l) = Auth.trimmed l.
Proof.
  unfold Auth.trimmed at 1. rewrite drop_spaces_trimmed.
  unfold Auth.trimmed. now rewrite rev_involutive, drop_spaces_idempotent.
Qed.

Lemma trimmed_map_lower (l : list ascii) :
  Auth.trimmed (List.map Auth.lower_char l) = List.map Auth.lower_char (Auth.trimmed l).
Proof.
  unfold Auth.trimmed.
  now rewrite drop_spaces_map_lower, <- map_rev, drop_spaces_map_lower, map_rev.
Qed.

Lemma ascii_normalize_idempotent (s : string) :
  Auth.ascii_toLowerCase (Auth.ascii_trim (Auth.ascii_toLowerCase (Auth.ascii_trim s)))
  = Auth.ascii_toLowerCase (Auth.ascii_trim s).
Proof.
  unfold Auth.ascii_toLowerCase, Auth.ascii_trim.
  rewrite !list_ascii_of_string_of_list_ascii.
  rewrite trimmed_map_lower, trimmed_idempotent, List.map_map.
  f_equal. apply List.map_ext. intros c. apply lower_char_idempotent.
Qed.

(** The default whitelist, a mixed-case address with blanks around it and
    the flag 'TRUE'. *)
Lemma hasAdminPermission_iff_default_whitelist :
  let this := Auth.constructor Auth.ascii_trim Auth.ascii_toLowerCase None in
  let email := " Issac.Yu@SainStore.com " in
  let admin := Auth.JsString "TRUE" in
  (Auth.hasAdminPermission Auth.ascii_trim Auth.ascii_toLowerCase this
     (Auth.JsString email) admin = true
   <-> In (Auth.ascii_toLowerCase
             (Auth.String_ (if Auth.truthy admin then admin
                            else Auth.JsString EmptyString)))
          ["1"; "true"; "yes"]
       /\ In (Auth.ascii_toLowerCase (Auth.ascii_trim email)) (Auth.adminWhitelist this))
  /\ (Auth.truthy admin = false ->
      Auth.hasAdminPermission Auth.ascii_trim Auth.ascii_toLowerCase this
        (Auth.JsString email) admin = false)
  /\ (~ In (Auth.ascii_toLowerCase (Auth.ascii_trim email)) (Auth.adminWhitelist this) ->
      Auth.hasAdminPermission Auth.ascii_trim Auth.ascii_toLowerCase this
        (Auth.JsString email) admin = false).
Proof.
  exact (hasAdminPermission_iff Auth.ascii_trim Auth.ascii_toLowerCase
           ascii_normalize_idempotent eq_refl eq_refl
           (Auth.constructor Auth.ascii_trim Auth.ascii_toLowerCase None)
           " Issac.Yu@SainStore.com " (Auth.JsString "TRUE")).
Defined.

Example hasAdminPermission_default_admin :
  Auth.hasAdminPermission Auth.ascii_trim Auth.ascii_toLowerCase
    (Auth.constructor Auth.ascii_trim Auth.ascii_toLowerCase None)
    (Auth.JsString " Issac.Yu@SainStore.com ") (Auth.JsString "TRUE") = true.
Proof. reflexivity. Qed.

(** ** Extraction of the file references *)

Lemma find_first_with_key (pairs : list Download.KeyValue) (k : string) :
  List.find (fun x => String.eqb (Download.key x) k) pairs = first_with_key pairs k.
Proof.
  induction pairs as [|kv rest IH]; [reflexivity|].
  cbn [List.find first_with_key].
  now destruct (String.eqb (Download.key kv) k).
Qed.

Lemma getAttr_attribute_value (lineItem : Download.LineItem) (k : string) :
  Download.getAttr (attributes_of lineItem) k = attribute_value lineItem k.
Proof.
  unfold Download.getAttr, attribute_value. now rewrite find_first_with_key.
Qed.

Lemma getField_field_value (r : Download.Metaobject) (k : string) :
  Download.getField r k = field_value r k.
Proof.
  unfold Download.getField, field_value. now rewrite find_first_with_key.
Qed.

Lemma extractFile_entries (files : list Download.FileEntry) (lineItem : Download.LineItem) :
  Download.extractFile files lineItem
  = (files ++ entries lineItem (sourceKind lineItem))%list.
Proof.
  unfold Download.extractFile.
  change (match Download.customAttributes lineItem with
          | Some l => l
          | None => []
          end) with (attributes_of lineItem).
  rewrite !getAttr_attribute_value.
  unfold sourceKind, entries, displayName, directUrl, indirectId.
  destruct (attribute_value lineItem "Shopify文件URL") as [[|c u]|];
    destruct (attribute_value lineItem "文件ID") as [[|d i]|];
    cbn [Js.truthy Js.or_default andb];
    try (destruct (negb _ && _));
    cbn [negb andb]; try reflexivity; now rewrite app_nil_r.
Qed.

Lemma extractFiles_from (edges : list Download.LineItem) (files : list Download.FileEntry) :
  fold_left Download.extractFile edges files
  = (files ++ flat_map (fun lineItem => entries lineItem (sourceKind lineItem)) edges)%list.
Proof.
  revert files. induction edges as [|lineItem edges IH]; intros files; simpl.
  - now rewrite app_nil_r.
  - rewrite IH, extractFile_entries. now rewrite <- app_assoc.
Qed.

Lemma sourceKind_Classified (lineItem : Download.LineItem) :
  Classified lineItem (sourceKind lineItem).
Proof.
  unfold sourceKind.
  destruct (directUrl lineItem) as [[|c u]|] eqn:Hu;
    destruct (indirectId lineItem) as [[|d i]|] eqn:Hi.
  all: try (destruct (negb (String.eqb (String c u) "未上传")
                      && String.prefix "http" (String c u)) eqn:Hrule).
  all: try (apply andb_prop in Hrule as [Hph Hpre];
            apply Classified_direct; repeat split; try assumption;
            [discriminate | apply negb_true_iff, String.eqb_neq in Hph; exact Hph]).
  all: assert (Hnodirect : forall v, ~ direct_rule lineItem v)
         by (intros v [[Hv Hne] [Hph Hpre]]; rewrite Hu in Hv;
             try discriminate; injection Hv as <-;
             try congruence;
             apply String.eqb_neq in Hph; rewrite Hph, Hpre in Hrule; discriminate).
  all: try (apply Classified_indirect; [exact Hnodirect | split; [exact Hi | discriminate]]).
  all: apply Classified_missing; [exact Hnodirect |];
       intros v [Hv Hne]; rewrite Hi in Hv; try discriminate;
       injection Hv as <-; congruence.
Qed.

Lemma Classified_unique (lineItem : Download.LineItem) (k k' : SourceKind) :
  Classified lineItem k -> Classified lineItem k' -> k = k'.
Proof.
  intros [u Hu | i Hnu Hi | Hnu Hni] [u' Hu' | i' Hnu' Hi' | Hnu' Hni'];
    try reflexivity;
    try (now destruct (Hnu _ Hu')); try (now destruct (Hnu' _ Hu));
    try (now destruct (Hni _ Hi')); try (now destruct (Hni' _ Hi)).
  - destruct Hu as [[Hu _] _], Hu' as [[Hu' _] _]. congruence.
  - destruct Hi as [Hi _], Hi' as [Hi' _]. congruence.
Qed.

(** C2: every line item has exactly one classification under the priority
    order (direct URL present, not the placeholder and beginning with
    [http]; else indirect identifier present; else missing).  The loop
    appends one file entry for the first two kinds and nothing for a
    missing reference, and goes on with the next line item.  The
    attributes are read off the custom attributes of the line item (the
    first one with the key counts); a line item without custom attributes
    is missing. *)
Theorem extractFiles_classification :
  (forall lineItem,
     Classified lineItem (sourceKind lineItem)
     /\ (forall k, Classified lineItem k -> k = sourceKind lineItem))
  /\ (forall files lineItem,
        Download.extractFile files lineItem
        = (files ++ entries lineItem (sourceKind lineItem))%list)
  /\ (forall edges,
        Download.extractFiles edges
        = flat_map (fun lineItem => entries lineItem (sourceKind lineItem)) edges)
  /\ (forall files lineItem,
        (Download.customAttributes lineItem = None
         \/ Download.customAttributes lineItem = Some []) ->
        sourceKind lineItem = Missing
        /\ Download.extractFile files lineItem = files).
Proof.
  split; [|split; [|split]].
  - intros lineItem. split; [apply sourceKind_Classified|].
    intros k Hk. exact (Classified_unique _ _ _ Hk (sourceKind_Classified lineItem)).
  - exact extractFile_entries.
  - intros edges. unfold Download.extractFiles. now rewrite extractFiles_from.
  - intros files lineItem Hnone.
    assert (Hk : sourceKind lineItem = Missing).
    { unfold sourceKind, directUrl, indirectId, attribute_value, attributes_of.
      now destruct Hnone as [-> | ->]. }
    split; [exact Hk|].
    rewrite extractFile_entries, Hk. apply app_nil_r.
Qed.

(** ** Resolution of an indirect reference *)

Lemma shopGql_events (P : Download.Platform) (q : Download.GqlQuery)
    (h : list Download.Event) :
  snd (Download.shopGql P q h) = (h ++ gql_events P q)%list.
Proof.
  unfold Download.shopGql, gql_events.
  destruct (Js.truthy (Js.or (Download.SHOPIFY_STORE_DOMAIN P) (Download.SHOP P)));
    destruct (Js.truthy (Js.or (Download.SHOPIFY_ACCESS_TOKEN P) (Download.ADMIN_TOKEN P)));
    simpl; unfold Download.ret; simpl; now rewrite ?app_nil_r.
Qed.

Lemma has_file_id_spec (fileId : string) (node : Download.Metaobject) :
  Download.has_file_id fileId node = true
  <-> exists f,
        List.find (fun x => String.eqb (Download.key x) "file_id") (Download.fields node)
        = Some f
        /\ Download.value f = Some fileId.
Proof.
  unfold Download.has_file_id.
  destruct (List.find _ (Download.fields node)) as [f|].
  - destruct (Download.value f) as [v|] eqn:Hv.
    + rewrite String.eqb_eq. split.
      * intros ->. eauto.
      * intros (f' & [= <-] & Hf'). congruence.
    + split; [discriminate|]. intros (f' & [= <-] & Hf'). congruence.
  - split; [discriminate|]. intros (f' & Hf' & _). discriminate.
Qed.

(** The record [getFileFromMetaobject] settles on and the events after it. *)
Lemma getFileFromMetaobject_record (P : Download.Platform) (fileId : string)
    (h : list Download.Event) :
  let handleQuery := Download.MetaobjectByHandleQuery fileId "uploaded_file" in
  let listQuery := Download.MetaobjectsQuery "uploaded_file" 100 in
  let r1 := fst (Download.shopGql P handleQuery h) in
  let h1 := snd (Download.shopGql P handleQuery h) in
  let r2 := fst (Download.shopGql P listQuery h1) in
  let h2 := snd (Download.shopGql P listQuery h1) in
  Download.getFileFromMetaobject P fileId h
  = match handle_record r1 with
    | Some r => (Download.fileInfo_of_record (Some r), h1)
    | None =>
        (Download.fileInfo_of_record
           (List.find (Download.has_file_id fileId) (list_nodes r2)), h2)
    end.
Proof.
  cbv zeta. unfold Download.getFileFromMetaobject, Download.bind,
    Download.FILE_METAOBJECT_TYPE.
  destruct (Download.shopGql P (Download.MetaobjectByHandleQuery fileId "uploaded_file") h)
    as [r1 h1] eqn:E1.
  cbn [fst snd].
  assert (Hrec : match r1 with
                 | Download.Returned j =>
                     match Download.data j with
                     | Some d => Download.metaobjectByHandle d
                     | None => None
                     end
                 | Download.Thrown _ => None
                 end = handle_record r1) by reflexivity.
  rewrite Hrec. destruct (handle_record r1) as [r|]; [reflexivity|].
  destruct (Download.shopGql P (Download.MetaobjectsQuery "uploaded_file" 100) h1)
    as [r2 h2] eqn:E2.
  cbn [fst snd]. destruct r2 as [j|m]; [|reflexivity].
  unfold Download.ret, list_nodes. reflexivity.
Qed.

Lemma fileInfo_of_record_url (r : Download.Metaobject) (u : string) :
  Download.getField r "file_url" = Some u ->
  String.prefix "http://" u = true \/ String.prefix "https://" u = true ->
  exists n, Download.fileInfo_of_record (Some r) = Some (Download.UrlInfo u n).
Proof.
  intros Hu Hpre. unfold Download.fileInfo_of_record. rewrite Hu.
  unfold Js.startsWith.
  destruct u as [|c u]; [destruct Hpre; discriminate|].
  cbn [Js.truthy Js.or_default andb].
  destruct Hpre as [-> | ->]; rewrite ?orb_true_r; cbn [orb]; eauto.
Qed.

Lemma fileInfo_of_record_no_url (r : Download.Metaobject) :
  (forall u, Download.getField r "file_url" = Some u ->
             String.prefix "http://" u = false /\ String.prefix "https://" u = false) ->
  Download.fileInfo_of_record (Some r)
  = if Js.truthy (Download.getField r "file_data")
    then Some (Download.Base64Info
                 (Js.or_default (Download.getField r "file_data") EmptyString)
                 (Js.or_default (Download.getField r "file_name") "download.bin"))
    else None.
Proof.
  intros Hno. unfold Download.fileInfo_of_record, Js.startsWith.
  destruct (Download.getField r "file_url") as [[|c u]|]; cbn [Js.truthy andb];
    try reflexivity.
  destruct (Hno _ eq_refl) as [H1 H2].
  cbn [Js.or_default]. now rewrite H1, H2.
Qed.

(** C3: an indirect reference is resolved by the exact-handle query first;
    only when that call throws or holds no record, the list query for the
    first 100 records follows, and the record is the first one whose
    [file_id] field is the identifier.  A record whose URL field starts with
    [http://] or [https://] is downloaded like a direct URL; otherwise a
    record with an inline payload yields the decoded payload; a record with
    neither, and no record at all, fail the entry.  The fields of a record
    are read off its list of fields: the first field with the key counts. *)
Theorem getFileFromMetaobject_resolution (P : Download.Platform)
    (fileName fileId : string) (h : list Download.Event) :
  let handleQuery := Download.MetaobjectByHandleQuery fileId "uploaded_file" in
  let listQuery := Download.MetaobjectsQuery "uploaded_file" 100 in
  let r1 := fst (Download.shopGql P handleQuery h) in
  let h1 := snd (Download.shopGql P handleQuery h) in
  let r2 := fst (Download.shopGql P listQuery h1) in
  let h2 := snd (Download.shopGql P listQuery h1) in
  let record :=
    match handle_record r1 with
    | Some r => Some r
    | None => List.find (Download.has_file_id fileId) (list_nodes r2)
    end in
  let h' := match handle_record r1 with Some _ => h1 | None => h2 end in
  let entry := Download.MetaobjectFile fileName fileId in
  h' = (h ++ gql_events P handleQuery
          ++ match handle_record r1 with
             | Some _ => []
             | None => gql_events P listQuery
             end)%list
  /\ (forall node,
        Download.has_file_id fileId node = true
        <-> exists f,
              List.find (fun x => String.eqb (Download.key x) "file_id")
                (Download.fields node) = Some f
              /\ Download.value f = Some fileId)
  /\ (forall r u,
        record = Some r ->
        field_value r "file_url" = Some u ->
        String.prefix "http://" u = true \/ String.prefix "https://" u = true ->
        Download.materialize P entry h = Download.downloadFileFromShopify P u h')
  /\ (forall r d,
        record = Some r ->
        (forall u, field_value r "file_url" = Some u ->
                   String.prefix "http://" u = false
                   /\ String.prefix "https://" u = false) ->
        field_value r "file_data" = Some d -> d <> EmptyString ->
        Download.materialize P entry h
        = (Download.Returned (Download.Buffer_from_base64 P (payload d)), h'))
  /\ (forall r,
        record = Some r ->
        (forall u, field_value r "file_url" = Some u ->
                   String.prefix "http://" u = false
                   /\ String.prefix "https://" u = false) ->
        (forall d, field_value r "file_data" = Some d -> d = EmptyString) ->
        Download.materialize P entry h
        = (Download.Thrown "从Metaobject获取文件失败", h'))
  /\ (record = None ->
      Download.materialize P entry h
      = (Download.Thrown "从Metaobject获取文件失败", h')).
Proof.
  cbv zeta.
  pose proof (getFileFromMetaobject_record P fileId h) as Hget. cbv zeta in Hget.
  pose proof (shopGql_events P (Download.MetaobjectByHandleQuery fileId "uploaded_file") h)
    as Hev1.
  pose proof (shopGql_events P (Download.MetaobjectsQuery "uploaded_file" 100)
                (snd (Download.shopGql P
                        (Download.MetaobjectByHandleQuery fileId "uploaded_file") h)))
    as Hev2.
  set (r1 := fst (Download.shopGql P _ h)) in *.
  set (h1 := snd (Download.shopGql P _ h)) in *.
  set (r2 := fst (Download.shopGql P _ h1)) in *.
  set (h2 := snd (Download.shopGql P _ h1)) in *.
  assert (Hmat : forall record h',
            Download.getFileFromMetaobject P fileId h
            = (Download.fileInfo_of_record record, h') ->
            Download.materialize P (Download.MetaobjectFile fileName fileId) h
            = match Download.fileInfo_of_record record with
              | None => (Download.Thrown "从Metaobject获取文件失败", h')
              | Some (Download.UrlInfo url _) => Download.downloadFileFromShopify P url h'
              | Some (Download.Base64Info data _) =>
                  (Download.Returned (Download.Buffer_from_base64 P (payload data)), h')
              end).
  { intros record h' Hrec. unfold Download.materialize, Download.bind.
    rewrite Hrec. destruct (Download.fileInfo_of_record record) as [[url n|data n]|];
      reflexivity. }
  set (record := match handle_record r1 with
                 | Some r => Some r
                 | None => List.find (Download.has_file_id fileId) (list_nodes r2)
                 end).
  set (h' := match handle_record r1 with Some _ => h1 | None => h2 end).
  assert (Hget' : Download.getFileFromMetaobject P fileId h
                  = (Download.fileInfo_of_record record, h')).
  { rewrite Hget. subst record h'. now destruct (handle_record r1). }
  specialize (Hmat record h' Hget').
  split; [|split; [|split; [|split; [|split]]]].
  - subst h'. destruct (handle_record r1).
    + now rewrite Hev1, app_nil_r.
    + now rewrite Hev2, Hev1, <- app_assoc.
  - intros node. apply has_file_id_spec.
  - intros r u Hr Hu Hpre. rewrite <- getField_field_value in Hu.
    rewrite Hmat, Hr.
    destruct (fileInfo_of_record_url r u Hu Hpre) as [n ->]. reflexivity.
  - intros r d Hr Hno Hd Hne.
    rewrite <- getField_field_value in Hd.
    assert (Hno' : forall u, Download.getField r "file_url" = Some u ->
                             String.prefix "http://" u = false
                             /\ String.prefix "https://" u = false)
      by (intros u Hu; apply Hno; now rewrite <- getField_field_value).
    rewrite Hmat, Hr, (fileInfo_of_record_no_url r Hno'), Hd.
    destruct d as [|c d]; [congruence | reflexivity].
  - intros r Hr Hno Hnd.
    assert (Hno' : forall u, Download.getField r "file_url" = Some u ->
                             String.prefix "http://" u = false
                             /\ String.prefix "https://" u = false)
      by (intros u Hu; apply Hno; now rewrite <- getField_field_value).
    rewrite Hmat, Hr, (fileInfo_of_record_no_url r Hno').
    destruct (Download.getField r "file_data") as [[|c d]|] eqn:Hd; try reflexivity.
    rewrite getField_field_value in Hd. specialize (Hnd _ Hd). discriminate.
  - intros Hr. rewrite Hmat, Hr. reflexivity.
Qed.

(** ** The handler: method check and pre-flight *)

Lemma cors_headers (P : Download.Platform) (req : Request) (k : string) :
  is_Some (res_headers (cors P req) !! k) -> In k cors_header_names.
Proof.
  unfold cors, CorsConfig.setCorsHeaders, setHeader, fresh_response,
    cors_header_names. cbn [res_headers].
  intros Hk.
  repeat (apply lookup_insert_is_Some in Hk as [<- | [_ Hk]]; [simpl; tauto|]).
  rewrite lookup_empty in Hk. now destruct Hk.
Qed.

(** C8: a request that is neither GET nor OPTIONS is answered 405 with the
    body [{ error: 'Method not allowed' }] and nothing is asked of the
    store; an OPTIONS request is answered 204 without a body, with the
    headers of the CORS setup and no other. *)
Theorem handler_method_check (P : Download.Platform) (req : Request) :
  (method req <> "GET" -> method req <> "OPTIONS" ->
   run (Download.handler P req)
   = (json [("error", "Method not allowed")] (status 405 (cors P req)), [])
   /\ res_status (fst (run (Download.handler P req))) = 405
   /\ res_body (fst (run (Download.handler P req)))
      = JsonBody [("error", "Method not allowed")])
  /\ (method req = "OPTIONS" ->
      run (Download.handler P req) = (end_ (status 204 (cors P req)), [])
      /\ res_status (fst (run (Download.handler P req))) = 204
      /\ res_body (fst (run (Download.handler P req))) = NoBody
      /\ forall k, is_Some (res_headers (fst (run (Download.handler P req))) !! k) ->
                   In k cors_header_names).
Proof.
  unfold run, Download.handler. fold (cors P req). split.
  - intros Hget Hopt.
    apply String.eqb_neq in Hget, Hopt. rewrite Hget, Hopt. cbn [negb].
    unfold Download.ret. repeat split.
  - intros Hopt. apply String.eqb_eq in Hopt. rewrite Hopt.
    unfold Download.ret. cbn [fst]. repeat split.
    intros k. apply cors_headers.
Qed.

(** ** The events of the download loop *)

Lemma continues_refl (h : list Download.Event) : continues h h.
Proof. exists []. split; [now rewrite app_nil_r | constructor]. Qed.

Lemma continues_trans (h1 h2 h3 : list Download.Event) :
  continues h1 h2 -> continues h2 h3 -> continues h1 h3.
Proof.
  intros (e1 & -> & H1) (e2 & -> & H2). exists (e1 ++ e2)%list.
  split; [now rewrite app_assoc | now apply Forall_app].
Qed.

Lemma continues_snoc (h : list Download.Event) (e : Download.Event) :
  is_request e -> continues h (h ++ [e]).
Proof. intros He. exists [e]. split; [reflexivity | now repeat constructor]. Qed.

Lemma shopGql_continues (P : Download.Platform) (q : Download.GqlQuery)
    (h : list Download.Event) :
  continues h (snd (Download.shopGql P q h)).
Proof.
  rewrite shopGql_events. exists (gql_events P q). split; [reflexivity|].
  unfold gql_events. destruct (_ && _); repeat constructor.
Qed.

Lemma downloadFileFromShopify_continues (P : Download.Platform) (url : string)
    (h : list Download.Event) :
  continues h (snd (Download.downloadFileFromShopify P url h)).
Proof. unfold Download.downloadFileFromShopify. cbn [snd]. now apply continues_snoc. Qed.

Lemma getFileFromMetaobject_continues (P : Download.Platform) (fileId : string)
    (h : list Download.Event) :
  continues h (snd (Download.getFileFromMetaobject P fileId h)).
Proof.
  pose proof (getFileFromMetaobject_record P fileId h) as Hget. cbv zeta in Hget.
  rewrite Hget. destruct (handle_record _); cbn [snd].
  - apply shopGql_continues.
  - eapply continues_trans; apply shopGql_continues.
Qed.

Lemma materialize_continues (P : Download.Platform) (file : Download.FileEntry)
    (h : list Download.Event) :
  continues h (snd (Download.materialize P file h)).
Proof.
  destruct file as [n url | n fileId]; cbn [Download.materialize].
  - apply downloadFileFromShopify_continues.
  - unfold Download.bind.
    pose proof (getFileFromMetaobject_continues P fileId h) as Hc.
    destruct (Download.getFileFromMetaobject P fileId h) as [[[url m|data m]|] h'];
      cbn [snd] in *; try exact Hc.
    eapply continues_trans; [exact Hc | apply downloadFileFromShopify_continues].
Qed.

Lemma packFile_continues (P : Download.Platform) (st : Download.Pack)
    (file : Download.FileEntry) (h : list Download.Event) :
  continues h (snd (Download.packFile P st file h)).
Proof.
  unfold Download.packFile, Download.bind.
  pose proof (materialize_continues P file h) as Hc.
  destruct (Download.materialize P file h) as [[buf|msg] h']; exact Hc.
Qed.

Lemma packFiles_continues (P : Download.Platform) (files : list Download.FileEntry)
    (st : Download.Pack) (h : list Download.Event) :
  continues h (snd (Download.packFiles P files st h)).
Proof.
  revert st h. induction files as [|file files IH]; intros st h; simpl.
  - apply continues_refl.
  - unfold Download.bind.
    pose proof (packFile_continues P st file h) as Hc.
    destruct (Download.packFile P st file h) as [st' h']. cbn [snd] in Hc.
    eapply continues_trans; [exact Hc | apply IH].
Qed.

Lemma continues_not_In (h h' : list Download.Event) (e : Download.Event) :
  ~ is_request e -> continues h h' -> ~ In e h -> ~ In e h'.
Proof.
  intros He (evs & -> & Hreq) Hh Hin. apply in_app_or in Hin as [Hin | Hin].
  - contradiction.
  - rewrite Forall_forall in Hreq. apply He, Hreq. now apply list_elem_of_In.
Qed.

(** ** The counters of the download loop *)

Lemma packFile_counts (P : Download.Platform) (st : Download.Pack)
    (file : Download.FileEntry) (h : list Download.Event) :
  let st' := fst (Download.packFile P st file h) in
  Download.successCount st' + Download.failCount st'
  = S (Download.successCount st + Download.failCount st).
Proof.
  unfold Download.packFile, Download.bind.
  destruct (Download.materialize P file h) as [[buf|msg] h']; simpl; lia.
Qed.

Lemma packFiles_counts (P : Download.Platform) (files : list Download.FileEntry)
    (st : Download.Pack) (h : list Download.Event) :
  let st' := fst (Download.packFiles P files st h) in
  Download.successCount st' + Download.failCount st'
  = Download.successCount st + Download.failCount st + length files.
Proof.
  revert st h. induction files as [|file files IH]; intros st h; simpl.
  - lia.
  - unfold Download.bind.
    pose proof (packFile_counts P st file h) as Hc.
    destruct (Download.packFile P st file h) as [st' h']. cbn [fst] in Hc.
    specialize (IH st' h'). simpl in IH. lia.
Qed.

(** ** The handler: order lookup and its failures *)

Lemma handler_get (P : Download.Platform) (req : Request) (id : string)
    (h : list Download.Event) :
  method req = "GET" -> query_draftOrderId req = Some id -> id <> EmptyString ->
  Download.handler P req h = Download.downloadOrderFiles P (cors P req) id h.
Proof.
  intros Hm Hq Hid. unfold Download.handler. fold (cors P req).
  rewrite Hm, Hq. destruct id as [|c id]; [congruence | reflexivity].
Qed.

Lemma downloadOrderFiles_answer (P : Download.Platform) (res : Response) (id : string)
    (j : Download.GqlJson) (h h1 : list Download.Event) :
  Download.shopGql P (Download.DraftOrderQuery id) h = (Download.Returned j, h1) ->
  no_errors j ->
  Download.downloadOrderFiles P res id h
  = match order_of j with
    | None => (json [("error", "订单未找到")] (status 404 res), h1)
    | Some order =>
        if (length (Download.extractFiles (Download.lineItems order)) =? 0)%nat
        then (json [("error", "未找到可下载的文件");
                    ("message", "订单中没有找到有效的文件链接")]
                (status 404 res), h1)
        else Download.packAndSend P res order
               (Download.extractFiles (Download.lineItems order)) h1
    end.
Proof.
  intros Hgql Herr. unfold Download.downloadOrderFiles, Download.bind.
  rewrite Hgql. fold (order_of j).
  destruct Herr as [-> | ->]; destruct (order_of j) as [order|]; try reflexivity;
    destruct (length _ =? 0)%nat; reflexivity.
Qed.

Lemma order_not_found (P : Download.Platform) (req : Request) (id : string)
    (j : Download.GqlJson) (h1 : list Download.Event) :
  method req = "GET" -> query_draftOrderId req = Some id -> id <> EmptyString ->
  Download.shopGql P (Download.DraftOrderQuery id) [] = (Download.Returned j, h1) ->
  no_errors j -> order_of j = None ->
  run (Download.handler P req)
  = (json [("error", "订单未找到")] (status 404 (cors P req)), h1).
Proof.
  intros Hm Hq Hid Hgql Herr Ho. unfold run.
  rewrite (handler_get P req id [] Hm Hq Hid).
  rewrite (downloadOrderFiles_answer P _ id j [] h1 Hgql Herr). now rewrite Ho.
Qed.

(** C5: an order that is found and has no processable file entry is
    answered 404 with the no-files error, which is not the answer to an
    order that is not found; the store was asked for the order and nothing
    else happened: no archive was constructed. *)
Theorem no_files_found (P : Download.Platform) (req : Request) (id : string)
    (j : Download.GqlJson) (h1 : list Download.Event) (order : Download.DraftOrder) :
  method req = "GET" -> query_draftOrderId req = Some id -> id <> EmptyString ->
  Download.shopGql P (Download.DraftOrderQuery id) [] = (Download.Returned j, h1) ->
  no_errors j ->
  order_of j = Some order ->
  Download.extractFiles (Download.lineItems order) = [] ->
  run (Download.handler P req)
  = (json [("error", "未找到可下载的文件");
           ("message", "订单中没有找到有效的文件链接")]
       (status 404 (cors P req)),
     gql_events P (Download.DraftOrderQuery id))
  /\ res_status (fst (run (Download.handler P req))) = 404
  /\ res_body (fst (run (Download.handler P req)))
     <> JsonBody [("error", "订单未找到")]
  /\ ~ In Download.EvZipNew (snd (run (Download.handler P req)))
  /\ ~ In Download.EvZipGenerate (snd (run (Download.handler P req))).
Proof.
  intros Hm Hq Hid Hgql Herr Ho Hfiles.
  assert (Hh1 : h1 = gql_events P (Download.DraftOrderQuery id)).
  { pose proof (shopGql_events P (Download.DraftOrderQuery id) []) as Hev.
    now rewrite Hgql in Hev. }
  assert (Hnozip : forall e, ~ is_request e -> ~ In e h1).
  { intros e He. pose proof (shopGql_continues P (Download.DraftOrderQuery id) []) as Hc.
    rewrite Hgql in Hc. eapply continues_not_In; [exact He | exact Hc | intros []]. }
  unfold run. rewrite (handler_get P req id [] Hm Hq Hid).
  rewrite (downloadOrderFiles_answer P _ id j [] h1 Hgql Herr).
  rewrite Ho, Hfiles. cbn [length Nat.eqb fst snd]. rewrite <- Hh1.
  repeat split; try (apply Hnozip; intros []). discriminate.
Qed.

(** The sample order none of whose line items carries a file. *)
Lemma no_files_found_sample :
  run (Download.handler sample_store (request_for "gid://shopify/DraftOrder/1002"))
  = (json [("error", "未找到可下载的文件");
           ("message", "订单中没有找到有效的文件链接")]
       (status 404 (cors sample_store (request_for "gid://shopify/DraftOrder/1002"))),
     gql_events sample_store (Download.DraftOrderQuery "gid://shopify/DraftOrder/1002"))
  /\ res_status (fst (run (Download.handler sample_store
                             (request_for "gid://shopify/DraftOrder/1002")))) = 404
  /\ res_body (fst (run (Download.handler sample_store
                           (request_for "gid://shopify/DraftOrder/1002"))))
     <> JsonBody [("error", "订单未找到")]
  /\ ~ In Download.EvZipNew
       (snd (run (Download.handler sample_store
                    (request_for "gid://shopify/DraftOrder/1002"))))
  /\ ~ In Download.EvZipGenerate
       (snd (run (Download.handler sample_store
                    (request_for "gid://shopify/DraftOrder/1002")))).
Proof.
  apply (no_files_found sample_store (request_for "gid://shopify/DraftOrder/1002")
           "gid://shopify/DraftOrder/1002"
           (answer_json (Some order_without_files) [])
           (gql_events sample_store
              (Download.DraftOrderQuery "gid://shopify/DraftOrder/1002"))
           order_without_files).
  - reflexivity.
  - reflexivity.
  - discriminate.
  - reflexivity.
  - left. reflexivity.
  - reflexivity.
  - reflexivity.
Defined.

(** ** The handler: packaging *)

Lemma packAndSend_eq (P : Download.Platform) (res : Response)
    (order : Download.DraftOrder) (files : list Download.FileEntry)
    (h : list Download.Event) :
  Download.JSZip P = true ->
  Download.packAndSend P res order files h
  = let st := fst (Download.packFiles P files Download.empty_pack
                     (h ++ [Download.EvZipNew])%list) in
    let h2 := snd (Download.packFiles P files Download.empty_pack
                     (h ++ [Download.EvZipNew])%list) in
    if (Download.successCount st =? 0)%nat then
      (json [("error", "所有文件下载失败");
             ("details", "成功: " +:+ pretty (Download.successCount st)
                         +:+ ", 失败: " +:+ pretty (Download.failCount st))]
         (status 500 res), h2)
    else
      let zipBuffer := Download.generateAsync P (Download.zip st) in
      let h3 := (h2 ++ [Download.EvZipGenerate])%list in
      (send zipBuffer
         (status 200
            (setHeader "Content-Length" (pretty (length zipBuffer))
               (setHeader "Content-Disposition"
                  (Download.contentDisposition
                     (Download.zipFileName order (Download.Date_now P h3)))
                  (setHeader "Content-Type" "application/zip" res)))),
       h3).
Proof.
  intros Hzip. unfold Download.packAndSend, Download.bind, Download.emit.
  rewrite Hzip. cbn [negb].
  destruct (Download.packFiles P files Download.empty_pack (h ++ [Download.EvZipNew])%list)
    as [st h2].
  cbn [fst snd]. destruct (Download.successCount st =? 0)%nat; reflexivity.
Qed.

Lemma packFiles_successCount (P : Download.Platform)
    (files : list Download.FileEntry) (st : Download.Pack) (h : list Download.Event) :
  Download.successCount (fst (Download.packFiles P files st h))
  = Download.successCount st + length (List.filter is_returned (rounds P files h)).
Proof.
  revert st h. induction files as [|file files IH]; intros st h;
    [cbn; lia|].
  cbn [Download.packFiles rounds]. unfold Download.bind, Download.packFile at 1.
  unfold Download.bind.
  destruct (Download.materialize P file h) as [[buf|msg] h'];
    unfold Download.ret; rewrite IH; cbn; lia.
Qed.

Lemma all_failed_successCount (P : Download.Platform)
    (files : list Download.FileEntry) (st : Download.Pack) (h : list Download.Event) :
  Forall failed (rounds P files h) ->
  Download.successCount (fst (Download.packFiles P files st h))
  = Download.successCount st.
Proof.
  intros Hall. rewrite packFiles_successCount.
  assert (Hnone : List.filter is_returned (rounds P files h) = []).
  { induction (rounds P files h) as [|[buf|msg] rs IH]; [reflexivity | |].
    - apply Forall_cons in Hall as [[] _].
    - apply Forall_cons in Hall as [_ Hall]. cbn. now apply IH. }
  rewrite Hnone. cbn. lia.
Qed.

(** C4: when the order has files to download and every download fails, the
    answer is 500 with the all-downloads-failed error and the two counters;
    the archive is never generated and no bytes are sent. *)
Theorem all_downloads_failed (P : Download.Platform) (req : Request) (id : string)
    (j : Download.GqlJson) (h1 : list Download.Event) (order : Download.DraftOrder) :
  let files := Download.extractFiles (Download.lineItems order) in
  method req = "GET" -> query_draftOrderId req = Some id -> id <> EmptyString ->
  Download.shopGql P (Download.DraftOrderQuery id) [] = (Download.Returned j, h1) ->
  no_errors j ->
  order_of j = Some order ->
  files <> [] ->
  Download.JSZip P = true ->
  Forall failed (rounds P files (h1 ++ [Download.EvZipNew])%list) ->
  run (Download.handler P req)
  = (json [("error", "所有文件下载失败");
           ("details",
            "成功: " +:+ pretty 0 +:+ ", 失败: " +:+ pretty (length files))]
       (status 500 (cors P req)),
     snd (Download.packFiles P files Download.empty_pack
            (h1 ++ [Download.EvZipNew])%list))
  /\ res_status (fst (run (Download.handler P req))) = 500
  /\ (forall bytes, res_body (fst (run (Download.handler P req))) <> BinaryBody bytes)
  /\ ~ In Download.EvZipGenerate (snd (run (Download.handler P req))).
Proof.
  cbv zeta. intros Hm Hq Hid Hgql Herr Ho Hfiles Hzip Hall.
  set (files := Download.extractFiles (Download.lineItems order)) in *.
  destruct (Download.packFiles P files Download.empty_pack
              (h1 ++ [Download.EvZipNew])%list) as [st h2] eqn:Hpack.
  assert (Hzero : Download.successCount st = 0).
  { pose proof (all_failed_successCount P files Download.empty_pack _ Hall) as Hs.
    now rewrite Hpack in Hs. }
  assert (Hfail : Download.failCount st = length files).
  { pose proof (packFiles_counts P files Download.empty_pack
                  (h1 ++ [Download.EvZipNew])%list) as Hc.
    rewrite Hpack in Hc. cbn [fst] in Hc. simpl in Hc. lia. }
  assert (Hnogen : ~ In Download.EvZipGenerate h2).
  { pose proof (packFiles_continues P files Download.empty_pack
                  (h1 ++ [Download.EvZipNew])%list) as Hc.
    rewrite Hpack in Hc. cbn [snd] in Hc.
    eapply continues_not_In; [intros [] | exact Hc |].
    intros Hin. apply in_app_or in Hin as [Hin | [Hin | []]]; [|discriminate].
    pose proof (shopGql_continues P (Download.DraftOrderQuery id) []) as Hc1.
    rewrite Hgql in Hc1. cbn [snd] in Hc1.
    revert Hin. eapply continues_not_In; [intros [] | exact Hc1 | intros []]. }
  unfold run. rewrite (handler_get P req id [] Hm Hq Hid).
  rewrite (downloadOrderFiles_answer P _ id j [] h1 Hgql Herr). rewrite Ho.
  fold files. destruct files as [|file files'] eqn:Efiles; [congruence|].
  cbn [length Nat.eqb]. rewrite (packAndSend_eq P _ order _ h1 Hzip).
  cbv zeta. rewrite Hpack. cbn [fst snd]. rewrite Hzero, Hfail. cbn [Nat.eqb fst snd].
  repeat split; try assumption. intros bytes. discriminate.
Qed.

(** The sample order whose two downloads fail. *)
Lemma all_downloads_failed_sample :
  run (Download.handler sample_store (request_for "gid://shopify/DraftOrder/1003"))
  = (json [("error", "所有文件下载失败");
           ("details",
            "成功: " +:+ pretty 0 +:+ ", 失败: "
            +:+ pretty (length (Download.extractFiles
                                  (Download.lineItems order_all_failing))))]
       (status 500 (cors sample_store (request_for "gid://shopify/DraftOrder/1003"))),
     snd (Download.packFiles sample_store
            (Download.extractFiles (Download.lineItems order_all_failing))
            Download.empty_pack
            (gql_events sample_store
               (Download.DraftOrderQuery "gid://shopify/DraftOrder/1003")
             ++ [Download.EvZipNew])%list))
  /\ res_status (fst (run (Download.handler sample_store
                             (request_for "gid://shopify/DraftOrder/1003")))) = 500
  /\ (forall bytes,
        res_body (fst (run (Download.handler sample_store
                              (request_for "gid://shopify/DraftOrder/1003"))))
        <> BinaryBody bytes)
  /\ ~ In Download.EvZipGenerate
       (snd (run (Download.handler sample_store
                    (request_for "gid://shopify/DraftOrder/1003")))).
Proof.
  apply (all_downloads_failed sample_store
           (request_for "gid://shopify/DraftOrder/1003")
           "gid://shopify/DraftOrder/1003"
           (answer_json (Some order_all_failing) [])
           (gql_events sample_store
              (Download.DraftOrderQuery "gid://shopify/DraftOrder/1003"))
           order_all_failing).
  - reflexivity.
  - reflexivity.
  - discriminate.
  - reflexivity.
  - left. reflexivity.
  - reflexivity.
  - discriminate.
  - reflexivity.
  - vm_compute. repeat constructor.
Defined.

(** ** The name of the download *)

Lemma append_cons (c : ascii) (a b : string) :
  String c a +:+ b = String c (a +:+ b).
Proof. reflexivity. Qed.

Lemma append_empty (b : string) : EmptyString +:+ b = b.
Proof. reflexivity. Qed.












(** When a download succeeds the archive is generated and sent with
    status 200, whatever happened to the other files. *)
Lemma some_download_succeeded (P : Download.Platform) (req : Request) (id : string)
    (j : Download.GqlJson) (h1 : list Download.Event) (order : Download.DraftOrder) :
  let files := Download.extractFiles (Download.lineItems order) in
  let st := fst (Download.packFiles P files Download.empty_pack
                   (h1 ++ [Download.EvZipNew])%list) in
  method req = "GET" -> query_draftOrderId req = Some id -> id <> EmptyString ->
  Download.shopGql P (Download.DraftOrderQuery id) [] = (Download.Returned j, h1) ->
  no_errors j ->
  order_of j = Some order ->
  Download.JSZip P = true ->
  Exists (fun outcome => is_returned outcome = true)
    (rounds P files (h1 ++ [Download.EvZipNew])%list) ->
  res_status (fst (run (Download.handler P req))) = 200
  /\ res_body (fst (run (Download.handler P req)))
     = BinaryBody (Download.generateAsync P (Download.zip st))
  /\ Download.successCount st + Download.failCount st = length files.
Proof.
  cbv zeta. intros Hm Hq Hid Hgql Herr Ho Hzip Hsome.
  set (files := Download.extractFiles (Download.lineItems order)) in *.
  pose proof (packFiles_successCount P files Download.empty_pack
                (h1 ++ [Download.EvZipNew])%list) as Hs.
  pose proof (packFiles_counts P files Download.empty_pack
                (h1 ++ [Download.EvZipNew])%list) as Hc.
  cbv zeta in Hc. cbn [Download.empty_pack Download.successCount Download.failCount] in Hs, Hc.
  assert (Hpos : 0 < length (List.filter is_returned
                               (rounds P files (h1 ++ [Download.EvZipNew])%list))).
  { apply Exists_exists in Hsome as (outcome & Hin & Hret).
    apply list_elem_of_In in Hin.
    assert (Hin' : In outcome (List.filter is_returned
                                 (rounds P files (h1 ++ [Download.EvZipNew])%list)))
      by (apply filter_In; split; assumption).
    destruct (List.filter _ _); [destruct Hin' | cbn; lia]. }
  assert (Hfiles : files <> []).
  { intros Hnil. rewrite Hnil in Hpos. cbn in Hpos. lia. }
  unfold run. rewrite (handler_get P req id [] Hm Hq Hid).
  rewrite (downloadOrderFiles_answer P _ id j [] h1 Hgql Herr). rewrite Ho.
  fold files. destruct files as [|file files'] eqn:Efiles; [congruence|].
  cbn [length Nat.eqb]. rewrite (packAndSend_eq P _ order _ h1 Hzip).
  cbv zeta.
  destruct (Download.successCount _ =? 0)%nat eqn:Hs0.
  - apply Nat.eqb_eq in Hs0. lia.
  - cbn [fst res_status res_body send status]. repeat split. cbn [length] in Hc. lia.
Qed.

(** ** The archive *)

(** A name that no round writes keeps its entry. *)
Lemma packFiles_untouched (P : Download.Platform) (files : list Download.FileEntry)
    (st : Download.Pack) (h : list Download.Event) (n : string) :
  ~ In n (written P files h) ->
  Download.zip (fst (Download.packFiles P files st h)) !! n = Download.zip st !! n.
Proof.
  revert st h. induction files as [|file files IH]; intros st h Hn; [reflexivity|].
  cbn [Download.packFiles written] in *. unfold Download.bind, Download.packFile at 1.
  unfold Download.bind.
  destruct (Download.materialize P file h) as [[buf|msg] h']; cbn [In] in Hn;
    unfold Download.ret; rewrite IH by tauto; cbn [Download.zip];
    apply lookup_insert_ne; tauto.
Qed.

(** When the names written are pairwise distinct and new to the archive,
    every round adds an entry: the archive grows by the number of files. *)
Lemma packFiles_size (P : Download.Platform) (files : list Download.FileEntry)
    (st : Download.Pack) (h : list Download.Event) :
  NoDup (written P files h) ->
  (forall n, In n (written P files h) -> Download.zip st !! n = None) ->
  size (Download.zip (fst (Download.packFiles P files st h)))
  = size (Download.zip st) + length files.
Proof.
  revert st h. induction files as [|file files IH]; intros st h Hnd Hnew;
    [cbn; lia|].
  cbn [Download.packFiles written] in *. unfold Download.bind, Download.packFile at 1.
  unfold Download.bind.
  destruct (Download.materialize P file h) as [[buf|msg] h'];
    apply NoDup_cons in Hnd as [Hhd Hnd]; unfold Download.ret;
    (rewrite IH;
     [ cbn [Download.zip length];
       rewrite map_size_insert_None by (apply Hnew; now left); lia
     | exact Hnd
     | intros n Hn; cbn [Download.zip]; rewrite lookup_insert_ne;
       [ apply Hnew; now right
       | intros <-; apply Hhd; now apply list_elem_of_In ] ]).
Qed.

(** The entry of a file that was obtained, when no later round writes its
    name: the bytes obtained, under the display name. *)
Lemma packFiles_round_trip (P : Download.Platform) (file : Download.FileEntry)
    (rest : list Download.FileEntry) (st : Download.Pack)
    (h h' : list Download.Event) (buf : list Byte.byte) :
  Download.materialize P file h = (Download.Returned buf, h') ->
  ~ In (Download.fileName file) (written P rest h') ->
  Download.zip (fst (Download.packFiles P (file :: rest) st h))
  !! Download.fileName file = Some (Download.ZipBinary buf).
Proof.
  intros Hmat Hlater. cbn [Download.packFiles].
  unfold Download.bind, Download.packFile at 1. unfold Download.bind.
  rewrite Hmat. unfold Download.ret.
  rewrite packFiles_untouched by exact Hlater. cbn [Download.zip].
  apply lookup_insert_eq.
Qed.

(** *** Files of the same name *)

(** C1, on an order whose first two line items carry files of the same
    name and whose third download fails: two files are counted as obtained
    and one as failed, the answer is 200, and the archive sent holds two
    entries, one file and one error text; the file of the first line item
    is not in it. *)
Theorem duplicate_names_replace_an_entry :
  let req := request_for "gid://shopify/DraftOrder/1001" in
  let files := Download.extractFiles (Download.lineItems order_duplicate_names) in
  let st :=
    fst (Download.packFiles sample_store files Download.empty_pack
           (gql_events sample_store
              (Download.DraftOrderQuery "gid://shopify/DraftOrder/1001")
            ++ [Download.EvZipNew])%list) in
  files = [ Download.ShopifyUrlFile "part.stl" "https://cdn.example.com/a/part.stl";
            Download.ShopifyUrlFile "part.stl" "https://cdn.example.com/b/part.stl";
            Download.ShopifyUrlFile "cover.stl" "https://cdn.example.com/gone/cover.stl" ]
  /\ Download.successCount st = 2
  /\ Download.failCount st = 1
  /\ res_status (fst (run (Download.handler sample_store req))) = 200
  /\ res_body (fst (run (Download.handler sample_store req)))
     = BinaryBody (Download.generateAsync sample_store (Download.zip st))
  /\ Download.zip st
     = <["part.stl" := Download.ZipBinary [Byte.x03]]>
         (<["错误_cover.stl.txt" :=
              Download.ZipText "文件下载失败: 下载失败: 404 Not Found"]> ∅)
  /\ size (Download.zip st) = 2.
Proof. cbv zeta. repeat split; vm_compute; reflexivity. Qed.

(** C6, on the same order: the download of the first line item returns
    the bytes 01 02, and the archive holds the bytes 03 of the second line
    item under the display name [part.stl]; no entry holds the bytes of
    the first. *)
Theorem duplicate_names_break_round_trip :
  let h1 :=
    (gql_events sample_store
       (Download.DraftOrderQuery "gid://shopify/DraftOrder/1001")
     ++ [Download.EvZipNew])%list in
  let files := Download.extractFiles (Download.lineItems order_duplicate_names) in
  let st := fst (Download.packFiles sample_store files Download.empty_pack h1) in
  nth_error files 0
  = Some (Download.ShopifyUrlFile "part.stl" "https://cdn.example.com/a/part.stl")
  /\ fst (Download.downloadFileFromShopify sample_store
            "https://cdn.example.com/a/part.stl" h1)
     = Download.Returned [Byte.x01; Byte.x02]
  /\ res_status
       (fst (run (Download.handler sample_store
                    (request_for "gid://shopify/DraftOrder/1001")))) = 200
  /\ Download.zip st !! "part.stl" = Some (Download.ZipBinary [Byte.x03])
  /\ (forall n, Download.zip st !! n <> Some (Download.ZipBinary [Byte.x01; Byte.x02])).
Proof.
  cbv zeta. repeat split; try (vm_compute; reflexivity).
  assert (Hzip :
    Download.zip
      (fst (Download.packFiles sample_store
              (Download.extractFiles (Download.lineItems order_duplicate_names))
              Download.empty_pack
              (gql_events sample_store
                 (Download.DraftOrderQuery "gid://shopify/DraftOrder/1001")
               ++ [Download.EvZipNew])%list))
    = <["part.stl" := Download.ZipBinary [Byte.x03]]>
        (<["错误_cover.stl.txt" :=
             Download.ZipText "文件下载失败: 下载失败: 404 Not Found"]> ∅))
    by (vm_compute; reflexivity).
  intros n. rewrite Hzip. intros Hn.
  apply lookup_insert_Some in Hn as [[_ [=]] | [_ Hn]].
  apply lookup_insert_Some in Hn as [[_ [=]] | [_ Hn]].
  rewrite lookup_empty in Hn. discriminate.
Qed.

(** ** Sample runs *)

Example method_not_allowed_sample :
  run (Download.handler sample_store
         {| method := "POST"; header_origin := None; header_referer := None;
            query_draftOrderId := Some "gid://shopify/DraftOrder/1001" |})
  = ({| res_status := 405;
        res_headers :=
          res_headers
            (cors sample_store
               {| method := "POST"; header_origin := None; header_referer := None;
                  query_draftOrderId := Some "gid://shopify/DraftOrder/1001" |});
        res_body := JsonBody [("error", "Method not allowed")] |}, []).
Proof. reflexivity. Qed.

Example preflight_sample :
  let res :=
    fst (run (Download.handler sample_store
                {| method := "OPTIONS";
                   header_origin := Some "http://localhost:3000";
                   header_referer := None;
                   query_draftOrderId := None |})) in
  res_status res = 204
  /\ res_body res = NoBody
  /\ size (res_headers res) = 6
  /\ allow_origin res = Some "http://localhost:3000".
Proof. cbv zeta. repeat split; vm_compute; reflexivity. Qed.

Example split_commas : Js.split "," "a,b,,c" = ["a"; "b"; EmptyString; "c"].
Proof. reflexivity. Qed.

Example payload_of_data_url :
  payload "data:application/octet-stream;base64,QUJD" = "QUJD"
  /\ payload "QUJD" = "QUJD".
Proof. split; reflexivity. Qed.

Example encodeURIComponent_order_name :
  Download.encodeURIComponent "#D1001_files_1700000000000.zip"
  = "%23D1001_files_1700000000000.zip"
  /\ Download.encodeURIComponent "文件 1.zip" = "%E6%96%87%E4%BB%B6%201.zip".
Proof. split; reflexivity. Qed.

Example sourceKind_samples :
  sourceKind (uploaded "part.stl" "https://cdn.example.com/a/part.stl")
  = DirectUrl "https://cdn.example.com/a/part.stl"
  /\ sourceKind
       {| Download.title := Some "bracket.stl";
          Download.customAttributes :=
            Some [attribute "Shopify文件URL" "未上传"; attribute "文件ID" "file_42"] |}
     = IndirectReference "file_42"
  /\ sourceKind
       {| Download.title := Some "Sample";
          Download.customAttributes := Some [attribute "Shopify文件URL" "ftp://host/x"] |}
     = Missing.
Proof. repeat split; reflexivity. Qed.

Example sample_download_headers :
  let res :=
    fst (run (Download.handler sample_store
                (request_for "gid://shopify/DraftOrder/1001"))) in
  res_headers res !! "Content-Disposition"
  = Some ("attachment; filename=" +:+ Js.dquote
          +:+ "%23D1001_files_1700000000000.zip" +:+ Js.dquote)
  /\ res_headers res !! "Content-Type" = Some "application/zip"
  /\ res_headers res !! "Content-Length" = Some "48"
  /\ allow_origin res = Some "https://sain-pdc-test.myshopify.com".
Proof. cbv zeta. repeat split; vm_compute; reflexivity. Qed.

Example sample_download_events :
  snd (run (Download.handler sample_store
              (request_for "gid://shopify/DraftOrder/1001")))
  = [ Download.EvPost
        "https://sain-pdc-test.myshopify.com/admin/api/2024-01/graphql.json"
        (Download.DraftOrderQuery "gid://shopify/DraftOrder/1001");
      Download.EvZipNew;
      Download.EvGet "https://cdn.example.com/a/part.stl";
      Download.EvGet "https://cdn.example.com/b/part.stl";
      Download.EvGet "https://cdn.example.com/gone/cover.stl";
      Download.EvZipGenerate ].
Proof. vm_compute. reflexivity. Qed.

(** * Further properties of the handler *)

(** ** The shape of every answer *)

Lemma lookup_events_no_zip (P : Download.Platform) (q : Download.GqlQuery)
    (e : Download.Event) :
  ~ is_request e -> ~ In e (snd (Download.shopGql P q [])).
Proof.
  intros He. eapply continues_not_In;
    [exact He | apply shopGql_continues | intros []].
Qed.

Lemma pack_events_no_generate (P : Download.Platform)
    (files : list Download.FileEntry) (st : Download.Pack) (h1 : list Download.Event) :
  ~ In Download.EvZipGenerate h1 ->
  ~ In Download.EvZipGenerate
      (snd (Download.packFiles P files st (h1 ++ [Download.EvZipNew])%list)).
Proof.
  intros Hh1. eapply continues_not_In;
    [intros [] | apply packFiles_continues |].
  intros Hin. apply in_app_or in Hin as [Hin | [Hin | []]];
    [contradiction | discriminate].
Qed.

(** The three shapes an answer can have: a JSON error, the empty answer to
    a pre-flight request, or the archive with its three headers.  The
    archive is generated for the last shape only. *)
Lemma handler_outcome (P : Download.Platform) (req : Request) (res : Response)
    (evs : list Download.Event) :
  run (Download.handler P req) = (res, evs) ->
  (exists c fields,
     res = json fields (status c (cors P req))
     /\ In c [400; 404; 405; 500]
     /\ ~ In Download.EvZipGenerate evs)
  \/ (res = end_ (status 204 (cors P req)) /\ evs = [])
  \/ (exists buf cd,
        res = send buf
                (status 200
                   (setHeader "Content-Length" (pretty (length buf))
                      (setHeader "Content-Disposition" cd
                         (setHeader "Content-Type" "application/zip" (cors P req)))))
        /\ In Download.EvZipGenerate evs).
Proof.
  unfold run, Download.handler. fold (cors P req).
  destruct (String.eqb (method req) "OPTIONS").
  { intros [= <- <-]. right; left. split; reflexivity. }
  destruct (String.eqb (method req) "GET"); cbn [negb].
  2: { intros [= <- <-]. left. eexists 405, _.
       split; [reflexivity | split; [simpl; tauto | intros []]]. }
  destruct (query_draftOrderId req) as [[|c id]|];
    cbn [Js.truthy negb Js.or_default];
    try (intros [= <- <-]; left; eexists 400, _;
         split; [reflexivity | split; [simpl; tauto | intros []]]).
  unfold Download.downloadOrderFiles, Download.bind.
  pose proof (lookup_events_no_zip P (Download.DraftOrderQuery (String c id))
                Download.EvZipGenerate (fun H => H)) as Hnogen.
  destruct (Download.shopGql P (Download.DraftOrderQuery (String c id)) [])
    as [[j|msg] h1]; cbn [snd] in Hnogen.
  2: { intros [= <- <-]. left. eexists 500, _.
       split; [reflexivity | split; [simpl; tauto | exact Hnogen]]. }
  fold (order_of j).
  assert (Hrest :
    (match order_of j with
     | Some order =>
         if (length (Download.extractFiles (Download.lineItems order)) =? 0)%nat
         then Download.ret
                (json [("error", "未找到可下载的文件");
                       ("message", "订单中没有找到有效的文件链接")]
                   (status 404 (cors P req)))
         else Download.packAndSend P (cors P req) order
                (Download.extractFiles (Download.lineItems order))
     | None => Download.ret (json [("error", "订单未找到")] (status 404 (cors P req)))
     end) h1 = (res, evs) ->
    (exists c fields,
       res = json fields (status c (cors P req))
       /\ In c [400; 404; 405; 500]
       /\ ~ In Download.EvZipGenerate evs)
    \/ (res = end_ (status 204 (cors P req)) /\ evs = [])
    \/ (exists buf cd,
          res = send buf
                  (status 200
                     (setHeader "Content-Length" (pretty (length buf))
                        (setHeader "Content-Disposition" cd
                           (setHeader "Content-Type" "application/zip"
                              (cors P req)))))
          /\ In Download.EvZipGenerate evs)).
  { destruct (order_of j) as [order|].
    2: { intros [= <- <-]. left. eexists 404, _.
         split; [reflexivity | split; [simpl; tauto | exact Hnogen]]. }
    destruct (length _ =? 0)%nat.
    { intros [= <- <-]. left. eexists 404, _.
      split; [reflexivity | split; [simpl; tauto | exact Hnogen]]. }
    destruct (Download.JSZip P) eqn:Hzip.
    - rewrite (packAndSend_eq P _ order _ h1 Hzip). cbv zeta.
      destruct (Download.successCount _ =? 0)%nat.
      + intros [= <- <-]. left. eexists 500, _.
        split; [reflexivity | split; [simpl; tauto |]].
        apply pack_events_no_generate, Hnogen.
      + intros [= <- <-]. right; right. eexists _, _.
        split; [reflexivity |]. apply in_or_app. right. now left.
    - unfold Download.packAndSend. rewrite Hzip. cbn [negb].
      intros [= <- <-]. left. eexists 500, _.
      split; [reflexivity | split; [simpl; tauto | exact Hnogen]]. }
  destruct (Download.errors j) as [[|e es]|]; try exact Hrest.
  intros [= <- <-]. left. eexists 500, _.
  split; [reflexivity | split; [simpl; tauto | exact Hnogen]].
Qed.

Lemma cors_sets (P : Download.Platform) (req : Request) (k : string) :
  In k cors_header_names -> is_Some (res_headers (cors P req) !! k).
Proof.
  unfold cors, CorsConfig.setCorsHeaders, setHeader, cors_header_names.
  cbn [res_headers]. intros Hk.
  repeat (destruct Hk as [<- | Hk];
          [repeat (rewrite lookup_insert_ne by discriminate);
           rewrite lookup_insert_eq; eauto |]).
  destruct Hk.
Qed.

(** X1: whatever the outcome, the answer carries the six headers of the
    CORS setup with the values the setup gave them, and its status is one
    of 200, 204, 400, 404, 405 and 500. *)
Theorem handler_keeps_cors_headers (P : Download.Platform) (req : Request) :
  let res := fst (run (Download.handler P req)) in
  (forall k, In k cors_header_names ->
             is_Some (res_headers res !! k)
             /\ res_headers res !! k = res_headers (cors P req) !! k)
  /\ In (res_status res) [200; 204; 400; 404; 405; 500].
Proof.
  cbv zeta.
  destruct (run (Download.handler P req)) as [res evs] eqn:Hrun. cbn [fst].
  destruct (handler_outcome P req res evs Hrun)
    as [(c & fields & -> & Hc & _) | [[-> _] | (buf & cd & -> & _)]];
    cbn [res_headers res_status json status end_ send setHeader].
  - split; [intros k Hk; split; [now apply cors_sets | reflexivity]|].
    simpl in Hc. simpl. tauto.
  - split; [intros k Hk; split; [now apply cors_sets | reflexivity]|].
    simpl. tauto.
  - split; [|simpl; tauto].
    intros k Hk.
    assert (Hsame :
      <["Content-Length" := pretty (length buf)]>
        (<["Content-Disposition" := cd]>
           (<["Content-Type" := "application/zip"]> (res_headers (cors P req)))) !! k
      = res_headers (cors P req) !! k).
    { unfold cors_header_names in Hk.
      repeat (destruct Hk as [<- | Hk];
              [now repeat (rewrite lookup_insert_ne by discriminate) |]).
      destruct Hk. }
    rewrite Hsame. split; [now apply cors_sets | reflexivity].
Qed.

(** X2: the status is 200 exactly when the archive was generated, and
    exactly when the body is binary; such an answer is typed
    [application/zip] and its [Content-Length] is the length of the body. *)
Theorem archive_sent_iff_200 (P : Download.Platform) (req : Request) :
  let res := fst (run (Download.handler P req)) in
  let evs := snd (run (Download.handler P req)) in
  (res_status res = 200 <-> In Download.EvZipGenerate evs)
  /\ (res_status res = 200 <-> exists bytes, res_body res = BinaryBody bytes)
  /\ (forall bytes,
        res_body res = BinaryBody bytes ->
        res_headers res !! "Content-Type" = Some "application/zip"
        /\ res_headers res !! "Content-Length" = Some (pretty (length bytes))).
Proof.
  cbv zeta.
  destruct (run (Download.handler P req)) as [res evs] eqn:Hrun. cbn [fst snd].
  destruct (handler_outcome P req res evs Hrun)
    as [(c & fields & -> & Hc & Hgen) | [[-> ->] | (buf & cd & -> & Hgen)]];
    cbn [res_headers res_status res_body json status end_ send setHeader].
  - assert (Hc200 : c <> 200) by (simpl in Hc; intuition lia).
    split; [split; [intros H; contradiction | intros H; contradiction]|].
    split; [split; [intros H; contradiction | intros [bytes H]; discriminate]|].
    intros bytes H. discriminate.
  - split; [split; [discriminate | intros []]|].
    split; [split; [discriminate | intros [bytes H]; discriminate]|].
    intros bytes H. discriminate.
  - split; [split; [intros _; exact Hgen | reflexivity]|].
    split; [split; [intros _; eauto | reflexivity]|].
    intros bytes [= <-]. split.
    + rewrite lookup_insert_ne by discriminate.
      rewrite lookup_insert_ne by discriminate. apply lookup_insert_eq.
    + apply lookup_insert_eq.
Qed.

(** ** The requests of an invocation *)

Lemma prefix_app (a b s : string) :
  String.prefix (a +:+ b) s = true -> String.prefix a s = true.
Proof.
  revert s. induction a as [|c a IH]; intros s; [now destruct s|].
  rewrite append_cons. destruct s as [|d s]; cbn [String.prefix]; [discriminate|].
  destruct (ascii_dec c d); [apply IH | discriminate].
Qed.

Lemma prefix_http (u : string) :
  String.prefix "http://" u = true \/ String.prefix "https://" u = true ->
  String.prefix "http" u = true.
Proof.
  intros [H | H].
  - apply (prefix_app "http" "://"). exact H.
  - apply (prefix_app "http" "s://"). exact H.
Qed.

Lemma fileInfo_url_http (record : option Download.Metaobject) (u n : string) :
  Download.fileInfo_of_record record = Some (Download.UrlInfo u n) ->
  String.prefix "http" u = true.
Proof.
  unfold Download.fileInfo_of_record, Js.startsWith.
  destruct record as [r|]; [|discriminate].
  destruct (Js.truthy (Download.getField r "file_url")
            && (String.prefix "http://" _ || String.prefix "https://" _)) eqn:E.
  - intros [= <- _]. apply andb_prop in E as [_ E].
    apply prefix_http. apply orb_prop in E. exact E.
  - destruct (Js.truthy (Download.getField r "file_data")); discriminate.
Qed.

Lemma downloads_http_app (h evs : list Download.Event) :
  downloads_http h -> downloads_http evs -> downloads_http (h ++ evs).
Proof.
  intros Hh He url Hin. apply in_app_or in Hin as [Hin | Hin]; auto.
Qed.

Lemma downloads_http_gql (P : Download.Platform) (q : Download.GqlQuery) :
  downloads_http (gql_events P q).
Proof.
  unfold gql_events. intros url. destruct (_ && _); simpl; intuition discriminate.
Qed.

Lemma shopGql_downloads_http (P : Download.Platform) (q : Download.GqlQuery)
    (h : list Download.Event) :
  downloads_http h -> downloads_http (snd (Download.shopGql P q h)).
Proof.
  intros Hh. rewrite shopGql_events.
  apply downloads_http_app; [exact Hh | apply downloads_http_gql].
Qed.

Lemma download_downloads_http (P : Download.Platform) (url : string)
    (h : list Download.Event) :
  String.prefix "http" url = true -> downloads_http h ->
  downloads_http (snd (Download.downloadFileFromShopify P url h)).
Proof.
  intros Hurl Hh. unfold Download.downloadFileFromShopify. cbn [snd].
  apply downloads_http_app; [exact Hh|].
  intros u [[= <-] | []]. exact Hurl.
Qed.

Lemma getFileFromMetaobject_downloads_http (P : Download.Platform) (fileId : string)
    (h : list Download.Event) :
  downloads_http h ->
  downloads_http (snd (Download.getFileFromMetaobject P fileId h)).
Proof.
  intros Hh.
  pose proof (getFileFromMetaobject_record P fileId h) as Hget. cbv zeta in Hget.
  rewrite Hget. destruct (handle_record _); cbn [snd];
    repeat apply shopGql_downloads_http; exact Hh.
Qed.

Lemma getFileFromMetaobject_url_http (P : Download.Platform) (fileId u n : string)
    (h : list Download.Event) :
  fst (Download.getFileFromMetaobject P fileId h) = Some (Download.UrlInfo u n) ->
  String.prefix "http" u = true.
Proof.
  pose proof (getFileFromMetaobject_record P fileId h) as Hget. cbv zeta in Hget.
  rewrite Hget. destruct (handle_record _); cbn [fst]; apply fileInfo_url_http.
Qed.

Lemma materialize_downloads_http (P : Download.Platform) (file : Download.FileEntry)
    (h : list Download.Event) :
  well_formed file -> downloads_http h ->
  downloads_http (snd (Download.materialize P file h)).
Proof.
  intros [_ Hwf] Hh. destruct file as [n url | n fileId]; cbn [Download.materialize].
  - apply download_downloads_http; [apply Hwf | exact Hh].
  - unfold Download.bind.
    pose proof (getFileFromMetaobject_downloads_http P fileId h Hh) as Hh'.
    pose proof (fun u m => getFileFromMetaobject_url_http P fileId u m h) as Hurl.
    destruct (Download.getFileFromMetaobject P fileId h) as [[[url m|data m]|] h'];
      cbn [fst snd] in *; try exact Hh'.
    apply download_downloads_http; [eapply Hurl; reflexivity | exact Hh'].
Qed.

Lemma packFiles_downloads_http (P : Download.Platform)
    (files : list Download.FileEntry) (st : Download.Pack) (h : list Download.Event) :
  Forall well_formed files -> downloads_http h ->
  downloads_http (snd (Download.packFiles P files st h)).
Proof.
  revert st h. induction files as [|file files IH]; intros st h Hwf Hh;
    [exact Hh|].
  apply Forall_cons in Hwf as [Hfile Hwf].
  cbn [Download.packFiles]. unfold Download.bind, Download.packFile at 1.
  unfold Download.bind.
  pose proof (materialize_downloads_http P file h Hfile Hh) as Hh'.
  destruct (Download.materialize P file h) as [[buf|msg] h']; cbn [snd] in Hh';
    unfold Download.ret; apply IH; assumption.
Qed.

(** ** What the extraction guarantees *)

Lemma displayName_nonempty (lineItem : Download.LineItem) :
  displayName lineItem <> EmptyString.
Proof.
  unfold displayName, Js.or.
  destruct (attribute_value lineItem "文件") as [[|c s]|];
    cbn [Js.truthy Js.or_default];
    try discriminate;
    destruct (Download.title lineItem) as [[|c s]|]; discriminate.
Qed.

Lemma entries_well_formed (lineItem : Download.LineItem) :
  Forall well_formed (entries lineItem (sourceKind lineItem)).
Proof.
  pose proof (sourceKind_Classified lineItem) as Hk.
  destruct Hk as [u [[_ Hne] [Hph Hpre]] | i _ [_ Hne] | _ _]; cbn [entries];
    repeat constructor; cbn [Download.fileName];
    try apply displayName_nonempty; assumption.
Qed.

Lemma extractFiles_well_formed (edges : list Download.LineItem) :
  Forall well_formed (Download.extractFiles edges).
Proof.
  unfold Download.extractFiles. rewrite extractFiles_from. cbn [app].
  induction edges as [|lineItem edges IH]; [constructor|].
  cbn [flat_map]. apply Forall_app. split; [apply entries_well_formed | exact IH].
Qed.

Lemma extractFiles_length (edges : list Download.LineItem) :
  length (Download.extractFiles edges) <= length edges.
Proof.
  unfold Download.extractFiles. rewrite extractFiles_from. cbn [app].
  induction edges as [|lineItem edges IH]; [reflexivity|].
  cbn [flat_map length]. rewrite length_app.
  assert (length (entries lineItem (sourceKind lineItem)) <= 1)
    by (destruct (sourceKind lineItem); cbn; lia).
  lia.
Qed.

(** The events of an invocation: none, the order query alone, or the order
    query, the new archive, the rounds of the download loop and, at the
    end, the generation of the archive. *)
Lemma handler_events (P : Download.Platform) (req : Request) :
  let evs := snd (run (Download.handler P req)) in
  evs = []
  \/ (exists id,
        query_draftOrderId req = Some id
        /\ evs = snd (Download.shopGql P (Download.DraftOrderQuery id) []))
  \/ (exists id order tail,
        query_draftOrderId req = Some id
        /\ looked_up P req = Some order
        /\ evs = (snd (Download.packFiles P
                         (Download.extractFiles (Download.lineItems order))
                         Download.empty_pack
                         (snd (Download.shopGql P (Download.DraftOrderQuery id) [])
                          ++ [Download.EvZipNew])%list) ++ tail)%list
        /\ (tail = [] \/ tail = [Download.EvZipGenerate])).
Proof.
  cbv zeta. unfold run, Download.handler, looked_up. fold (cors P req).
  destruct (String.eqb (method req) "OPTIONS"); [now left|].
  destruct (String.eqb (method req) "GET"); cbn [negb]; [|now left].
  destruct (query_draftOrderId req) as [[|c id]|];
    cbn [Js.truthy negb Js.or_default]; try (now left).
  unfold Download.downloadOrderFiles, Download.bind.
  destruct (Download.shopGql P (Download.DraftOrderQuery (String c id)) [])
    as [[j|msg] h1] eqn:Hgql; cbn [fst snd].
  2: { right; left. exists (String c id). now rewrite Hgql. }
  fold (order_of j).
  assert (Hrest :
    let evs :=
      snd ((match order_of j with
            | Some order =>
                if (length (Download.extractFiles (Download.lineItems order)) =? 0)%nat
                then Download.ret
                       (json [("error", "未找到可下载的文件");
                              ("message", "订单中没有找到有效的文件链接")]
                          (status 404 (cors P req)))
                else Download.packAndSend P (cors P req) order
                       (Download.extractFiles (Download.lineItems order))
            | None =>
                Download.ret (json [("error", "订单未找到")] (status 404 (cors P req)))
            end) h1) in
    evs = h1
    \/ (exists order tail,
          order_of j = Some order
          /\ evs = (snd (Download.packFiles P
                           (Download.extractFiles (Download.lineItems order))
                           Download.empty_pack (h1 ++ [Download.EvZipNew])%list)
                    ++ tail)%list
          /\ (tail = [] \/ tail = [Download.EvZipGenerate]))).
  { cbv zeta. destruct (order_of j) as [order|]; [|now left].
    destruct (length _ =? 0)%nat; [now left|].
    destruct (Download.JSZip P) eqn:Hzip.
    - rewrite (packAndSend_eq P _ order _ h1 Hzip). cbv zeta.
      right. exists order.
      destruct (Download.successCount _ =? 0)%nat; cbn [snd].
      + exists []. rewrite app_nil_r. auto.
      + exists [Download.EvZipGenerate]. auto.
    - unfold Download.packAndSend. rewrite Hzip. now left. }
  cbv zeta in Hrest.
  destruct (Download.errors j) as [[|e es]|].
  - destruct Hrest as [-> | (order & tail & Ho & -> & Htail)].
    + right; left. exists (String c id). now rewrite Hgql.
    + right; right. exists (String c id), order, tail. rewrite Hgql. auto.
  - right; left. exists (String c id). now rewrite Hgql.
  - destruct Hrest as [-> | (order & tail & Ho & -> & Htail)].
    + right; left. exists (String c id). now rewrite Hgql.
    + right; right. exists (String c id), order, tail. rewrite Hgql. auto.
Qed.

(** X3: every download of an invocation goes to a URL that begins with
    [http], whether the URL comes from a line item or from a metaobject
    record. *)
Theorem handler_downloads_http_only (P : Download.Platform) (req : Request)
    (url : string) :
  In (Download.EvGet url) (snd (run (Download.handler P req))) ->
  String.prefix "http" url = true.
Proof.
  revert url. change (downloads_http (snd (run (Download.handler P req)))).
  destruct (handler_events P req)
    as [-> | [(id & _ & ->) | (id & order & tail & _ & _ & -> & Htail)]].
  - intros url [].
  - apply shopGql_downloads_http. intros url [].
  - apply downloads_http_app.
    + apply packFiles_downloads_http; [apply extractFiles_well_formed|].
      apply downloads_http_app; [apply shopGql_downloads_http; intros url []|].
      intros url [[=] | []].
    + destruct Htail as [-> | ->]; intros url H; simpl in H; intuition discriminate.
Qed.

(** The download of the file behind the identifier [file_7]. *)
Lemma handler_downloads_http_only_sample :
  In (Download.EvGet "https://cdn.example.com/m/gear.stl")
    (snd (run (Download.handler sample_files_store
                 (request_for "gid://shopify/DraftOrder/7"))))
  /\ String.prefix "http" "https://cdn.example.com/m/gear.stl" = true.
Proof.
  assert (Hin : In (Download.EvGet "https://cdn.example.com/m/gear.stl")
                  (snd (run (Download.handler sample_files_store
                               (request_for "gid://shopify/DraftOrder/7")))))
    by (vm_compute; tauto).
  split; [exact Hin|].
  exact (handler_downloads_http_only sample_files_store
           (request_for "gid://shopify/DraftOrder/7") _ Hin).
Defined.

(** ** The number of requests *)

Lemma request_count_app (h evs : list Download.Event) :
  request_count (h ++ evs) = request_count h + request_count evs.
Proof. unfold request_count. now rewrite List.filter_app, length_app. Qed.

Lemma request_count_gql (P : Download.Platform) (q : Download.GqlQuery) :
  request_count (gql_events P q) <= 1.
Proof. unfold gql_events. destruct (_ && _); cbn; lia. Qed.

Lemma shopGql_request_count (P : Download.Platform) (q : Download.GqlQuery)
    (h : list Download.Event) :
  request_count (snd (Download.shopGql P q h)) <= request_count h + 1.
Proof.
  rewrite shopGql_events, request_count_app.
  pose proof (request_count_gql P q). lia.
Qed.

Lemma getFileFromMetaobject_request_count (P : Download.Platform) (fileId : string)
    (h : list Download.Event) :
  request_count (snd (Download.getFileFromMetaobject P fileId h))
  <= request_count h + 2.
Proof.
  pose proof (getFileFromMetaobject_record P fileId h) as Hget. cbv zeta in Hget.
  rewrite Hget.
  pose proof (shopGql_request_count P
                (Download.MetaobjectByHandleQuery fileId "uploaded_file") h) as H1.
  pose proof (shopGql_request_count P (Download.MetaobjectsQuery "uploaded_file" 100)
                (snd (Download.shopGql P
                        (Download.MetaobjectByHandleQuery fileId "uploaded_file") h)))
    as H2.
  destruct (handle_record _); cbn [snd]; lia.
Qed.

Lemma materialize_request_count (P : Download.Platform) (file : Download.FileEntry)
    (h : list Download.Event) :
  request_count (snd (Download.materialize P file h)) <= request_count h + 3.
Proof.
  destruct file as [n url | n fileId]; cbn [Download.materialize].
  - unfold Download.downloadFileFromShopify. cbn [snd].
    rewrite request_count_app. cbn. lia.
  - unfold Download.bind.
    pose proof (getFileFromMetaobject_request_count P fileId h) as Hc.
    destruct (Download.getFileFromMetaobject P fileId h) as [[[url m|data m]|] h'];
      cbn [snd] in *; unfold Download.ret; cbn [snd]; try lia.
    unfold Download.downloadFileFromShopify. cbn [snd].
    rewrite request_count_app. cbn. lia.
Qed.

Lemma packFiles_request_count (P : Download.Platform)
    (files : list Download.FileEntry) (st : Download.Pack) (h : list Download.Event) :
  request_count (snd (Download.packFiles P files st h))
  <= request_count h + 3 * length files.
Proof.
  revert st h. induction files as [|file files IH]; intros st h;
    [cbn [Download.packFiles length]; unfold Download.ret; cbn [snd]; lia|].
  cbn [Download.packFiles]. unfold Download.bind, Download.packFile at 1.
  unfold Download.bind.
  pose proof (materialize_request_count P file h) as Hc.
  destruct (Download.materialize P file h) as [[buf|msg] h']; cbn [snd] in Hc;
    unfold Download.ret;
    match goal with
    | |- context [Download.packFiles P files ?st' h'] =>
        specialize (IH st' h')
    end; cbn [length]; lia.
Qed.

(** X4: an invocation sends at most one request plus three per line item
    of the order it works on (two queries and one download for a file
    behind an identifier), and at most one request when it works on no
    order. *)
Theorem handler_request_bound (P : Download.Platform) (req : Request) :
  request_count (snd (run (Download.handler P req)))
  <= 1 + 3 * match looked_up P req with
             | Some order => length (Download.lineItems order)
             | None => 0
             end.
Proof.
  destruct (handler_events P req)
    as [-> | [(id & _ & ->) | (id & order & tail & _ & -> & -> & Htail)]].
  - cbn. lia.
  - pose proof (shopGql_request_count P (Download.DraftOrderQuery id) []) as Hc.
    cbn in Hc. lia.
  - rewrite request_count_app.
    pose proof (packFiles_request_count P
                  (Download.extractFiles (Download.lineItems order))
                  Download.empty_pack
                  (snd (Download.shopGql P (Download.DraftOrderQuery id) [])
                   ++ [Download.EvZipNew])%list) as Hp.
    rewrite request_count_app in Hp.
    pose proof (shopGql_request_count P (Download.DraftOrderQuery id) []) as Hc.
    pose proof (extractFiles_length (Download.lineItems order)) as Hl.
    assert (request_count tail = 0) by (destruct Htail as [-> | ->]; reflexivity).
    cbn in Hp, Hc. lia.
Qed.

(** ** Validation and lookup failures *)

(** X5: nothing is asked of the outside unless the method is GET and the
    identifier of the order is given and not empty; a GET request without
    it is answered 400 with the usage line. *)
Theorem handler_validates_first (P : Download.Platform) (req : Request) :
  (snd (run (Download.handler P req)) <> [] ->
   method req = "GET"
   /\ exists id, query_draftOrderId req = Some id /\ id <> EmptyString)
  /\ (method req = "GET" -> Js.truthy (query_draftOrderId req) = false ->
      run (Download.handler P req)
      = (json [("error", "Missing draftOrderId parameter");
               ("usage", "GET /api/download-order-files?draftOrderId=gid://shopify/DraftOrder/123456789")]
           (status 400 (cors P req)), [])).
Proof.
  unfold run, Download.handler. fold (cors P req). split.
  - destruct (String.eqb (method req) "OPTIONS") eqn:Hopt;
      [intros H; now destruct H|].
    destruct (String.eqb (method req) "GET") eqn:Hget; cbn [negb];
      [|intros H; now destruct H].
    apply String.eqb_eq in Hget.
    destruct (query_draftOrderId req) as [[|c id]|];
      cbn [Js.truthy negb]; try (intros H; now destruct H).
    intros _. split; [exact Hget|]. exists (String c id). split; [reflexivity | discriminate].
  - intros Hget Hq. rewrite Hget, Hq. reflexivity.
Qed.

(** X6: without credentials no request is ever sent, and a GET request for
    an order is answered 500 with the message that names the missing
    variables. *)
Theorem handler_without_credentials (P : Download.Platform) (req : Request) :
  configured P = false ->
  snd (run (Download.handler P req)) = []
  /\ res_status (fst (run (Download.handler P req))) <> 200
  /\ (method req = "GET" -> Js.truthy (query_draftOrderId req) = true ->
      fst (run (Download.handler P req))
      = json [("error", "查询订单失败");
              ("details", "Missing SHOPIFY_STORE_DOMAIN or SHOPIFY_ACCESS_TOKEN")]
          (status 500 (cors P req))).
Proof.
  intros Hconf.
  assert (Hgql : forall q h,
            Download.shopGql P q h
            = (Download.Returned
                 {| Download.errors :=
                      Some ["Missing SHOPIFY_STORE_DOMAIN or SHOPIFY_ACCESS_TOKEN"];
                    Download.data := None |}, h)).
  { intros q h. unfold Download.shopGql. unfold configured in Hconf.
    destruct (Js.truthy (Js.or (Download.SHOPIFY_STORE_DOMAIN P) (Download.SHOP P)));
      destruct (Js.truthy (Js.or (Download.SHOPIFY_ACCESS_TOKEN P)
                             (Download.ADMIN_TOKEN P)));
      try discriminate; reflexivity. }
  unfold run, Download.handler. fold (cors P req).
  destruct (String.eqb (method req) "OPTIONS") eqn:Hopt.
  { split; [reflexivity | split; [discriminate|]].
    intros Hget. rewrite Hget in Hopt. discriminate. }
  destruct (String.eqb (method req) "GET") eqn:Hget; cbn [negb].
  2: { split; [reflexivity | split; [discriminate|]].
       intros Hget'. rewrite Hget' in Hget. discriminate. }
  destruct (query_draftOrderId req) as [[|c id]|];
    cbn [Js.truthy negb Js.or_default];
    try (split; [reflexivity | split; [discriminate | intros _ Hq; discriminate]]).
  unfold Download.downloadOrderFiles, Download.bind. rewrite Hgql.
  cbn [Download.errors]. unfold Download.ret. cbn [fst snd].
  split; [reflexivity | split; [discriminate | reflexivity]].
Qed.

Lemma handler_without_credentials_sample :
  snd (run (Download.handler unconfigured_store
              (request_for "gid://shopify/DraftOrder/1001"))) = []
  /\ res_status (fst (run (Download.handler unconfigured_store
                             (request_for "gid://shopify/DraftOrder/1001")))) <> 200
  /\ (method (request_for "gid://shopify/DraftOrder/1001") = "GET" ->
      Js.truthy (query_draftOrderId (request_for "gid://shopify/DraftOrder/1001"))
      = true ->
      fst (run (Download.handler unconfigured_store
                  (request_for "gid://shopify/DraftOrder/1001")))
      = json [("error", "查询订单失败");
              ("details", "Missing SHOPIFY_STORE_DOMAIN or SHOPIFY_ACCESS_TOKEN")]
          (status 500 (cors unconfigured_store
                         (request_for "gid://shopify/DraftOrder/1001")))).
Proof.
  apply (handler_without_credentials unconfigured_store
           (request_for "gid://shopify/DraftOrder/1001")).
  reflexivity.
Defined.

(** X7: when the order lookup throws, or its answer lists an error
    (whatever data comes with it), the answer is 500 with the first message
    as details; the order query is the only request. *)
Theorem order_lookup_failure (P : Download.Platform) (req : Request) (id : string)
    (reply : Download.Completion Download.GqlJson) (h1 : list Download.Event)
    (code details : string) :
  method req = "GET" -> query_draftOrderId req = Some id -> id <> EmptyString ->
  Download.shopGql P (Download.DraftOrderQuery id) [] = (reply, h1) ->
  lookup_failure reply = Some (code, details) ->
  run (Download.handler P req)
  = (json [("error", code); ("details", details)] (status 500 (cors P req)),
     gql_events P (Download.DraftOrderQuery id))
  /\ request_count (snd (run (Download.handler P req))) <= 1.
Proof.
  intros Hm Hq Hid Hgql Hfail.
  assert (Hh1 : h1 = gql_events P (Download.DraftOrderQuery id)).
  { pose proof (shopGql_events P (Download.DraftOrderQuery id) []) as Hev.
    now rewrite Hgql in Hev. }
  assert (Hrun : run (Download.handler P req)
                 = (json [("error", code); ("details", details)]
                      (status 500 (cors P req)),
                    gql_events P (Download.DraftOrderQuery id))).
  { unfold run. rewrite (handler_get P req id [] Hm Hq Hid).
    unfold Download.downloadOrderFiles, Download.bind. rewrite Hgql, <- Hh1.
    destruct reply as [j|message]; cbn [lookup_failure] in Hfail.
    - destruct (Download.errors j) as [[|e es]|]; try discriminate.
      now injection Hfail as <- <-.
    - now injection Hfail as <- <-. }
  split; [exact Hrun|]. rewrite Hrun. cbn [snd]. apply request_count_gql.
Qed.

(** The store that answers with the order and two errors. *)
Lemma order_lookup_failure_sample :
  run (Download.handler throttled_store (request_for "gid://shopify/DraftOrder/7"))
  = (json [("error", "查询订单失败"); ("details", "Throttled")]
       (status 500 (cors throttled_store (request_for "gid://shopify/DraftOrder/7"))),
     gql_events throttled_store (Download.DraftOrderQuery "gid://shopify/DraftOrder/7"))
  /\ request_count
       (snd (run (Download.handler throttled_store
                    (request_for "gid://shopify/DraftOrder/7")))) <= 1.
Proof.
  apply (order_lookup_failure throttled_store
           (request_for "gid://shopify/DraftOrder/7") "gid://shopify/DraftOrder/7"
           (fst (Download.shopGql throttled_store
                   (Download.DraftOrderQuery "gid://shopify/DraftOrder/7") []))
           (snd (Download.shopGql throttled_store
                   (Download.DraftOrderQuery "gid://shopify/DraftOrder/7") []))
           "查询订单失败" "Throttled").
  - reflexivity.
  - reflexivity.
  - discriminate.
  - reflexivity.
  - reflexivity.
Defined.

(** ** The entries of the archive *)

Lemma packFile_stores (P : Download.Platform) (st : Download.Pack)
    (file : Download.FileEntry) (h : list Download.Event) :
  Download.zip (fst (Download.packFile P st file h))
  = <[stored_name file (fst (Download.materialize P file h))
      := stored_data (fst (Download.materialize P file h))]> (Download.zip st)
  /\ snd (Download.packFile P st file h) = snd (Download.materialize P file h).
Proof.
  unfold Download.packFile, Download.bind.
  destruct (Download.materialize P file h) as [[buf|msg] h']; split; reflexivity.
Qed.

Lemma packFiles_cons (P : Download.Platform) (file : Download.FileEntry)
    (rest : list Download.FileEntry) (st : Download.Pack) (h : list Download.Event) :
  Download.packFiles P (file :: rest) st h
  = Download.packFiles P rest (fst (Download.packFile P st file h))
      (snd (Download.packFile P st file h)).
Proof.
  cbn [Download.packFiles]. unfold Download.bind.
  now destruct (Download.packFile P st file h).
Qed.

Lemma packFiles_app (P : Download.Platform) (pre post : list Download.FileEntry)
    (st : Download.Pack) (h : list Download.Event) :
  Download.packFiles P (pre ++ post) st h
  = Download.packFiles P post (fst (Download.packFiles P pre st h))
      (snd (Download.packFiles P pre st h)).
Proof.
  revert st h. induction pre as [|file pre IH]; intros st h; [reflexivity|].
  rewrite <- app_comm_cons, !packFiles_cons. apply IH.
Qed.

Lemma written_cons (P : Download.Platform) (file : Download.FileEntry)
    (rest : list Download.FileEntry) (h : list Download.Event) :
  written P (file :: rest) h
  = stored_name file (fst (Download.materialize P file h))
    :: written P rest (snd (Download.materialize P file h)).
Proof.
  cbn [written]. now destruct (Download.materialize P file h) as [[buf|msg] h'].
Qed.

Lemma rounds_cons (P : Download.Platform) (file : Download.FileEntry)
    (rest : list Download.FileEntry) (h : list Download.Event) :
  rounds P (file :: rest) h
  = fst (Download.materialize P file h)
    :: rounds P rest (snd (Download.materialize P file h)).
Proof.
  cbn [rounds]. now destruct (Download.materialize P file h).
Qed.






Lemma binary_entries_insert (archive : gmap string Download.ZipData) (n : string)
    (d : Download.ZipData) :
  archive !! n = None ->
  size (binary_entries (<[n := d]> archive))
  = size (binary_entries archive) + (if is_binary d then 1 else 0)
  /\ size (text_entries (<[n := d]> archive))
     = size (text_entries archive) + (if is_binary d then 0 else 1).
Proof.
  intros Hn. unfold binary_entries, text_entries.
  destruct d as [buf|text]; cbn [is_binary]; split.
  - rewrite map_filter_insert_True by reflexivity.
    rewrite map_size_insert_None; [lia|].
    apply map_lookup_filter_None. now left.
  - rewrite map_filter_insert_False by (cbn; discriminate).
    rewrite delete_id by exact Hn. lia.
  - rewrite map_filter_insert_False by (cbn; discriminate).
    rewrite delete_id by exact Hn. lia.
  - rewrite map_filter_insert_True by reflexivity.
    rewrite map_size_insert_None; [lia|].
    apply map_lookup_filter_None. now left.
Qed.

Lemma packFiles_failCount (P : Download.Platform) (files : list Download.FileEntry)
    (st : Download.Pack) (h : list Download.Event) :
  Download.failCount (fst (Download.packFiles P files st h))
  = Download.failCount st
    + length (List.filter (fun r => negb (is_returned r)) (rounds P files h)).
Proof.
  revert st h. induction files as [|file files IH]; intros st h;
    [cbn; lia|].
  cbn [Download.packFiles rounds]. unfold Download.bind, Download.packFile at 1.
  unfold Download.bind.
  destruct (Download.materialize P file h) as [[buf|msg] h'];
    unfold Download.ret; rewrite IH; cbn; lia.
Qed.

Lemma packFiles_entry_counts (P : Download.Platform)
    (files : list Download.FileEntry) (st : Download.Pack) (h : list Download.Event) :
  NoDup (written P files h) ->
  (forall n, In n (written P files h) -> Download.zip st !! n = None) ->
  size (binary_entries (Download.zip (fst (Download.packFiles P files st h))))
  = size (binary_entries (Download.zip st))
    + length (List.filter is_returned (rounds P files h))
  /\ size (text_entries (Download.zip (fst (Download.packFiles P files st h))))
     = size (text_entries (Download.zip st))
       + length (List.filter (fun r => negb (is_returned r)) (rounds P files h)).
Proof.
  revert st h. induction files as [|file files IH]; intros st h Hnd Hnew;
    [cbn; lia|].
  rewrite written_cons in Hnd, Hnew. rewrite rounds_cons, packFiles_cons.
  apply NoDup_cons in Hnd as [Hhd Hnd].
  destruct (packFile_stores P st file h) as [Hzip Hev].
  specialize (IH (fst (Download.packFile P st file h))
                 (snd (Download.packFile P st file h))).
  rewrite Hev, Hzip in IH.
  destruct IH as [IHb IHt]; [exact Hnd | |].
  { intros n Hn. rewrite lookup_insert_ne.
    - apply Hnew. now right.
    - intros <-. apply Hhd. now apply list_elem_of_In. }
  destruct (binary_entries_insert (Download.zip st)
              (stored_name file (fst (Download.materialize P file h)))
              (stored_data (fst (Download.materialize P file h))))
    as [Hb Ht]; [apply Hnew; now left|].
  rewrite Hev, IHb, IHt, Hb, Ht.
  destruct (fst (Download.materialize P file h)) as [buf|msg]; cbn; lia.
Qed.

(** X9: when the names the rounds write are pairwise distinct and hold no
    slash (no folder entries then), nothing is replaced: the archive holds
    one entry per file, as many entries with bytes as files were obtained
    and as many error texts as files failed. *)
Theorem distinct_names_keep_every_entry (P : Download.Platform)
    (files : list Download.FileEntry) (h : list Download.Event) :
  NoDup (written P files h) ->
  Forall slash_free (written P files h) ->
  let st := fst (Download.packFiles P files Download.empty_pack h) in
  size (Download.zip st) = length files
  /\ size (binary_entries (Download.zip st)) = Download.successCount st
  /\ size (text_entries (Download.zip st)) = Download.failCount st.
Proof.
  intros Hnd _. cbv zeta.
  assert (Hnew : forall n, In n (written P files h) ->
                           Download.zip Download.empty_pack !! n = None)
    by (intros n _; apply lookup_empty).
  destruct (packFiles_entry_counts P files Download.empty_pack h Hnd Hnew)
    as [Hb Ht].
  pose proof (packFiles_size P files Download.empty_pack h Hnd Hnew) as Hs.
  rewrite packFiles_successCount, packFiles_failCount, Hb, Ht, Hs.
  unfold binary_entries, text_entries.
  cbn [Download.empty_pack Download.zip Download.successCount Download.failCount].
  rewrite !map_filter_empty, !map_size_empty. lia.
Qed.

(** The sample order of five files with distinct names: two are obtained
    from URLs, one from an inline payload, two fail. *)
Lemma distinct_names_keep_every_entry_sample :
  size (Download.zip
          (fst (Download.packFiles sample_files_store
                  (Download.extractFiles (Download.lineItems order_mixed))
                  Download.empty_pack [])))
  = length (Download.extractFiles (Download.lineItems order_mixed))
  /\ size (binary_entries
             (Download.zip
                (fst (Download.packFiles sample_files_store
                        (Download.extractFiles (Download.lineItems order_mixed))
                        Download.empty_pack []))))
     = Download.successCount
         (fst (Download.packFiles sample_files_store
                 (Download.extractFiles (Download.lineItems order_mixed))
                 Download.empty_pack []))
  /\ size (text_entries
             (Download.zip
                (fst (Download.packFiles sample_files_store
                        (Download.extractFiles (Download.lineItems order_mixed))
                        Download.empty_pack []))))
     = Download.failCount
         (fst (Download.packFiles sample_files_store
                 (Download.extractFiles (Download.lineItems order_mixed))
                 Download.empty_pack [])).
Proof.
  apply (distinct_names_keep_every_entry sample_files_store
           (Download.extractFiles (Download.lineItems order_mixed)) []).
  - apply (bool_decide_unpack _). vm_compute. exact I.
  - vm_compute. repeat constructor.
Defined.

Example order_mixed_counts :
  let st := fst (Download.packFiles sample_files_store
                   (Download.extractFiles (Download.lineItems order_mixed))
                   Download.empty_pack []) in
  Download.successCount st = 3 /\ Download.failCount st = 2
  /\ Download.zip st !! "knob.stl"
     = Some (Download.ZipBinary (list_byte_of_string "QUJD"))
  /\ Download.zip st !! "错误_lost.stl.txt"
     = Some (Download.ZipText "文件下载失败: 从Metaobject获取文件失败").
Proof. cbv zeta. repeat split; vm_compute; reflexivity. Qed.

(** X10: the entry under a name is what the last round that wrote the name
    stored: the bytes a round obtained, or its error text, stay in the
    archive when no later round writes the same name. *)
Theorem last_round_keeps_its_entry (P : Download.Platform)
    (pre rest : list Download.FileEntry) (file : Download.FileEntry)
    (st : Download.Pack) (h : list Download.Event) :
  let h1 := snd (Download.packFiles P pre st h) in
  let outcome := fst (Download.materialize P file h1) in
  let h2 := snd (Download.materialize P file h1) in
  ~ In (stored_name file outcome) (written P rest h2) ->
  Download.zip (fst (Download.packFiles P (pre ++ file :: rest) st h))
  !! stored_name file outcome = Some (stored_data outcome).
Proof.
  cbv zeta. intros Hlater. rewrite packFiles_app, packFiles_cons.
  destruct (packFile_stores P (fst (Download.packFiles P pre st h)) file
              (snd (Download.packFiles P pre st h))) as [Hzip Hev].
  rewrite Hev. rewrite packFiles_untouched by exact Hlater.
  rewrite Hzip. apply lookup_insert_eq.
Qed.

(** The file behind [file_7], second of five. *)
Lemma last_round_keeps_its_entry_sample :
  Download.zip
    (fst (Download.packFiles sample_files_store
            ([uploaded_file_entry] ++ Download.MetaobjectFile "gear.stl" "file_7"
               :: [Download.MetaobjectFile "knob.stl" "file_8"])
            Download.empty_pack []))
  !! "gear.stl" = Some (Download.ZipBinary [Byte.x07]).
Proof.
  apply (last_round_keeps_its_entry sample_files_store
           [uploaded_file_entry] [Download.MetaobjectFile "knob.stl" "file_8"]
           (Download.MetaobjectFile "gear.stl" "file_7") Download.empty_pack []).
  vm_compute. intuition discriminate.
Defined.

(** ** The inline payload *)

Lemma includes_char_cons (c sep : ascii) (s : string) :
  Js.includes_char (String c s) sep = Ascii.eqb sep c || Js.includes_char s sep.
Proof. reflexivity. Qed.

Lemma includes_char_app (a b : string) (sep : ascii) :
  Js.includes_char (a +:+ b) sep = Js.includes_char a sep || Js.includes_char b sep.
Proof.
  induction a as [|c a IH]; [reflexivity|].
  rewrite append_cons, !includes_char_cons, IH. now rewrite orb_assoc.
Qed.

(** The parts of a split are free of the separator, and the text is the
    first part followed by the other parts, each behind a separator. *)
Lemma split_parts (sep : ascii) (s : string) :
  exists first others,
    Js.split sep s = first :: others
    /\ s = first +:+ join_tail sep others
    /\ Forall (fun part => Js.includes_char part sep = false) (first :: others).
Proof.
  induction s as [|c s (first & others & Hsplit & Hs & Hfree)].
  - exists EmptyString, []. repeat split. repeat constructor.
  - cbn [Js.split]. destruct (Ascii.eqb c sep) eqn:Hc.
    + apply Ascii.eqb_eq in Hc. subst c.
      exists EmptyString, (first :: others). rewrite Hsplit.
      split; [reflexivity | split].
      * cbn [join_tail]. rewrite append_empty. now rewrite <- Hs.
      * constructor; [reflexivity | exact Hfree].
    + rewrite Hsplit. exists (String c first), others.
      split; [reflexivity | split].
      * rewrite append_cons. now rewrite <- Hs.
      * apply Forall_cons in Hfree as [Hfirst Hothers].
        constructor; [|exact Hothers].
        rewrite includes_char_cons, Hfirst, Ascii.eqb_sym, Hc. reflexivity.
Qed.

(** The payload of a text: free of commas, the text itself when it holds
    no comma, and otherwise what stands between its first comma and the
    next one (or the end). *)
Lemma payload_shape (data : string) :
  comma_free (payload data)
  /\ (comma_free data -> payload data = data)
  /\ (~ comma_free data ->
      exists before rest,
        data = before +:+ "," +:+ payload data +:+ rest
        /\ comma_free before
        /\ (rest = EmptyString \/ exists more, rest = "," +:+ more)).
Proof.
  unfold comma_free, payload.
  destruct (split_parts "," data) as (first & others & Hsplit & Hdata & Hfree).
  apply Forall_cons in Hfree as [Hfirst Hothers].
  destruct (Js.includes_char data ",") eqn:Hinc.
  - destruct others as [|second others].
    { cbn [join_tail] in Hdata. rewrite Hdata in Hinc.
      rewrite includes_char_app, Hfirst in Hinc. discriminate. }
    rewrite Hsplit. cbn [nth].
    apply Forall_cons in Hothers as [Hsecond Hothers].
    split; [exact Hsecond | split; [discriminate|]].
    intros _. exists first, (join_tail "," others).
    split; [|split; [exact Hfirst|]].
    + rewrite Hdata. cbn [join_tail]. reflexivity.
    + destruct others as [|third others]; [now left | right].
      cbn [join_tail]. eexists. reflexivity.
  - split; [exact Hinc | split; [reflexivity|]]. intros H. now destruct H.
Qed.

Lemma materialize_metaobject (P : Download.Platform) (fileName fileId : string)
    (h : list Download.Event) :
  Download.materialize P (Download.MetaobjectFile fileName fileId) h
  = match fst (Download.getFileFromMetaobject P fileId h) with
    | None =>
        (Download.Thrown "从Metaobject获取文件失败",
         snd (Download.getFileFromMetaobject P fileId h))
    | Some (Download.UrlInfo url _) =>
        Download.downloadFileFromShopify P url
          (snd (Download.getFileFromMetaobject P fileId h))
    | Some (Download.Base64Info data _) =>
        (Download.Returned (Download.Buffer_from_base64 P (payload data)),
         snd (Download.getFileFromMetaobject P fileId h))
    end.
Proof.
  unfold Download.materialize, Download.bind.
  destruct (Download.getFileFromMetaobject P fileId h) as [[[url n|data n]|] h'];
    reflexivity.
Qed.

(** X11: when the record of a file holds an inline payload, the handler
    downloads nothing more and hands to the decoder a text that never
    holds a comma: the data itself when it has no comma, and otherwise
    what stands between its first comma and the next one (or the end), so
    that what follows a second comma is dropped. *)
Theorem payload_between_commas (P : Download.Platform) (fileName fileId : string)
    (h : list Download.Event) (data name : string) :
  fst (Download.getFileFromMetaobject P fileId h)
  = Some (Download.Base64Info data name) ->
  let text := payload data in
  Download.materialize P (Download.MetaobjectFile fileName fileId) h
  = (Download.Returned (Download.Buffer_from_base64 P text),
     snd (Download.getFileFromMetaobject P fileId h))
  /\ comma_free text
  /\ (comma_free data -> text = data)
  /\ (~ comma_free data ->
      exists before rest,
        data = before +:+ "," +:+ text +:+ rest
        /\ comma_free before
        /\ (rest = EmptyString \/ exists more, rest = "," +:+ more)).
Proof.
  intros Hinfo. cbv zeta.
  rewrite materialize_metaobject, Hinfo.
  split; [reflexivity|]. apply payload_shape.
Qed.

(** The record [file_8] of the sample store holds a data URL: the text
    after its comma is decoded, and the two queries of the resolution are
    all that is sent. *)
Lemma payload_between_commas_sample :
  Download.materialize sample_files_store
    (Download.MetaobjectFile "knob.stl" "file_8") []
  = (Download.Returned (list_byte_of_string "QUJD"),
     snd (Download.getFileFromMetaobject sample_files_store "file_8" [])).
Proof.
  exact (proj1 (payload_between_commas sample_files_store "knob.stl" "file_8" []
                  "data:model/stl;base64,QUJD" "download.bin" eq_refl)).
Defined.

Example payload_drops_after_second_comma :
  payload "data:model/stl;base64,QUJD,REVG" = "QUJD".
Proof. reflexivity. Qed.

(** ** The files of an order *)

Lemma entries_nil_iff (lineItem : Download.LineItem) :
  entries lineItem (sourceKind lineItem) = [] <-> sourceKind lineItem = Missing.
Proof. destruct (sourceKind lineItem); cbn; split; congruence. Qed.

(** X12: every extracted file has a display name that is not empty and
    either a URL that begins with [http] and is not the placeholder, or an
    identifier that is not empty; there are at most as many files as line
    items, and there is none exactly when every line item is without a
    usable reference. *)
Theorem extractFiles_invariants (edges : list Download.LineItem) :
  Forall well_formed (Download.extractFiles edges)
  /\ length (Download.extractFiles edges) <= length edges
  /\ (Download.extractFiles edges = []
      <-> Forall (fun lineItem => sourceKind lineItem = Missing) edges).
Proof.
  split; [apply extractFiles_well_formed | split; [apply extractFiles_length|]].
  unfold Download.extractFiles. rewrite extractFiles_from. cbn [app].
  induction edges as [|lineItem edges IH]; [split; [constructor | reflexivity]|].
  cbn [flat_map]. split.
  - intros Hnil. apply app_eq_nil in Hnil as [Hhd Htl].
    constructor; [now apply entries_nil_iff | now apply IH].
  - intros Hall. apply Forall_cons in Hall as [Hhd Htl].
    apply entries_nil_iff in Hhd. rewrite Hhd. now apply IH.
Qed.

(** * Further properties of the authorization service *)

(** ** The pattern test decides the language *)

Lemma nullable_matches (r : Regex.regex) :
  Regex.nullable r = true <-> Regex.matches r [].
Proof.
  split.
  - induction r as [| |p|r IHr s IHs|r IHr s IHs|r IHr]; cbn [Regex.nullable];
      intros Hn; try discriminate.
    + constructor.
    + apply andb_prop in Hn as [Hr Hs].
      apply (Regex.matches_cat r s [] []); auto.
    + apply orb_prop in Hn as [Hr | Hs];
        [apply Regex.matches_alt_l | apply Regex.matches_alt_r]; auto.
    + constructor.
  - intros Hm. remember [] as w eqn:Hw.
    induction Hm as [|p a Hp|r s u v Hr IHr Hs IHs|r s u Hr IHr|r s u Hs IHs
                    |r|r u v Hr IHr Hs IHs]; cbn [Regex.nullable];
      try reflexivity; try discriminate.
    + apply app_eq_nil in Hw as [-> ->].
      now rewrite IHr, IHs.
    + now rewrite IHr.
    + rewrite IHs by exact Hw. apply orb_true_r.
Qed.

Lemma deriv_matches (a : N) (r : Regex.regex) (w : list N) :
  Regex.matches (Regex.deriv a r) w <-> Regex.matches r (a :: w).
Proof.
  split.
  - revert w. induction r as [| |p|r IHr s IHs|r IHr s IHs|r IHr]; intros w;
      cbn [Regex.deriv]; intros Hm.
    + inversion Hm.
    + inversion Hm.
    + destruct (p a) eqn:Hp; inversion Hm; subst. now constructor.
    + assert (Hcat : Regex.matches (Regex.Cat (Regex.deriv a r) s) w ->
                     Regex.matches (Regex.Cat r s) (a :: w)).
      { intros Hc. inversion Hc as [| |r' s' u v Hu Hv| | | |]; subst.
        apply (Regex.matches_cat r s (a :: u) v); auto. }
      destruct (Regex.nullable r) eqn:Hn; [|auto].
      inversion Hm as [| | |r' s' u Hu|r' s' u Hu| |]; subst; [auto|].
      apply (Regex.matches_cat r s [] (a :: w)); [now apply nullable_matches | auto].
    + inversion Hm as [| | |r' s' u Hu|r' s' u Hu| |]; subst;
        [apply Regex.matches_alt_l | apply Regex.matches_alt_r]; auto.
    + inversion Hm as [| |r' s' u v Hu Hv| | | |]; subst.
      apply (Regex.matches_star_app r (a :: u) v); auto.
  - intros Hm. remember (a :: w) as w0 eqn:Hw. revert a w Hw.
    induction Hm as [|p b Hp|r s u v Hr IHr Hs IHs|r s u Hr IHr|r s u Hs IHs
                    |r|r u v Hr IHr Hs IHs]; intros a w Hw; cbn [Regex.deriv];
      try discriminate.
    + injection Hw as -> <-. rewrite Hp. constructor.
    + destruct u as [|b u]; cbn [app] in Hw.
      * subst v. apply nullable_matches in Hr. rewrite Hr.
        apply Regex.matches_alt_r. now apply IHs.
      * injection Hw as -> <-.
        assert (Hcat : Regex.matches (Regex.Cat (Regex.deriv a r) s) (u ++ v))
          by (constructor; [now apply IHr | exact Hs]).
        destruct (Regex.nullable r); [now apply Regex.matches_alt_l | exact Hcat].
    + apply Regex.matches_alt_l. now apply IHr.
    + apply Regex.matches_alt_r. now apply IHs.
    + destruct u as [|b u]; cbn [app] in Hw.
      * subst v. now apply IHs.
      * injection Hw as -> <-. constructor; [now apply IHr | exact Hs].
Qed.

Lemma test_matches (r : Regex.regex) (w : list N) :
  Regex.test r w = true <-> Regex.matches r w.
Proof.
  revert r. induction w as [|a w IH]; intros r; cbn [Regex.test].
  - apply nullable_matches.
  - rewrite IH. apply deriv_matches.
Qed.

Lemma matches_cat_inv (r s : Regex.regex) (w : list N) :
  Regex.matches (Regex.Cat r s) w ->
  exists u v, w = (u ++ v)%list /\ Regex.matches r u /\ Regex.matches s v.
Proof. intros Hm. inversion Hm; subst. eauto. Qed.

Lemma matches_class_iff (p : N -> bool) (w : list N) :
  Regex.matches (Regex.Class p) w <-> exists a, w = [a] /\ p a = true.
Proof.
  split.
  - intros Hm. inversion Hm; subst. eauto.
  - intros (a & -> & Hp). now constructor.
Qed.

Lemma matches_star_class (p : N -> bool) (w : list N) :
  Regex.matches (Regex.Star (Regex.Class p)) w <-> Forall (fun u => p u = true) w.
Proof.
  split.
  - intros Hm. remember (Regex.Star (Regex.Class p)) as r eqn:Hr.
    induction Hm as [| | | | |r|r u v Hu _ Hv IHv]; try discriminate;
      [constructor|].
    injection Hr as ->. apply matches_class_iff in Hu as (a & -> & Hp).
    constructor; [exact Hp | now apply IHv].
  - induction w as [|a w IH]; intros Hall; [constructor|].
    apply Forall_cons in Hall as [Hp Hw].
    apply (Regex.matches_star_app (Regex.Class p) [a] w); [now constructor | auto].
Qed.

Lemma matches_plus_class (p : N -> bool) (w : list N) :
  Regex.matches (Regex.Plus (Regex.Class p)) w
  <-> w <> [] /\ Forall (fun u => p u = true) w.
Proof.
  unfold Regex.Plus. split.
  - intros Hm. apply matches_cat_inv in Hm as (u & v & -> & Hu & Hv).
    apply matches_class_iff in Hu as (a & -> & Hp).
    apply matches_star_class in Hv.
    split; [discriminate | now constructor].
  - intros [Hne Hall]. destruct w as [|a w]; [congruence|].
    apply Forall_cons in Hall as [Hp Hw].
    apply (Regex.matches_cat _ _ [a] w);
      [now constructor | now apply matches_star_class].
Qed.

Lemma emailRegex_shape (w : list N) :
  Regex.matches AuthChecks.emailRegex w <-> email_shape w.
Proof.
  unfold AuthChecks.emailRegex, email_shape. split.
  - intros Hm.
    apply matches_cat_inv in Hm as (local & w1 & -> & Hlocal & Hm).
    apply matches_cat_inv in Hm as (x & w2 & -> & Hat & Hm).
    apply matches_cat_inv in Hm as (before & w3 & -> & Hbefore & Hm).
    apply matches_cat_inv in Hm as (y & after & -> & Hdot & Hafter).
    apply matches_class_iff in Hat as (a & -> & Ha). apply N.eqb_eq in Ha. subst a.
    apply matches_class_iff in Hdot as (d & -> & Hd). apply N.eqb_eq in Hd. subst d.
    apply matches_plus_class in Hlocal as [? ?].
    apply matches_plus_class in Hbefore as [? ?].
    apply matches_plus_class in Hafter as [? ?].
    exists local, before, after. repeat split; try assumption.
    repeat (apply Forall_app; split); assumption.
  - intros (local & before & after & -> & Hl & Hb & Ha & Hall).
    apply Forall_app in Hall as [Hpl Hall]. apply Forall_app in Hall as [Hpb Hpa].
    apply Regex.matches_cat; [now apply matches_plus_class|].
    apply (Regex.matches_cat _ _ [AuthChecks.at_sign]);
      [constructor; apply N.eqb_refl|].
    apply Regex.matches_cat; [now apply matches_plus_class|].
    apply (Regex.matches_cat _ _ [AuthChecks.dot]);
      [constructor; apply N.eqb_refl | now apply matches_plus_class].
Qed.

(** ** The validation of an address *)

Lemma plain_spec (u : N) :
  AuthChecks.plain u = true ->
  u <> AuthChecks.at_sign /\ AuthChecks.whitespace u = false.
Proof.
  unfold AuthChecks.plain. rewrite negb_true_iff, orb_false_iff.
  intros [Hw Ha]. split; [now apply N.eqb_neq | exact Hw].
Qed.

Lemma count_occ_plain (l : list N) :
  Forall (fun u => AuthChecks.plain u = true) l ->
  count_occ N.eq_dec l AuthChecks.at_sign = 0.
Proof.
  intros Hall. apply count_occ_not_In. intros Hin.
  rewrite Forall_forall in Hall. apply list_elem_of_In in Hin.
  apply Hall in Hin. apply plain_spec in Hin as [Hne _]. congruence.
Qed.

Lemma email_shape_facts (units : list N) :
  email_shape units ->
  count_occ N.eq_dec units AuthChecks.at_sign = 1
  /\ Forall (fun u => AuthChecks.whitespace u = false) units.
Proof.
  intros (local & before & after & -> & _ & _ & _ & Hall).
  apply Forall_app in Hall as [Hl Hall]. apply Forall_app in Hall as [Hb Ha].
  split.
  - rewrite count_occ_app, count_occ_cons_eq by reflexivity.
    rewrite count_occ_app, count_occ_cons_neq by discriminate.
    rewrite !count_occ_plain by assumption. reflexivity.
  - assert (Hws : forall l, Forall (fun u => AuthChecks.plain u = true) l ->
                            Forall (fun u => AuthChecks.whitespace u = false) l).
    { intros l Hp. eapply Forall_impl; [exact Hp|].
      intros u Hu. now apply plain_spec in Hu. }
    apply Forall_app. split; [auto|]. constructor; [reflexivity|].
    apply Forall_app. split; [auto|]. constructor; [reflexivity | auto].
Qed.

(** X13: [isValidEmail] accepts exactly the texts that are not empty and
    have the shape local part, at sign, domain with an inner dot; an
    accepted text holds one at sign and no white space. *)
Theorem isValidEmail_shape (codeUnits : string -> list N) (email : string) :
  (AuthChecks.isValidEmail codeUnits email = true
   <-> email <> EmptyString /\ email_shape (codeUnits email))
  /\ (AuthChecks.isValidEmail codeUnits email = true ->
      count_occ N.eq_dec (codeUnits email) AuthChecks.at_sign = 1
      /\ Forall (fun u => AuthChecks.whitespace u = false) (codeUnits email)).
Proof.
  assert (Hiff : AuthChecks.isValidEmail codeUnits email = true
                 <-> email <> EmptyString /\ email_shape (codeUnits email)).
  { unfold AuthChecks.isValidEmail. destruct email as [|c s]; cbn [Js.truthy negb].
    - split; [discriminate | intros [H _]; congruence].
    - rewrite test_matches, emailRegex_shape. split; [|tauto].
      intros H. split; [discriminate | exact H]. }
  split; [exact Hiff|].
  intros Hv. apply Hiff in Hv as [_ Hs]. now apply email_shape_facts.
Qed.

Example isValidEmail_samples :
  AuthChecks.isValidEmail AuthChecks.ascii_codeUnits "a@b.c" = true
  /\ AuthChecks.isValidEmail AuthChecks.ascii_codeUnits "first.last@mail.example.com" = true
  /\ AuthChecks.isValidEmail AuthChecks.ascii_codeUnits "a@.b.c" = true
  /\ AuthChecks.isValidEmail AuthChecks.ascii_codeUnits "a@b" = false
  /\ AuthChecks.isValidEmail AuthChecks.ascii_codeUnits "a@b." = false
  /\ AuthChecks.isValidEmail AuthChecks.ascii_codeUnits "a@.c" = false
  /\ AuthChecks.isValidEmail AuthChecks.ascii_codeUnits "a@@b.c" = false
  /\ AuthChecks.isValidEmail AuthChecks.ascii_codeUnits "a b@c.d" = false
  /\ AuthChecks.isValidEmail AuthChecks.ascii_codeUnits "@b.c" = false.
Proof. repeat split; vm_compute; reflexivity. Qed.

(** X14: [validateEmail] reports a missing address exactly when the
    normalized address is empty (as for every value that is not a string),
    an invalid one when it is not empty and lacks the shape of an address,
    with the normalized address in the message, and accepts the others. *)
Theorem validateEmail_outcomes (trim toLowerCase : string -> string)
    (codeUnits : string -> list N) (email : Auth.JsValue) :
  let normalized := Auth.normalizeEmail trim toLowerCase email in
  let result := AuthChecks.validateEmail trim toLowerCase codeUnits email in
  (result = AuthChecks.Valid
   <-> normalized <> EmptyString /\ email_shape (codeUnits normalized))
  /\ (result = AuthChecks.Invalid "missing_email" "缺少客户邮箱，无法验证身份"
      <-> normalized = EmptyString)
  /\ (result = AuthChecks.Invalid "invalid_email" ("邮箱格式无效: " +:+ normalized)
      <-> normalized <> EmptyString /\ ~ email_shape (codeUnits normalized))
  /\ ((forall s, email <> Auth.JsString s) ->
      result = AuthChecks.Invalid "missing_email" "缺少客户邮箱，无法验证身份").
Proof.
  cbv zeta. unfold AuthChecks.validateEmail.
  set (normalized := Auth.normalizeEmail trim toLowerCase email).
  assert (Hns : (forall s, email <> Auth.JsString s) -> normalized = EmptyString).
  { intros Hns. subst normalized. destruct email as [| |b|n|s]; try reflexivity.
    now destruct (Hns s). }
  pose proof (isValidEmail_shape codeUnits normalized) as [Hshape _].
  destruct normalized as [|c s] eqn:Hn; cbn [Js.truthy negb].
  - split; [split; [discriminate | intros [H _]; congruence]|].
    split; [split; reflexivity|].
    split; [split; [discriminate | intros [H _]; congruence]|].
    reflexivity.
  - destruct (AuthChecks.isValidEmail codeUnits (String c s)) eqn:Hv; cbn [negb].
    + destruct Hshape as [Hv' _]. specialize (Hv' eq_refl).
      split; [split; [intros _; exact Hv' | reflexivity]|].
      split; [split; discriminate|].
      split; [split; [discriminate | intros [_ H]; now destruct H, Hv']|].
      intros Hnot. specialize (Hns Hnot). discriminate.
    + assert (Hno : ~ email_shape (codeUnits (String c s))).
      { intros Hs. destruct Hshape as [_ Hv'].
        assert (false = true) by (apply Hv'; split; [discriminate | exact Hs]).
        discriminate. }
      split; [split; [discriminate | intros [_ H]; contradiction]|].
      split; [split; discriminate|].
      split; [split; [intros _; split; [discriminate | exact Hno] | reflexivity]|].
      intros Hnot. specialize (Hns Hnot). discriminate.
Qed.

(** ** Ownership, the request and the whitelist *)

Section AuthChecksFacts.

Import Auth.

Variable trim : string -> string.
Variable toLowerCase : string -> string.

Hypothesis normalize_idempotent :
  forall s, toLowerCase (trim (toLowerCase (trim s))) = toLowerCase (trim s).
Hypothesis trim_empty : trim EmptyString = EmptyString.
Hypothesis toLowerCase_empty : toLowerCase EmptyString = EmptyString.

Lemma normalizeEmail_normal (email : JsValue) :
  normalizeEmail trim toLowerCase (JsString (normalizeEmail trim toLowerCase email))
  = normalizeEmail trim toLowerCase email.
Proof.
  apply normalizeEmail_idempotent; assumption.
Qed.

Lemma verify_spec (requester order : JsValue) (isAdmin : bool) :
  AuthChecks.verifyDraftOrderOwnership trim toLowerCase requester order isAdmin
  = AuthChecks.Authorized
  <-> isAdmin = true
      \/ (normalizeEmail trim toLowerCase order <> EmptyString
          /\ normalizeEmail trim toLowerCase order
             = normalizeEmail trim toLowerCase requester).
Proof.
  unfold AuthChecks.verifyDraftOrderOwnership.
  destruct isAdmin; [split; [now left | reflexivity]|].
  destruct (normalizeEmail trim toLowerCase order) as [|c s] eqn:Ho;
    cbn [Js.truthy negb orb].
  - split; [discriminate | intros [H | [H _]]; [discriminate | congruence]].
  - destruct (String.eqb (String c s) (normalizeEmail trim toLowerCase requester))
      eqn:Heq; cbn [negb].
    + apply String.eqb_eq in Heq. split; [|reflexivity].
      intros _. right. split; [discriminate | exact Heq].
    + apply String.eqb_neq in Heq.
      split; [discriminate | intros [H | [_ H]]; [discriminate | contradiction]].
Qed.

(** X15: an administrator is always authorized.  Anybody else is
    authorized exactly when the order has an address and it is the
    requester's up to case and surrounding blanks; an order without an
    address is refused, and the check depends on the two addresses through
    their normal forms only. *)
Theorem ownership_rule (requester order : JsValue) (isAdmin : bool) :
  let verify := AuthChecks.verifyDraftOrderOwnership trim toLowerCase in
  (verify requester order isAdmin = AuthChecks.Authorized
   <-> isAdmin = true
       \/ (normalizeEmail trim toLowerCase order <> EmptyString
           /\ normalizeEmail trim toLowerCase order
              = normalizeEmail trim toLowerCase requester))
  /\ (isAdmin = false ->
      normalizeEmail trim toLowerCase order = EmptyString ->
      verify requester order isAdmin
      = AuthChecks.Refused "forbidden" "仅允许访问本人未支付的询价单")
  /\ (isAdmin = false -> (forall s, order <> JsString s) ->
      verify requester order isAdmin <> AuthChecks.Authorized)
  /\ verify (JsString (normalizeEmail trim toLowerCase requester))
       (JsString (normalizeEmail trim toLowerCase order)) isAdmin
     = verify requester order isAdmin.
Proof.
  cbv zeta. split; [apply verify_spec | split; [|split]].
  - intros -> Ho. unfold AuthChecks.verifyDraftOrderOwnership. now rewrite Ho.
  - intros -> Hns Hauth. apply verify_spec in Hauth as [H | [H _]]; [discriminate|].
    apply H. destruct order as [| |b|n|s]; try reflexivity. now destruct (Hns s).
  - unfold AuthChecks.verifyDraftOrderOwnership. now rewrite !normalizeEmail_normal.
Qed.

Lemma or_truthy (a b : JsValue) : truthy a = true -> AuthChecks.or a b = a.
Proof. unfold AuthChecks.or. now intros ->. Qed.

Lemma or_falsy (a b : JsValue) : truthy a = false -> AuthChecks.or a b = b.
Proof. unfold AuthChecks.or. now intros ->. Qed.

Lemma hasAdminPermission_true (this : AuthService) (email admin : JsValue) :
  hasAdminPermission trim toLowerCase this email admin = true
  <-> In (toLowerCase (String_ (if truthy admin then admin else JsString EmptyString)))
         ["1"; "true"; "yes"]
      /\ In (normalizeEmail trim toLowerCase email) (adminWhitelist this).
Proof.
  unfold hasAdminPermission.
  rewrite andb_true_iff, includes_In, isAdmin_In, normalizeEmail_normal.
  reflexivity.
Qed.

(** X16: [extractAuthFromRequest] takes the address and the flag from the
    body first and from the query otherwise, each on its own.  The address
    it returns is in normal form; the administrator bit is set exactly when
    the flag is one of '1', 'true', 'yes' up to case and the address is in
    the whitelist; checked against an order, the pair authorizes exactly an
    administrator or the owner of the order. *)
Theorem extractAuth_result (this : AuthService) (req : AuthChecks.AuthRequest)
    (order : JsValue) :
  let given_email :=
    AuthChecks.or (AuthChecks.email_of (AuthChecks.body req))
      (AuthChecks.email_of (AuthChecks.query req)) in
  let given_admin :=
    AuthChecks.or (AuthChecks.admin_of (AuthChecks.body req))
      (AuthChecks.admin_of (AuthChecks.query req)) in
  let auth := AuthChecks.extractAuthFromRequest trim toLowerCase this req in
  fst auth = normalizeEmail trim toLowerCase given_email
  /\ normalizeEmail trim toLowerCase (JsString (fst auth)) = fst auth
  /\ (truthy (AuthChecks.email_of (AuthChecks.body req)) = true ->
      fst auth
      = normalizeEmail trim toLowerCase (AuthChecks.email_of (AuthChecks.body req)))
  /\ (snd auth = true
      <-> In (toLowerCase
                (String_ (if truthy given_admin then given_admin
                          else JsString EmptyString)))
             ["1"; "true"; "yes"]
          /\ In (fst auth) (adminWhitelist this))
  /\ (AuthChecks.verifyDraftOrderOwnership trim toLowerCase
        (JsString (fst auth)) order (snd auth) = AuthChecks.Authorized
      <-> snd auth = true
          \/ (normalizeEmail trim toLowerCase order <> EmptyString
              /\ normalizeEmail trim toLowerCase order = fst auth)).
Proof.
  cbv zeta. unfold AuthChecks.extractAuthFromRequest. cbn [fst snd].
  set (given_email := AuthChecks.or (AuthChecks.email_of (AuthChecks.body req))
                        (AuthChecks.email_of (AuthChecks.query req))).
  set (given_admin := AuthChecks.or (AuthChecks.admin_of (AuthChecks.body req))
                        (AuthChecks.admin_of (AuthChecks.query req))).
  assert (Hemail :
    normalizeEmail trim toLowerCase (AuthChecks.or given_email (JsString EmptyString))
    = normalizeEmail trim toLowerCase given_email).
  { unfold AuthChecks.or at 1. destruct (truthy given_email) eqn:Ht; [reflexivity|].
    destruct given_email as [| |b|n|s]; try reflexivity.
    cbn [truthy] in Ht. destruct s as [|c s]; [reflexivity | discriminate]. }
  assert (Hadmin :
    (if truthy (AuthChecks.or given_admin (JsString EmptyString))
     then AuthChecks.or given_admin (JsString EmptyString)
     else JsString EmptyString)
    = (if truthy given_admin then given_admin else JsString EmptyString)).
  { unfold AuthChecks.or. destruct (truthy given_admin) eqn:Ht.
    - now rewrite Ht.
    - reflexivity. }
  rewrite Hemail.
  split; [reflexivity | split; [apply normalizeEmail_normal | split; [|split]]].
  - intros Hbody. subst given_email. now rewrite or_truthy.
  - rewrite hasAdminPermission_true, Hadmin, normalizeEmail_normal. reflexivity.
  - rewrite verify_spec, normalizeEmail_normal. reflexivity.
Qed.

(** X17: every entry of the whitelist the constructor computes is in
    normal form and not empty.  A string is an administrator's address
    exactly when its normal form is not empty and is the normal form of one
    of the comma-separated parts of the configured list; a value that is
    not a string never is. *)
Theorem whitelist_membership (ADMIN_EMAIL_WHITELIST : option string) :
  let raw := Js.or_default ADMIN_EMAIL_WHITELIST
               "jonathan.wang@sainstore.com,issac.yu@sainstore.com" in
  let this := constructor trim toLowerCase ADMIN_EMAIL_WHITELIST in
  Forall (fun e => e <> EmptyString /\ toLowerCase (trim e) = e) (adminWhitelist this)
  /\ (forall s,
        isAdmin trim toLowerCase this (JsString s) = true
        <-> toLowerCase (trim s) <> EmptyString
            /\ exists part,
                 In part (Js.split "," raw)
                 /\ toLowerCase (trim part) = toLowerCase (trim s))
  /\ (forall v, (forall s, v <> JsString s) ->
                isAdmin trim toLowerCase this v = false).
Proof.
  cbv zeta. unfold constructor. cbn [adminWhitelist]. unfold parseAdminWhitelist.
  set (raw := Js.or_default ADMIN_EMAIL_WHITELIST
                "jonathan.wang@sainstore.com,issac.yu@sainstore.com").
  assert (Hmem : forall e,
            In e (List.filter (fun e => Js.truthy (Some e))
                    (List.map (fun email => toLowerCase (trim email))
                       (Js.split "," raw)))
            <-> e <> EmptyString
                /\ exists part, In part (Js.split "," raw)
                                /\ toLowerCase (trim part) = e).
  { intros e. rewrite filter_In, in_map_iff. split.
    - intros [(part & <- & Hpart) Ht]. split; [|eauto].
      intros He. rewrite He in Ht. discriminate.
    - intros [Hne (part & Hpart & <-)]. split; [eauto|].
      destruct (toLowerCase (trim part)); [congruence | reflexivity]. }
  split; [|split].
  - apply Forall_forall. intros e He. apply list_elem_of_In, Hmem in He
      as [Hne (part & _ & <-)].
    split; [exact Hne | apply normalize_idempotent].
  - intros s. rewrite isAdmin_In. cbn [adminWhitelist].
    rewrite (normalizeEmail_string trim toLowerCase trim_empty toLowerCase_empty).
    apply Hmem.
  - intros v Hns. apply not_true_is_false. rewrite isAdmin_In. cbn [adminWhitelist].
    intros Hin. apply Hmem in Hin as [Hne _]. apply Hne.
    destruct v as [| |b|n|s]; try reflexivity. now destruct (Hns s).
Qed.

End AuthChecksFacts.

(** A requester and an order whose addresses differ in case and blanks. *)
Lemma ownership_rule_sample :
  let verify :=
    AuthChecks.verifyDraftOrderOwnership Auth.ascii_trim Auth.ascii_toLowerCase in
  let requester := Auth.JsString " Kim@Example.com" in
  let order := Auth.JsString "kim@example.COM " in
  (verify requester order false = AuthChecks.Authorized
   <-> false = true
       \/ (Auth.normalizeEmail Auth.ascii_trim Auth.ascii_toLowerCase order
           <> EmptyString
           /\ Auth.normalizeEmail Auth.ascii_trim Auth.ascii_toLowerCase order
              = Auth.normalizeEmail Auth.ascii_trim Auth.ascii_toLowerCase requester))
  /\ (false = false ->
      Auth.normalizeEmail Auth.ascii_trim Auth.ascii_toLowerCase order = EmptyString ->
      verify requester order false
      = AuthChecks.Refused "forbidden" "仅允许访问本人未支付的询价单")
  /\ (false = false -> (forall s, order <> Auth.JsString s) ->
      verify requester order false <> AuthChecks.Authorized)
  /\ verify
       (Auth.JsString
          (Auth.normalizeEmail Auth.ascii_trim Auth.ascii_toLowerCase requester))
       (Auth.JsString
          (Auth.normalizeEmail Auth.ascii_trim Auth.ascii_toLowerCase order)) false
     = verify requester order false.
Proof.
  exact (ownership_rule Auth.ascii_trim Auth.ascii_toLowerCase
           ascii_normalize_idempotent eq_refl eq_refl
           (Auth.JsString " Kim@Example.com") (Auth.JsString "kim@example.COM ")
           false).
Defined.

Example ownership_samples :
  AuthChecks.verifyDraftOrderOwnership Auth.ascii_trim Auth.ascii_toLowerCase
    (Auth.JsString " Kim@Example.com") (Auth.JsString "kim@example.COM ") false
  = AuthChecks.Authorized
  /\ AuthChecks.verifyDraftOrderOwnership Auth.ascii_trim Auth.ascii_toLowerCase
       (Auth.JsString "") Auth.JsNull false
     = AuthChecks.Refused "forbidden" "仅允许访问本人未支付的询价单"
  /\ AuthChecks.verifyDraftOrderOwnership Auth.ascii_trim Auth.ascii_toLowerCase
       Auth.JsUndefined Auth.JsNull true
     = AuthChecks.Authorized.
Proof. repeat split; reflexivity. Qed.

(** The address comes from the body, the flag from the query. *)
Lemma extractAuth_result_sample :
  let this := Auth.constructor Auth.ascii_trim Auth.ascii_toLowerCase None in
  let order := Auth.JsString "customer@shop.example" in
  let given_email :=
    AuthChecks.or (AuthChecks.email_of (AuthChecks.body split_request))
      (AuthChecks.email_of (AuthChecks.query split_request)) in
  let given_admin :=
    AuthChecks.or (AuthChecks.admin_of (AuthChecks.body split_request))
      (AuthChecks.admin_of (AuthChecks.query split_request)) in
  let auth :=
    AuthChecks.extractAuthFromRequest Auth.ascii_trim Auth.ascii_toLowerCase this
      split_request in
  fst auth = Auth.normalizeEmail Auth.ascii_trim Auth.ascii_toLowerCase given_email
  /\ Auth.normalizeEmail Auth.ascii_trim Auth.ascii_toLowerCase
       (Auth.JsString (fst auth)) = fst auth
  /\ (Auth.truthy (AuthChecks.email_of (AuthChecks.body split_request)) = true ->
      fst auth
      = Auth.normalizeEmail Auth.ascii_trim Auth.ascii_toLowerCase
          (AuthChecks.email_of (AuthChecks.body split_request)))
  /\ (snd auth = true
      <-> In (Auth.ascii_toLowerCase
                (Auth.String_ (if Auth.truthy given_admin then given_admin
                               else Auth.JsString EmptyString)))
             ["1"; "true"; "yes"]
          /\ In (fst auth) (Auth.adminWhitelist this))
  /\ (AuthChecks.verifyDraftOrderOwnership Auth.ascii_trim Auth.ascii_toLowerCase
        (Auth.JsString (fst auth)) order (snd auth) = AuthChecks.Authorized
      <-> snd auth = true
          \/ (Auth.normalizeEmail Auth.ascii_trim Auth.ascii_toLowerCase order
              <> EmptyString
              /\ Auth.normalizeEmail Auth.ascii_trim Auth.ascii_toLowerCase order
                 = fst auth)).
Proof.
  exact (extractAuth_result Auth.ascii_trim Auth.ascii_toLowerCase
           ascii_normalize_idempotent eq_refl eq_refl
           (Auth.constructor Auth.ascii_trim Auth.ascii_toLowerCase None)
           split_request (Auth.JsString "customer@shop.example")).
Defined.

Example extractAuth_split_sources :
  AuthChecks.extractAuthFromRequest Auth.ascii_trim Auth.ascii_toLowerCase
    (Auth.constructor Auth.ascii_trim Auth.ascii_toLowerCase None) split_request
  = ("issac.yu@sainstore.com", true).
Proof. reflexivity. Qed.

(** A configured list with blanks, capitals and an empty part. *)
Lemma whitelist_membership_sample :
  let raw := Js.or_default (Some " Boss@Shop.example , ,ops@shop.example")
               "jonathan.wang@sainstore.com,issac.yu@sainstore.com" in
  let this :=
    Auth.constructor Auth.ascii_trim Auth.ascii_toLowerCase
      (Some " Boss@Shop.example , ,ops@shop.example") in
  Forall (fun e => e <> EmptyString
                   /\ Auth.ascii_toLowerCase (Auth.ascii_trim e) = e)
    (Auth.adminWhitelist this)
  /\ (forall s,
        Auth.isAdmin Auth.ascii_trim Auth.ascii_toLowerCase this (Auth.JsString s)
        = true
        <-> Auth.ascii_toLowerCase (Auth.ascii_trim s) <> EmptyString
            /\ exists part,
                 In part (Js.split "," raw)
                 /\ Auth.ascii_toLowerCase (Auth.ascii_trim part)
                    = Auth.ascii_toLowerCase (Auth.ascii_trim s))
  /\ (forall v, (forall s, v <> Auth.JsString s) ->
                Auth.isAdmin Auth.ascii_trim Auth.ascii_toLowerCase this v = false).
Proof.
  exact (whitelist_membership Auth.ascii_trim Auth.ascii_toLowerCase
           ascii_normalize_idempotent eq_refl eq_refl
           (Some " Boss@Shop.example , ,ops@shop.example")).
Defined.

Example whitelist_sample :
  Auth.adminWhitelist
    (Auth.constructor Auth.ascii_trim Auth.ascii_toLowerCase
       (Some " Boss@Shop.example , ,ops@shop.example"))
  = ["boss@shop.example"; "ops@shop.example"].
Proof. reflexivity. Qed.

(** * Properties of the CORS handling and of the administrator lists *)

(** ** The two copies of the CORS setup *)

Lemma copy_allow_origin (url_origin : string -> option string) (req : Request)
    (methods : CorsHandle.Value) (res : CorsHandle.Res) :
  header_of "Access-Control-Allow-Origin"
    (CorsHandle.setCorsHeaders url_origin req methods res)
  = Some (CorsHandle.Text
            (if Js.includes CorsHandle.allowedOrigins
                  (CorsConfig.effective_origin url_origin req)
             then CorsConfig.effective_origin url_origin req
             else "https://sain-pdc-test.myshopify.com")).
Proof.
  unfold header_of, CorsHandle.setCorsHeaders, CorsHandle.setHeader.
  cbn [CorsHandle.headers].
  rewrite !lookup_insert_ne by discriminate.
  now rewrite lookup_insert_eq.
Qed.

(** X18: the copy of the CORS setup kept beside the handler always answers
    with one of its five origins.  It agrees with the shared configuration
    module on every header, but for the origin [http://sainsmart.myshopify.com],
    which the copy echoes and the shared module replaces by the default. *)
Theorem cors_copy_allows_one_more_origin (url_origin : string -> option string)
    (req : Request) (methods : string) (res : Response) (res' : CorsHandle.Res) :
  let origin := CorsConfig.effective_origin url_origin req in
  let config := CorsConfig.setCorsHeaders url_origin req methods res in
  let copy := CorsHandle.setCorsHeaders url_origin req (CorsHandle.Text methods) res' in
  (exists a, header_of "Access-Control-Allow-Origin" copy = Some (CorsHandle.Text a)
             /\ In a CorsHandle.allowedOrigins)
  /\ (origin <> "http://sainsmart.myshopify.com" ->
      header_of "Access-Control-Allow-Origin" copy
      = CorsHandle.Text <$> allow_origin config)
  /\ (origin = "http://sainsmart.myshopify.com" ->
      header_of "Access-Control-Allow-Origin" copy = Some (CorsHandle.Text origin)
      /\ allow_origin config = Some default_store_domain)
  /\ (forall k, In k cors_header_names -> k <> "Access-Control-Allow-Origin" ->
                is_Some (header_of k copy)
                /\ header_of k copy = CorsHandle.Text <$> res_headers config !! k).
Proof.
  cbv zeta. rewrite copy_allow_origin, config_allow_origin.
  split; [|split; [|split]].
  - destruct (Js.includes CorsHandle.allowedOrigins _) eqn:E.
    + apply includes_In in E. eauto.
    + eexists. split; [reflexivity | simpl; auto].
  - intros Hne. cbn [fmap option_fmap option_map]. f_equal. f_equal.
    destruct (Js.includes CorsHandle.allowedOrigins _) eqn:E.
    + apply includes_In in E.
      assert (Hin : In (CorsConfig.effective_origin url_origin req)
                      CorsConfig.allowedOrigins).
      { simpl in E |- *. intuition congruence. }
      apply includes_In in Hin. now rewrite Hin.
    + apply includes_not_In in E.
      assert (Hout : ~ In (CorsConfig.effective_origin url_origin req)
                       CorsConfig.allowedOrigins).
      { intros Hin. apply E. simpl in Hin |- *. intuition. }
      apply includes_not_In in Hout. now rewrite Hout.
  - intros ->. split; reflexivity.
  - intros k Hk Hne.
    unfold header_of, CorsHandle.setCorsHeaders, CorsHandle.setHeader,
      CorsConfig.setCorsHeaders, setHeader.
    cbn [CorsHandle.headers res_headers].
    simpl in Hk.
    destruct Hk as [<-|[<-|[<-|[<-|[<-|[<-|[]]]]]]]; try congruence;
      repeat (rewrite lookup_insert_eq || (rewrite lookup_insert_ne by discriminate));
      (split; [eexists; reflexivity | reflexivity]).
Qed.

(** ** [handleCors] *)

Section HandleCorsFacts.

Variable trim : string -> string.
Variable toUpperCase : string -> string.
Variable url_origin : string -> option string.

Lemma handleCors_headers (req : Request) (allowedMethods : CorsHandle.Value)
    (res : CorsHandle.Res) :
  CorsHandle.headers
    (snd (CorsHandle.handleCors trim toUpperCase url_origin req allowedMethods res))
  = CorsHandle.headers (CorsHandle.setCorsHeaders url_origin req allowedMethods res).
Proof.
  unfold CorsHandle.handleCors.
  destruct (String.eqb (method req) "OPTIONS"); [reflexivity|].
  destruct allowedMethods as [s|items];
    match goal with |- context [negb ?b] => destruct b end; reflexivity.
Qed.

Lemma checked_methods_In (allowedMethods : CorsHandle.Value) (m : string) :
  In m (checked_methods trim toUpperCase allowedMethods)
  <-> m <> "OPTIONS" /\ In m (listed_methods trim toUpperCase allowedMethods).
Proof.
  unfold checked_methods. rewrite filter_In, negb_true_iff, String.eqb_neq. tauto.
Qed.

Lemma handleCors_unfold (req : Request) (allowedMethods : CorsHandle.Value)
    (res : CorsHandle.Res) :
  CorsHandle.handleCors trim toUpperCase url_origin req allowedMethods res
  = let res := CorsHandle.setCorsHeaders url_origin req allowedMethods res in
    if String.eqb (method req) "OPTIONS"
    then (true, CorsHandle.end_ (CorsHandle.status 204 res))
    else if Js.includes (checked_methods trim toUpperCase allowedMethods)
                        (toUpperCase (method req))
    then (false, res)
    else (true,
          CorsHandle.json
            [("error", "Method not allowed");
             ("message",
              "Only " +:+ CorsHandle.join ", "
                            (checked_methods trim toUpperCase allowedMethods)
              +:+ " methods are allowed")]
            (CorsHandle.status 405 res)).
Proof.
  unfold CorsHandle.handleCors, checked_methods, listed_methods. cbv zeta.
  destruct (String.eqb (method req) "OPTIONS"); [reflexivity|].
  destruct allowedMethods as [s|items];
    match goal with |- context [negb ?b] => destruct b end; reflexivity.
Qed.

(** X19: [handleCors] answers a pre-flight request with 204 whatever
    methods are allowed.  Any other request passes (the function returns
    false and leaves status and body alone) exactly when its method, in
    upper case, is listed and is not [OPTIONS]; otherwise it is answered
    405 with the checked methods in the message.  The function returns
    true exactly when it has answered, and the CORS headers are set in
    every case. *)
Theorem handleCors_outcomes (req : Request) (allowedMethods : CorsHandle.Value)
    (res : CorsHandle.Res) :
  let r := CorsHandle.handleCors trim toUpperCase url_origin req allowedMethods res in
  let checked := checked_methods trim toUpperCase allowedMethods in
  (method req = "OPTIONS" ->
   fst r = true /\ CorsHandle.code (snd r) = 204 /\ CorsHandle.sent (snd r) = CorsHandle.Ended)
  /\ (method req <> "OPTIONS" ->
      (fst r = false
       <-> toUpperCase (method req) <> "OPTIONS"
           /\ In (toUpperCase (method req))
                 (listed_methods trim toUpperCase allowedMethods)))
  /\ (fst r = false ->
      CorsHandle.code (snd r) = CorsHandle.code res
      /\ CorsHandle.sent (snd r) = CorsHandle.sent res)
  /\ (fst r = true -> method req <> "OPTIONS" ->
      CorsHandle.code (snd r) = 405
      /\ CorsHandle.sent (snd r)
         = CorsHandle.SentJson
             [("error", "Method not allowed");
              ("message",
               "Only " +:+ CorsHandle.join ", " checked +:+ " methods are allowed")])
  /\ (toUpperCase (method req) = "OPTIONS" -> fst r = true)
  /\ CorsHandle.headers (snd r)
     = CorsHandle.headers (CorsHandle.setCorsHeaders url_origin req allowedMethods res).
Proof.
  cbv zeta. rewrite handleCors_unfold. cbv zeta.
  destruct (String.eqb (method req) "OPTIONS") eqn:Hopt.
  - apply String.eqb_eq in Hopt.
    repeat split; try discriminate; try congruence.
  - apply String.eqb_neq in Hopt.
    destruct (Js.includes _ (toUpperCase (method req))) eqn:Hin.
    + apply includes_In, checked_methods_In in Hin.
      repeat split; try discriminate; try tauto.
    + apply includes_not_In in Hin. rewrite checked_methods_In in Hin.
      repeat split; try discriminate; try tauto.
Qed.

End HandleCorsFacts.

(** A request in lower case passes when its method is listed, but a
    pre-flight request in lower case is refused: only the exact name
    [OPTIONS] is answered 204. *)
Example handleCors_samples :
  let handle m :=
    CorsHandle.handleCors Auth.ascii_trim CorsHandle.ascii_toUpperCase
      (fun _ => None)
      {| method := m; header_origin := None; header_referer := None;
         query_draftOrderId := None |}
      (CorsHandle.Text "get, post") 
      {| CorsHandle.code := 200; CorsHandle.headers := ∅;
         CorsHandle.sent := CorsHandle.NotSent |} in
  fst (handle "post") = false
  /\ CorsHandle.code (snd (handle "OPTIONS")) = 204
  /\ CorsHandle.code (snd (handle "options")) = 405
  /\ CorsHandle.sent (snd (handle "DELETE"))
     = CorsHandle.SentJson
         [("error", "Method not allowed");
          ("message", "Only GET, POST methods are allowed")].
Proof. vm_compute. repeat split. Qed.

(** ** The administrators of the two modules *)

Section AdminEmailsFacts.

Variable trim : string -> string.
Variable toLowerCase : string -> string.

Lemma whitelist_no_empty (env : option string) :
  Js.includes
    (Auth.adminWhitelist (Auth.constructor trim toLowerCase env)) EmptyString
  = false.
Proof.
  apply includes_not_In. unfold Auth.constructor, Auth.parseAdminWhitelist.
  cbn [Auth.adminWhitelist]. rewrite filter_In. intros [_ H]. discriminate.
Qed.

Lemma getAdminEmails_configured (env : option string) :
  Js.truthy env = true ->
  AdminEmails.getAdminEmails trim toLowerCase env
  = Auth.adminWhitelist (Auth.constructor trim toLowerCase env).
Proof. destruct env as [[|c s]|]; try discriminate. reflexivity. Qed.

Lemma isAdmin_falsy (this : Auth.AuthService) (email : Auth.JsValue) :
  Js.includes (Auth.adminWhitelist this) EmptyString = false ->
  (Auth.truthy email = false \/ forall s, email <> Auth.JsString s) ->
  Auth.isAdmin trim toLowerCase this email = false.
Proof.
  intros Hempty Hcase. unfold Auth.isAdmin.
  destruct email as [| |b|n|[|c s]]; cbn [Auth.normalizeEmail Js.truthy negb];
    try exact Hempty.
  destruct Hcase as [H|H]; [discriminate | now destruct (H (String c s))].
Qed.

(** X20: when [ADMIN_EMAIL_WHITELIST] is set, [isAdminEmail] of the
    configuration module and [isAdmin] of the authorization service agree
    on every string.  Both refuse a falsy value; on a truthy value that is
    not a string [isAdmin] answers false while [isAdminEmail] throws. *)
Theorem isAdminEmail_agrees_with_isAdmin (ADMIN_EMAIL_WHITELIST : option string)
    (email : Auth.JsValue) :
  let this := Auth.constructor trim toLowerCase ADMIN_EMAIL_WHITELIST in
  let isAdminEmail :=
    AdminEmails.isAdminEmail trim toLowerCase ADMIN_EMAIL_WHITELIST in
  (Js.truthy ADMIN_EMAIL_WHITELIST = true ->
   forall s, isAdminEmail (Auth.JsString s)
             = Some (Auth.isAdmin trim toLowerCase this (Auth.JsString s)))
  /\ (Auth.truthy email = false ->
      isAdminEmail email = Some false
      /\ Auth.isAdmin trim toLowerCase this email = false)
  /\ (Auth.truthy email = true -> (forall s, email <> Auth.JsString s) ->
      isAdminEmail email = None
      /\ Auth.isAdmin trim toLowerCase this email = false).
Proof.
  cbv zeta. split; [|split].
  - intros Henv [|c s].
    + unfold AdminEmails.isAdminEmail, Auth.isAdmin.
      cbn [Auth.truthy Js.truthy negb Auth.normalizeEmail].
      now rewrite whitelist_no_empty.
    + unfold AdminEmails.isAdminEmail, Auth.isAdmin.
      cbn [Auth.truthy Js.truthy negb Auth.normalizeEmail].
      now rewrite getAdminEmails_configured.
  - intros Hfalsy. split.
    + unfold AdminEmails.isAdminEmail. now rewrite Hfalsy.
    + apply isAdmin_falsy; [apply whitelist_no_empty | now left].
  - intros Htruthy Hns. split.
    + unfold AdminEmails.isAdminEmail. rewrite Htruthy. cbn [negb].
      destruct email as [| |b|n|s]; try reflexivity. now destruct (Hns s).
    + apply isAdmin_falsy; [apply whitelist_no_empty | now right].
Qed.

End AdminEmailsFacts.

Section DefaultAdministrators.

Variable trim : string -> string.
Variable toLowerCase : string -> string.

(** The default addresses are in normal form already: they hold neither
    blanks nor capitals. *)
Hypothesis defaults_normal :
  forall e, In e AdminEmails.DEFAULT_ADMIN_EMAILS -> trim e = e /\ toLowerCase e = e.

Lemma default_service_admins (s : string) :
  Auth.isAdmin trim toLowerCase (Auth.constructor trim toLowerCase None)
    (Auth.JsString s)
  = Js.includes service_default_admins
      (Auth.normalizeEmail trim toLowerCase (Auth.JsString s)).
Proof.
  unfold Auth.isAdmin. f_equal.
  unfold Auth.constructor, Auth.parseAdminWhitelist. cbn [Auth.adminWhitelist].
  change (Js.split "," (Js.or_default None
                          "jonathan.wang@sainstore.com,issac.yu@sainstore.com"))
    with service_default_admins.
  unfold service_default_admins. cbn [List.map].
  destruct (defaults_normal "jonathan.wang@sainstore.com") as [-> ->];
    [simpl; tauto|].
  destruct (defaults_normal "issac.yu@sainstore.com") as [-> ->];
    [simpl; tauto|].
  reflexivity.
Qed.

Lemma default_config_admins (s : string) :
  AdminEmails.isAdminEmail trim toLowerCase None (Auth.JsString s)
  = Some (Js.includes AdminEmails.DEFAULT_ADMIN_EMAILS
            (Auth.normalizeEmail trim toLowerCase (Auth.JsString s))).
Proof.
  assert (Hlist : AdminEmails.getAdminEmails trim toLowerCase None
                  = AdminEmails.DEFAULT_ADMIN_EMAILS).
  { unfold AdminEmails.getAdminEmails. cbn [Js.truthy].
    rewrite <- (map_id AdminEmails.DEFAULT_ADMIN_EMAILS) at 2.
    apply map_ext_in. intros e He. now destruct (defaults_normal e He). }
  unfold AdminEmails.isAdminEmail. rewrite Hlist.
  destruct s as [|c s]; reflexivity.
Qed.

(** X21: without [ADMIN_EMAIL_WHITELIST] the two modules disagree.  Every
    default administrator of the authorization service is one of the
    configuration module, but five addresses are administrators for the
    configuration module only.  ([trim] and [toLowerCase] are any functions
    that leave the default addresses as they are, as the built-in ones
    do.) *)
Theorem default_administrators_differ (s : string) :
  let normal := Auth.normalizeEmail trim toLowerCase (Auth.JsString s) in
  let service :=
    Auth.isAdmin trim toLowerCase (Auth.constructor trim toLowerCase None)
      (Auth.JsString s) in
  let config :=
    AdminEmails.isAdminEmail trim toLowerCase None (Auth.JsString s) in
  (service = true <-> In normal service_default_admins)
  /\ (config = Some true <-> In normal AdminEmails.DEFAULT_ADMIN_EMAILS)
  /\ (service = true -> config = Some true)
  /\ (config = Some true /\ service = false <-> In normal config_only_admins).
Proof.
  cbv zeta. rewrite default_service_admins, default_config_admins.
  generalize (Auth.normalizeEmail trim toLowerCase (Auth.JsString s)). intros n.
  assert (Hsome : forall b, Some b = Some true <-> b = true)
    by (intros b; split; [now intros [= ->] | now intros ->]).
  rewrite Hsome, <- (not_true_iff_false (Js.includes service_default_admins n)),
    !includes_In.
  unfold service_default_admins, config_only_admins, AdminEmails.DEFAULT_ADMIN_EMAILS.
  cbn [In].
  intuition (subst; try discriminate; auto 10).
Qed.

End DefaultAdministrators.

Lemma ascii_defaults_normal (e : string) :
  In e AdminEmails.DEFAULT_ADMIN_EMAILS ->
  Auth.ascii_trim e = e /\ Auth.ascii_toLowerCase e = e.
Proof.
  unfold AdminEmails.DEFAULT_ADMIN_EMAILS. cbn [In].
  intros H. repeat (destruct H as [<- | H]; [split; reflexivity|]). destruct H.
Qed.

(** An address of the configuration module's list, written with capitals
    and blanks: an administrator there, none for the service. *)
Lemma default_administrators_differ_sample :
  AdminEmails.isAdminEmail Auth.ascii_trim Auth.ascii_toLowerCase None
    (Auth.JsString " Cherry@Sain3.com ") = Some true
  /\ Auth.isAdmin Auth.ascii_trim Auth.ascii_toLowerCase
       (Auth.constructor Auth.ascii_trim Auth.ascii_toLowerCase None)
       (Auth.JsString " Cherry@Sain3.com ") = false.
Proof.
  apply (proj2 (proj2 (proj2 (proj2
           (default_administrators_differ Auth.ascii_trim Auth.ascii_toLowerCase
              ascii_defaults_normal " Cherry@Sain3.com "))))).
  vm_compute. auto 10.
Defined.

(** * Properties of the error handler *)

(** ** Classification of errors by their message *)

Lemma with_default_twice (v d : Auth.JsValue) :
  ErrorHandler.with_default (ErrorHandler.with_default v d) d
  = ErrorHandler.with_default v d.
Proof. destruct v; try reflexivity; destruct d; reflexivity. Qed.

Ltac destruct_outcome :=
  match goal with
  | |- context [if ?res then ErrorHandler.Answered _ else _] => destruct res
  end.

Ltac classified :=
  destruct_outcome; cbn;
  repeat match goal with
         | |- _ /\ _ => split
         | |- _ <-> _ => split
         end;
  intros;
  repeat match goal with
         | H : _ /\ _ |- _ => destruct H
         end;
  try discriminate; try congruence; try reflexivity; auto 10;
  try apply with_default_twice.

(** X22: [handleError] classifies an [Error] by the first group of words
    its message mentions.  A message that mentions [Missing] is always a
    configuration error (500), never a missing parameter: the code
    [missing_parameter] is given exactly to the messages that mention
    '缺少' and nothing of the groups before.  A message that mentions none
    of the words keeps the default status and the code [unknown_error]. *)
Theorem handleError_classification (now message : string) (res : bool)
    (options : ErrorHandler.Options) :
  let r := response_of
             (ErrorHandler.handleError now (ErrorHandler.ErrorInstance message)
                res options) in
  let code := ErrorHandler.error (ErrorHandler.body r) in
  (Text.includes message "Missing" = true ->
   code = Auth.JsString "configuration_error"
   /\ ErrorHandler.status r = Auth.JsNumber 500)
  /\ (code = Auth.JsString "missing_parameter"
      <-> Text.includes message "缺少" = true
          /\ mentions_none message
               ["配置缺失"; "Missing"; "GraphQL"; "API"; "forbidden"; "无权";
                "未找到"; "不存在"] = true)
  /\ (code = Auth.JsString "unknown_error"
      <-> mentions_none message
            ["配置缺失"; "Missing"; "GraphQL"; "API"; "forbidden"; "无权";
             "未找到"; "不存在"; "缺少"] = true)
  /\ (code = Auth.JsString "unknown_error" ->
      ErrorHandler.status r = fallback_status options)
  /\ (code <> Auth.JsString "unknown_error" ->
      In (ErrorHandler.status r, code) recognized)
  /\ (Text.includes message "GraphQL" || Text.includes message "API" = true ->
      (ErrorHandler.status r, code)
      = if Text.includes message "配置缺失" || Text.includes message "Missing"
        then (Auth.JsNumber 500, Auth.JsString "configuration_error")
        else (Auth.JsNumber 502, Auth.JsString "shopify_api_error")).
Proof.
  cbv zeta. unfold ErrorHandler.handleError, mentions_none, fallback_status, recognized.
  cbn [forallb].
  destruct (Text.includes message "配置缺失"); [classified|].
  destruct (Text.includes message "Missing"); [classified|].
  destruct (Text.includes message "GraphQL"); [classified|].
  destruct (Text.includes message "API"); [classified|].
  destruct (Text.includes message "forbidden"); [classified|].
  destruct (Text.includes message "无权"); [classified|].
  destruct (Text.includes message "未找到"); [classified|].
  destruct (Text.includes message "不存在"); [classified|].
  destruct (Text.includes message "缺少"); classified.
Qed.

(** ** The shape of every error response *)

Lemma or_is_truthy (a d : Auth.JsValue) :
  Auth.truthy d = true -> Auth.truthy (AuthChecks.or a d) = true.
Proof.
  intros Hd. unfold AuthChecks.or. destruct (Auth.truthy a) eqn:Ha; assumption.
Qed.

Lemma with_default_defined (v d : Auth.JsValue) :
  d <> Auth.JsUndefined -> ErrorHandler.with_default v d <> Auth.JsUndefined.
Proof. intros Hd. destruct v; try discriminate. exact Hd. Qed.

Lemma or_defined (a d : Auth.JsValue) :
  d <> Auth.JsUndefined -> AuthChecks.or a d <> Auth.JsUndefined.
Proof.
  intros Hd. unfold AuthChecks.or. destruct a; try exact Hd;
    match goal with |- context [if ?b then _ else _] => destruct b end;
    try exact Hd; discriminate.
Qed.

Lemma handleError_outcome (now : string) (error : ErrorHandler.ErrorValue)
    (res : bool) (options : ErrorHandler.Options) :
  ErrorHandler.handleError now error res options
  = (if res then ErrorHandler.Answered else ErrorHandler.Built)
      (response_of (ErrorHandler.handleError now error res options)).
Proof.
  unfold ErrorHandler.handleError.
  destruct (match error with
            | ErrorHandler.ErrorInstance _ => _
            | _ => _
            end) as [[s c] m].
  destruct res; reflexivity.
Qed.

(** X23: whatever it is handed, [handleError] builds a response whose body
    has [success] false, a code and a message that are truthy (so never
    empty), the time of the clock and no details, and whose status is
    defined; it sends the response exactly when it was given a response
    object.  A value that is neither an [Error] nor an object keeps the
    code [unknown_error] and the default status. *)
Theorem handleError_response_shape (now : string) (error : ErrorHandler.ErrorValue)
    (res : bool) (options : ErrorHandler.Options) :
  let outcome := ErrorHandler.handleError now error res options in
  let r := response_of outcome in
  ErrorHandler.success (ErrorHandler.body r) = false
  /\ Auth.truthy (ErrorHandler.error (ErrorHandler.body r)) = true
  /\ Auth.truthy (ErrorHandler.message (ErrorHandler.body r)) = true
  /\ ErrorHandler.details (ErrorHandler.body r) = None
  /\ ErrorHandler.timestamp (ErrorHandler.body r) = now
  /\ ErrorHandler.status r <> Auth.JsUndefined
  /\ outcome = (if res then ErrorHandler.Answered r else ErrorHandler.Built r)
  /\ (forall v, error = ErrorHandler.Primitive v ->
        ErrorHandler.error (ErrorHandler.body r) = Auth.JsString "unknown_error"
        /\ ErrorHandler.status r = fallback_status options
        /\ ErrorHandler.message (ErrorHandler.body r)
           = match v with
             | Auth.JsString (String c s) => Auth.JsString (String c s)
             | _ => Auth.JsString "操作失败"
             end).
Proof.
  cbv zeta.
  split; [|split; [|split; [|split; [|split; [|split; [|split]]]]]].
  - rewrite handleError_outcome. unfold ErrorHandler.handleError.
    destruct (match error with
              | ErrorHandler.ErrorInstance _ => _
              | _ => _
              end) as [[s c] m].
    now destruct res.
  - unfold ErrorHandler.handleError.
    destruct (match error with
              | ErrorHandler.ErrorInstance _ => _
              | _ => _
              end) as [[s c] m].
    destruct res; cbn; now apply or_is_truthy.
  - unfold ErrorHandler.handleError.
    destruct (match error with
              | ErrorHandler.ErrorInstance _ => _
              | _ => _
              end) as [[s c] m].
    destruct res; cbn; now apply or_is_truthy.
  - unfold ErrorHandler.handleError.
    destruct (match error with
              | ErrorHandler.ErrorInstance _ => _
              | _ => _
              end) as [[s c] m].
    now destruct res.
  - unfold ErrorHandler.handleError.
    destruct (match error with
              | ErrorHandler.ErrorInstance _ => _
              | _ => _
              end) as [[s c] m].
    now destruct res.
  - unfold ErrorHandler.handleError.
    destruct (match error with
              | ErrorHandler.ErrorInstance _ => _
              | _ => _
              end) as [[s c] m].
    destruct res; cbn; now apply with_default_defined.
  - rewrite handleError_outcome at 1. now destruct res.
  - intros v ->. unfold ErrorHandler.handleError, fallback_status.
    destruct v as [| |b|n|[|c s]]; destruct res; cbn;
      rewrite ?with_default_twice; repeat split; reflexivity.
Qed.

(** ** Success responses *)

(** X24: in the body built by [createSuccessResponse] the time is always
    the clock's, and [success] is true unless the data has a member of this
    name, which then replaces it; [message] is the argument when it is
    truthy and the data's own member otherwise; every other member is the
    data's.  The status is the argument, 200 when it is not given. *)
Theorem createSuccessResponse_members (now : string) (V : Type)
    (of_value : Auth.JsValue -> V) (data : option (gmap string V))
    (status message : Auth.JsValue) :
  let r := ErrorHandler.createSuccessResponse now V of_value data status message in
  let given := match data with Some d => d | None => ∅ end in
  snd r !! "timestamp" = Some (of_value (Auth.JsString now))
  /\ snd r !! "success"
     = Some (match given !! "success" with
             | Some v => v
             | None => of_value (Auth.JsBool true)
             end)
  /\ snd r !! "message"
     = (if Auth.truthy message then Some (of_value message)
        else given !! "message")
  /\ (forall k, k <> "timestamp" -> k <> "success" -> k <> "message" ->
                snd r !! k = given !! k)
  /\ fst r = ErrorHandler.with_default status (Auth.JsNumber 200).
Proof.
  cbv zeta. unfold ErrorHandler.createSuccessResponse. cbn [fst snd].
  set (given := match data with Some d => d | None => ∅ end).
  assert (Hbase : forall k,
             (<["timestamp" := of_value (Auth.JsString now)]>
                (given ∪ <["success" := of_value (Auth.JsBool true)]> ∅) : gmap string V)
             !! k
             = if String.eqb k "timestamp" then Some (of_value (Auth.JsString now))
               else match given !! k with
                    | Some v => Some v
                    | None => if String.eqb k "success"
                              then Some (of_value (Auth.JsBool true)) else None
                    end).
  { intros k. destruct (String.eqb k "timestamp") eqn:Ek.
    - apply String.eqb_eq in Ek as ->. apply lookup_insert_eq.
    - apply String.eqb_neq in Ek.
      rewrite lookup_insert_ne by congruence.
      rewrite lookup_union. destruct (given !! k) as [v|] eqn:Eg.
      + now destruct ((<["success" := of_value (Auth.JsBool true)]> ∅ : gmap string V) !! k).
      + destruct (String.eqb k "success") eqn:Es.
        * apply String.eqb_eq in Es as ->. now rewrite lookup_insert_eq.
        * apply String.eqb_neq in Es.
          rewrite lookup_insert_ne by congruence. now rewrite lookup_empty. }
  split; [|split; [|split; [|split]]].
  - destruct (Auth.truthy message);
      [rewrite lookup_insert_ne by discriminate|]; now rewrite Hbase.
  - destruct (Auth.truthy message);
      [rewrite lookup_insert_ne by discriminate|]; rewrite Hbase; cbn;
      now destruct (given !! "success").
  - destruct (Auth.truthy message).
    + apply lookup_insert_eq.
    + rewrite Hbase. cbn. now destruct (given !! "message").
  - intros k Ht Hs Hm.
    assert (Hk : (<["timestamp" := of_value (Auth.JsString now)]>
                    (given ∪ <["success" := of_value (Auth.JsBool true)]> ∅)
                  : gmap string V) !! k = given !! k).
    { rewrite Hbase.
      apply String.eqb_neq in Ht, Hs. rewrite Ht, Hs.
      now destruct (given !! k). }
    destruct (Auth.truthy message); [rewrite lookup_insert_ne by congruence|];
      exact Hk.
  - reflexivity.
Qed.

(** * Properties of the client of the store *)

(** ** Substrings *)

Lemma prefix_append (sub a b : string) :
  String.prefix sub a = true -> String.prefix sub (a +:+ b) = true.
Proof.
  revert a. induction sub as [|c sub IH]; intros a; [now destruct (a +:+ b)|].
  destruct a as [|d a]; cbn [String.prefix]; [discriminate|].
  rewrite append_cons. cbn [String.prefix].
  destruct (ascii_dec c d); [apply IH | discriminate].
Qed.

Lemma includes_append_l (a b sub : string) :
  Text.includes a sub = true -> Text.includes (a +:+ b) sub = true.
Proof.
  induction a as [|c a IH].
  - cbn [Text.includes]. rewrite orb_false_r. intros H.
    destruct sub as [|d sub]; [|discriminate].
    destruct (EmptyString +:+ b); reflexivity.
  - cbn [Text.includes]. rewrite append_cons. cbn [Text.includes].
    intros [H|H]%orb_true_iff; apply orb_true_iff.
    + left. apply (prefix_append sub (String c a) b) in H.
      now rewrite append_cons in H.
    + right. now apply IH.
Qed.

(** ** What [query] sends and how it ends *)

Section ClientFacts.

Variable Variables : Type.
Variable Payload : Type.
Variable fetch : ShopifyClient.Call Variables -> ShopifyClient.Reply Payload.

Lemma first_user_error_None
    (members : list (string * option (ShopifyClient.Member Payload))) :
  ShopifyClient.first_user_error members = None
  <-> forall key member,
        In (key, Some member) members ->
        ShopifyClient.userErrors member = None
        \/ ShopifyClient.userErrors member = Some [].
Proof.
  induction members as [|[key [result|]] rest IH]; cbn [ShopifyClient.first_user_error].
  - split; [intros _ key member [] | reflexivity].
  - destruct (ShopifyClient.userErrors result) as [[|e es]|] eqn:Eu.
    + rewrite IH. split.
      * intros H k m [[= <- <-]|Hin]; [now right | eauto].
      * intros H k m Hin. apply (H k m). now right.
    + split; [discriminate|]. intros H.
      destruct (H key result (or_introl eq_refl)); congruence.
    + rewrite IH. split.
      * intros H k m [[= <- <-]|Hin]; [now left | eauto].
      * intros H k m Hin. apply (H k m). now right.
  - rewrite IH. split.
    + intros H k m [[=]|Hin]. eauto.
    + intros H k m Hin. apply (H k m). now right.
Qed.

Lemma attempt_Returned (call : ShopifyClient.Call Variables)
    (json : ShopifyClient.Json Payload) :
  ShopifyClient.attempt fetch call = Download.Returned json
  <-> (exists status statusText,
          fetch call = ShopifyClient.Response true status statusText
                         (Download.Returned json))
      /\ without_errors json /\ without_user_errors json.
Proof.
  unfold ShopifyClient.attempt, without_errors, without_user_errors.
  destruct (fetch call) as [m|ok status statusText [j|m]].
  - split; [discriminate | intros [(s & t & [=]) _]].
  - destruct ok; cbn [negb].
    + destruct (ShopifyClient.errors j) as [[|e es]|] eqn:Ee.
      * destruct (ShopifyClient.data j) as [members|] eqn:Ed.
        -- destruct (ShopifyClient.first_user_error members) as [m|] eqn:Eu.
           ++ split; [discriminate|].
              intros [(s & t & [= -> -> <-]) [_ Hu]].
              rewrite Ed in Hu. apply first_user_error_None in Hu. congruence.
           ++ split.
              ** intros [= <-]. rewrite Ed, Ee.
                 split; [eauto|]. split; [now right|].
                 now apply first_user_error_None.
              ** now intros [(s & t & [= -> -> <-]) _].
        -- split.
           ++ intros [= <-]. rewrite Ed, Ee.
              split; [eauto|]. split; [now right|]. intros k m [].
           ++ now intros [(s & t & [= -> -> <-]) _].
      * split; [discriminate|].
        intros [(s & t & [= -> -> <-]) [[He|He] _]]; congruence.
      * destruct (ShopifyClient.data j) as [members|] eqn:Ed.
        -- destruct (ShopifyClient.first_user_error members) as [m|] eqn:Eu.
           ++ split; [discriminate|].
              intros [(s & t & [= -> -> <-]) [_ Hu]].
              rewrite Ed in Hu. apply first_user_error_None in Hu. congruence.
           ++ split.
              ** intros [= <-]. rewrite Ed, Ee.
                 split; [eauto|]. split; [now left|].
                 now apply first_user_error_None.
              ** now intros [(s & t & [= -> -> <-]) _].
        -- split.
           ++ intros [= <-]. rewrite Ed, Ee.
              split; [eauto|]. split; [now left|]. intros k m [].
           ++ now intros [(s & t & [= -> -> <-]) _].
    + split; [discriminate | intros [(s & t & [=]) _]].
  - destruct ok; cbn [negb];
      (split; [discriminate | intros [(s & t & [=]) _]]).
Qed.

Lemma attempt_store_failure (call : ShopifyClient.Call Variables) (message : string) :
  store_failure (fetch call) message ->
  ShopifyClient.attempt fetch call = Download.Thrown message.
Proof.
  unfold ShopifyClient.attempt.
  intros [(status & statusText & json & -> & ->)
         |(status & statusText & json & first & others & -> & He & ->)].
  - reflexivity.
  - cbn [negb]. now rewrite He.
Qed.

Lemma store_failure_mentions (reply : ShopifyClient.Reply Payload) (message : string) :
  store_failure reply message ->
  (Text.includes message "Shopify" || Text.includes message "GraphQL" = true)
  /\ (Text.includes message "GraphQL" || Text.includes message "API" = true).
Proof.
  intros [(status & statusText & json & _ & ->)
         |(status & statusText & json & first & others & _ & _ & ->)].
  - split; apply orb_true_iff; [left | right];
      now apply (includes_append_l "Shopify API 请求失败: ").
  - split; apply orb_true_iff; [right | left];
      now apply (includes_append_l "GraphQL 错误: ").
Qed.

Lemma query_unfold (this : ShopifyClient.Client) (q : string) (variables : Variables) :
  ShopifyClient.query fetch this q variables
  = if negb (ShopifyClient.isConfigured this) then
      (Download.Thrown configuration_missing, [])
    else
      (match ShopifyClient.attempt fetch (request_of this q variables) with
       | Download.Returned json => Download.Returned json
       | Download.Thrown message =>
           if Text.includes message "Shopify" || Text.includes message "GraphQL"
           then Download.Thrown message
           else Download.Thrown ("Shopify API 调用失败: " +:+ message)
       end,
       [request_of this q variables]).
Proof. reflexivity. Qed.

Lemma query_store_failure (this : ShopifyClient.Client) (q : string)
    (variables : Variables) (message : string) :
  ShopifyClient.isConfigured this = true ->
  store_failure (fetch (request_of this q variables)) message ->
  fst (ShopifyClient.query fetch this q variables) = Download.Thrown message.
Proof.
  intros Hc Hf. rewrite query_unfold, Hc. cbn [negb fst].
  rewrite (attempt_store_failure _ _ Hf).
  now destruct (store_failure_mentions _ _ Hf) as [-> _].
Qed.

(** X25: every error [query] throws has a message that mentions [Shopify]
    or [GraphQL]: a failure whose message mentions neither is wrapped
    behind 'Shopify API 调用失败: '. *)
Theorem query_errors_mention_their_origin (this : ShopifyClient.Client)
    (q : string) (variables : Variables) (message : string) :
  fst (ShopifyClient.query fetch this q variables) = Download.Thrown message ->
  Text.includes message "Shopify" || Text.includes message "GraphQL" = true.
Proof.
  rewrite query_unfold.
  destruct (ShopifyClient.isConfigured this); cbn [negb fst].
  - destruct (ShopifyClient.attempt fetch _) as [json|m]; [discriminate|].
    destruct (Text.includes m "Shopify" || Text.includes m "GraphQL") eqn:Em.
    + now intros [= <-].
    + intros [= <-]. apply orb_true_iff. left.
      now apply (includes_append_l "Shopify API 调用失败: ").
  - now intros [= <-].
Qed.

(** X26: without a store domain or an access token [query] sends nothing
    and throws the configuration error; otherwise it sends exactly one
    request, to the endpoint of the client with its token.  It returns an
    answer exactly when the client is configured, the response is ok and
    parsed, and the answer lists neither errors nor user errors; the answer
    is returned as it was received.  A response that is not ok, or an
    answer that lists errors (whatever data comes with it), makes it throw
    the message built from the status line or from the first error. *)
Theorem query_requests_and_result (this : ShopifyClient.Client) (q : string)
    (variables : Variables) :
  let r := ShopifyClient.query fetch this q variables in
  let call := request_of this q variables in
  (ShopifyClient.isConfigured this = false ->
   r = (Download.Thrown configuration_missing, []))
  /\ (ShopifyClient.isConfigured this = true -> snd r = [call])
  /\ (forall json,
        fst r = Download.Returned json
        <-> ShopifyClient.isConfigured this = true
            /\ (exists status statusText,
                   fetch call = ShopifyClient.Response true status statusText
                                  (Download.Returned json))
            /\ without_errors json /\ without_user_errors json)
  /\ (forall message,
        ShopifyClient.isConfigured this = true ->
        store_failure (fetch call) message ->
        fst r = Download.Thrown message).
Proof.
  cbv zeta. split; [|split; [|split]].
  - intros Hc. now rewrite query_unfold, Hc.
  - intros Hc. now rewrite query_unfold, Hc.
  - intros json. rewrite query_unfold.
    destruct (ShopifyClient.isConfigured this); cbn [negb fst].
    + rewrite <- attempt_Returned.
      destruct (ShopifyClient.attempt fetch _) as [j|m].
      * split; [intros [= ->]; now split | now intros [_ [= ->]]].
      * split; [|now intros [_ [=]]].
        now destruct (Text.includes m "Shopify" || Text.includes m "GraphQL").
    + split; [discriminate | now intros [[=] _]].
  - intros message Hc Hf. now apply query_store_failure.
Qed.

End ClientFacts.

Lemma query_errors_mention_their_origin_sample :
  fst (ShopifyClient.query unreachable sample_client "{ shop { name } }" tt)
  = Download.Thrown "Shopify API 调用失败: connect ECONNREFUSED"
  /\ Text.includes "Shopify API 调用失败: connect ECONNREFUSED" "Shopify"
     || Text.includes "Shopify API 调用失败: connect ECONNREFUSED" "GraphQL" = true.
Proof.
  split; [reflexivity|].
  exact (query_errors_mention_their_origin unit unit unreachable sample_client
           "{ shop { name } }" tt _ eq_refl).
Defined.

(** ** Errors of the store, seen through the error handler *)

Lemma handleError_store_message (now message : string) (res : bool)
    (options : ErrorHandler.Options) :
  Text.includes message "GraphQL" || Text.includes message "API" = true ->
  message <> EmptyString ->
  response_of
    (ErrorHandler.handleError now (ErrorHandler.ErrorInstance message) res options)
  = {| ErrorHandler.status :=
         if Text.includes message "配置缺失" || Text.includes message "Missing"
         then Auth.JsNumber 500 else Auth.JsNumber 502;
       ErrorHandler.body :=
         {| ErrorHandler.success := false;
            ErrorHandler.error :=
              if Text.includes message "配置缺失" || Text.includes message "Missing"
              then Auth.JsString "configuration_error"
              else Auth.JsString "shopify_api_error";
            ErrorHandler.message := Auth.JsString message;
            ErrorHandler.timestamp := now;
            ErrorHandler.details := None |} |}.
Proof.
  intros Hapi Hne. unfold ErrorHandler.handleError.
  destruct message as [|c message]; [congruence|].
  destruct (Text.includes (String c message) "配置缺失"
            || Text.includes (String c message) "Missing").
  - now destruct res.
  - rewrite Hapi. now destruct res.
Qed.

Lemma store_failure_nonempty {Payload : Type} (reply : ShopifyClient.Reply Payload)
    (message : string) :
  store_failure reply message -> message <> EmptyString.
Proof.
  intros [(status & statusText & json & _ & ->)
         |(status & statusText & json & first & others & _ & _ & ->)];
    discriminate.
Qed.

(** X27: an endpoint that calls the store and is wrapped by [asyncHandler]
    returns the answer of the store when [query] returns.  A missing
    configuration is answered 500 [configuration_error].  A response of
    the store that is not ok (a 404 as well) and an answer that lists
    errors are answered 502 [shopify_api_error] with the message of
    [query], unless the message mentions [Missing] or '配置缺失': then they
    are answered 500 [configuration_error]. *)
Theorem store_failures_answered (Variables Payload : Type)
    (fetch : ShopifyClient.Call Variables -> ShopifyClient.Reply Payload)
    (this : ShopifyClient.Client) (q : string) (variables : Variables)
    (now : string) (options : ErrorHandler.Options) (res : bool) :
  let wrapped :=
    ErrorHandler.asyncHandler now (query_endpoint fetch this q variables) options in
  let sent response :=
    inr (if res then ErrorHandler.Answered response else ErrorHandler.Built response) in
  (forall json,
     fst (ShopifyClient.query fetch this q variables) = Download.Returned json ->
     wrapped tt res = inl json)
  /\ (ShopifyClient.isConfigured this = false ->
      exists response,
        wrapped tt res = sent response
        /\ ErrorHandler.status response = Auth.JsNumber 500
        /\ ErrorHandler.error (ErrorHandler.body response)
           = Auth.JsString "configuration_error"
        /\ ErrorHandler.message (ErrorHandler.body response)
           = Auth.JsString configuration_missing)
  /\ (forall message,
        ShopifyClient.isConfigured this = true ->
        store_failure (fetch (request_of this q variables)) message ->
        exists response,
          wrapped tt res = sent response
          /\ ErrorHandler.message (ErrorHandler.body response) = Auth.JsString message
          /\ (ErrorHandler.status response,
              ErrorHandler.error (ErrorHandler.body response))
             = if Text.includes message "配置缺失" || Text.includes message "Missing"
               then (Auth.JsNumber 500, Auth.JsString "configuration_error")
               else (Auth.JsNumber 502, Auth.JsString "shopify_api_error")).
Proof.
  cbv zeta. unfold ErrorHandler.asyncHandler, query_endpoint.
  split; [|split].
  - now intros json ->.
  - intros Hc. rewrite query_unfold, Hc. cbn [negb fst].
    rewrite handleError_outcome.
    eexists. split; [destruct res; reflexivity|].
    destruct res; repeat split; reflexivity.
  - intros message Hc Hf.
    rewrite (query_store_failure _ _ fetch this q variables message Hc Hf).
    rewrite handleError_outcome.
    rewrite handleError_store_message;
      [| apply (store_failure_mentions _ _ _ Hf)
       | apply (store_failure_nonempty _ _ Hf)].
    eexists. split; [destruct res; reflexivity|].
    cbn [ErrorHandler.status ErrorHandler.body ErrorHandler.error ErrorHandler.message].
    split; [reflexivity|].
    now destruct (Text.includes message "配置缺失" || Text.includes message "Missing").
Qed.

(** A 404 of the store is answered 502; an error of the store that names a
    missing field is answered as a configuration error. *)
Example store_failures_samples :
  let answer fetch :=
    match ErrorHandler.asyncHandler "2025-01-01T00:00:00.000Z"
            (query_endpoint fetch sample_client "{ shop { name } }" tt)
            ErrorHandler.no_options tt true with
    | inr outcome =>
        Some (ErrorHandler.status (response_of outcome),
              ErrorHandler.error (ErrorHandler.body (response_of outcome)),
              ErrorHandler.message (ErrorHandler.body (response_of outcome)))
    | inl _ => None
    end in
  answer not_found_store
  = Some (Auth.JsNumber 502, Auth.JsString "shopify_api_error",
          Auth.JsString "Shopify API 请求失败: 404 Not Found")
  /\ answer (fun _ =>
               ShopifyClient.Response true 200 "OK"
                 (Download.Returned
                    {| ShopifyClient.errors := Some ["Missing field 'id'"];
                       ShopifyClient.data := None |}))
     = Some (Auth.JsNumber 500, Auth.JsString "configuration_error",
             Auth.JsString "GraphQL 错误: Missing field 'id'").
Proof. split; vm_compute; reflexivity. Qed.

(** ** The client and the handler's own [shopGql] *)

(** X28: under the same environment the client and the handler's own
    [shopGql] are configured together, and then send their one request to
    the same endpoint with the same token; without configuration neither
    sends anything, but [shopGql] returns an answer that lists the error
    while [query] throws. *)
Theorem client_and_shopGql_agree (P : Download.Platform) (Variables Payload : Type)
    (fetch : ShopifyClient.Call Variables -> ShopifyClient.Reply Payload)
    (q : string) (variables : Variables) (gql : Download.GqlQuery) :
  let this := ShopifyClient.constructor (env_of P) in
  let sent := snd (ShopifyClient.query fetch this q variables) in
  let lookup := run (Download.shopGql P gql) in
  ShopifyClient.isConfigured this = configured P
  /\ (configured P = false ->
      sent = [] /\ snd lookup = []
      /\ fst (ShopifyClient.query fetch this q variables)
         = Download.Thrown configuration_missing
      /\ fst lookup
         = Download.Returned
             {| Download.errors :=
                  Some ["Missing SHOPIFY_STORE_DOMAIN or SHOPIFY_ACCESS_TOKEN"];
                Download.data := None |})
  /\ (configured P = true ->
      exists endpoint token,
        endpoint <> EmptyString /\ token <> EmptyString
        /\ String.prefix "https://" endpoint = true
        /\ sent = [{| ShopifyClient.url := Some endpoint;
                      ShopifyClient.token := Some token;
                      ShopifyClient.body_query := q;
                      ShopifyClient.body_variables := variables |}]
        /\ snd lookup = [Download.EvPost endpoint gql]
        /\ fst lookup = Download.post_json P [] endpoint token gql).
Proof.
  cbv zeta.
  unfold run, Download.shopGql, configured, env_of, ShopifyClient.query,
    ShopifyClient.isConfigured, ShopifyClient.constructor.
  cbn [ShopifyClient.storeDomain ShopifyClient.accessToken ShopifyClient.endpoint
       ShopifyClient.SHOPIFY_STORE_DOMAIN ShopifyClient.SHOP
       ShopifyClient.SHOPIFY_ACCESS_TOKEN ShopifyClient.ADMIN_TOKEN].
  destruct (Download.SHOPIFY_STORE_DOMAIN P) as [[|c1 d1]|],
    (Download.SHOP P) as [[|c2 d2]|],
    (Download.SHOPIFY_ACCESS_TOKEN P) as [[|c3 d3]|],
    (Download.ADMIN_TOKEN P) as [[|c4 d4]|];
    cbn; (split; [reflexivity|]); (split; [intros H; try discriminate H|]);
    try (repeat split; reflexivity);
    intros H; try discriminate H;
    eexists _, _; repeat split; try reflexivity; discriminate.
Qed.

(** ** The client the constructor builds *)

(** X29: a client built by the constructor has an endpoint exactly when it
    has a store domain, and the endpoint is then the GraphQL address of
    this domain; [SHOPIFY_STORE_DOMAIN] and [SHOPIFY_ACCESS_TOKEN] are
    preferred to [SHOP] and [ADMIN_TOKEN] whenever they are not empty.  So
    no request of [query] goes to a missing endpoint or without a token. *)
Theorem constructed_client (env : ShopifyClient.Env) (Variables Payload : Type)
    (fetch : ShopifyClient.Call Variables -> ShopifyClient.Reply Payload)
    (q : string) (variables : Variables) :
  let this := ShopifyClient.constructor env in
  let status := ShopifyClient.getConfigStatus this in
  ShopifyClient.configured status
  = ShopifyClient.hasStoreDomain status && ShopifyClient.hasAccessToken status
  /\ (ShopifyClient.hasStoreDomain status = false
      <-> ShopifyClient.status_endpoint status = None)
  /\ (forall domain,
        ShopifyClient.storeDomain this = Some domain -> domain <> EmptyString ->
        ShopifyClient.status_endpoint status
        = Some ("https://" +:+ domain +:+ "/admin/api/2024-01/graphql.json"))
  /\ (Js.truthy (ShopifyClient.SHOPIFY_STORE_DOMAIN env) = true ->
      ShopifyClient.storeDomain this = ShopifyClient.SHOPIFY_STORE_DOMAIN env)
  /\ (Js.truthy (ShopifyClient.SHOPIFY_STORE_DOMAIN env) = false ->
      ShopifyClient.storeDomain this = ShopifyClient.SHOP env)
  /\ (Js.truthy (ShopifyClient.SHOPIFY_ACCESS_TOKEN env) = true ->
      ShopifyClient.accessToken this = ShopifyClient.SHOPIFY_ACCESS_TOKEN env)
  /\ (Js.truthy (ShopifyClient.SHOPIFY_ACCESS_TOKEN env) = false ->
      ShopifyClient.accessToken this = ShopifyClient.ADMIN_TOKEN env)
  /\ (forall call,
        In call (snd (ShopifyClient.query fetch this q variables)) ->
        Js.truthy (ShopifyClient.url call) = true
        /\ Js.truthy (ShopifyClient.token call) = true).
Proof.
  cbv zeta.
  unfold ShopifyClient.getConfigStatus, ShopifyClient.query,
    ShopifyClient.isConfigured, ShopifyClient.constructor, Js.or.
  cbn [ShopifyClient.storeDomain ShopifyClient.accessToken ShopifyClient.endpoint
       ShopifyClient.configured ShopifyClient.hasStoreDomain
       ShopifyClient.hasAccessToken ShopifyClient.status_endpoint
       ShopifyClient.apiVersion].
  split; [reflexivity|].
  split; [|split; [|split; [|split; [|split; [|split]]]]].
  - destruct (Js.truthy (ShopifyClient.SHOPIFY_STORE_DOMAIN env)) eqn:E1.
    + rewrite E1. split; discriminate.
    + destruct (Js.truthy (ShopifyClient.SHOP env)); split;
        try discriminate; reflexivity.
  - intros domain Hd Hne.
    assert (Ht : Js.truthy
                   (if Js.truthy (ShopifyClient.SHOPIFY_STORE_DOMAIN env)
                    then ShopifyClient.SHOPIFY_STORE_DOMAIN env
                    else ShopifyClient.SHOP env) = true).
    { rewrite Hd. destruct domain; [congruence | reflexivity]. }
    rewrite Ht, Hd. destruct domain; [congruence | reflexivity].
  - now intros ->.
  - now intros ->.
  - now intros ->.
  - now intros ->.
  - intros call.
    destruct (Js.truthy
                (if Js.truthy (ShopifyClient.SHOPIFY_STORE_DOMAIN env)
                 then ShopifyClient.SHOPIFY_STORE_DOMAIN env
                 else ShopifyClient.SHOP env)) eqn:Ed; [|intros []].
    destruct (Js.truthy
                (if Js.truthy (ShopifyClient.SHOPIFY_ACCESS_TOKEN env)
                 then ShopifyClient.SHOPIFY_ACCESS_TOKEN env
                 else ShopifyClient.ADMIN_TOKEN env)) eqn:Et; [|intros []].
    cbn [negb andb snd]. intros [<-|[]].
    cbn [ShopifyClient.url ShopifyClient.token]. split; [|exact Et].
    destruct (if Js.truthy (ShopifyClient.SHOPIFY_STORE_DOMAIN env)
              then ShopifyClient.SHOPIFY_STORE_DOMAIN env
              else ShopifyClient.SHOP env) as [[|c d]|]; try discriminate.
    reflexivity.
Qed.
